(** * Secure P2P file share: signaling, key agreement and chunked transfer

    A shallow embedding of the React component [App] (the signaling
    listener, [setupPeerConnection], [setupDataChannelEvents],
    [connectToPeer], [sendFile], [hashFile]) together with the part of the
    browser interfaces it calls (WebCrypto's [crypto.subtle], the
    RTCPeerConnection signaling states, the Firestore mailbox).

    Conventions.
    - Every [async] function is a computation in the monad [M]: it threads
      the component's state (React state, refs and the environment) and
      either returns or throws.  [await] is the monad's bind; a handler
      runs to completion before the next event is delivered.
    - JavaScript numbers that hold sizes and offsets are [Z]; the progress
      percentage is an exact rational [Q].
    - Strings are sequences of UTF-8 bytes; [trim] strips the white
      space and line terminators of ECMAScript in that encoding.
    - Data a browser parser has to accept is typed by what the parser
      makes of it: a text frame is JSON or not, a JWK has a point or
      none, an [sdp] is a session description or not.
    - The cryptographic primitives behind WebCrypto (the P-256 group,
      AES-GCM, SHA-256) are interfaces ([Class]es) with the laws the
      standards give them.
    - The repository holds two copies of the component.  They agree on
      everything modelled here except that the longer one also refuses
      to connect without a [userId] and wraps the body of [reader.onload]
      in [try]/[catch]; the model follows the longer one. *)

From Stdlib Require Import ZArith NArith QArith List String Ascii Lia.
From Stdlib.Strings Require Import Byte.
From stdpp Require Import base gmap strings list.
Import ListNotations.
Open Scope string_scope.
Open Scope list_scope.
Open Scope Z_scope.

(* ===================================================================== *)
(** * Bytes and hexadecimal digits *)
(* ===================================================================== *)

Abbreviation bytes := (list byte).

Definition byteLength (b : bytes) : Z := Z.of_nat (length b).

(** [ArrayBuffer.prototype.slice(begin, end)] for non-negative arguments:
    the bounds are clamped to the buffer's length. *)
Definition slice (b : bytes) (start stop : Z) : bytes :=
  take (Z.to_nat (stop - start)) (drop (Z.to_nat start) b).

(** [buffer.slice(begin)]: everything from [begin] on. *)
Definition sliceFrom (b : bytes) (start : Z) : bytes :=
  drop (Z.to_nat start) b.

Definition hexDigit (n : N) : ascii :=
  match n with
  | 0%N => "0" | 1%N => "1" | 2%N => "2" | 3%N => "3"
  | 4%N => "4" | 5%N => "5" | 6%N => "6" | 7%N => "7"
  | 8%N => "8" | 9%N => "9" | 10%N => "a" | 11%N => "b"
  | 12%N => "c" | 13%N => "d" | 14%N => "e" | _ => "f"
  end%char.

(** [b.toString(16)] for a byte: one digit below 16, two digits otherwise. *)
Definition toString16 (b : byte) : string :=
  let n := Byte.to_N b in
  if (n <? 16)%N then String (hexDigit n) EmptyString
  else String (hexDigit (n / 16)) (String (hexDigit (n mod 16)) EmptyString).

(** [s.padStart(2, '0')]. *)
Definition padStart2 (s : string) : string :=
  match s with
  | EmptyString => "00"
  | String c EmptyString => String "0"%char (String c EmptyString)
  | _ => s
  end.

(** [arr.map(f).join('')]. *)
Definition joinMap (f : byte -> string) (arr : bytes) : string :=
  String.concat "" (map f arr).

(* ===================================================================== *)
(** * Cryptographic primitives behind WebCrypto *)
(* ===================================================================== *)

(** The group of the named curve: a base point, scalar multiplication and
    the big-endian x coordinate that ECDH outputs (32 bytes for P-256). *)
Class Curve := {
  point : Type;
  basePoint : point;
  smul : N -> point -> point;
  xcoord : point -> bytes;
  smul_smul : forall (a b : N) (P : point), smul a (smul b P) = smul (a * b) P;
  xcoord_length : forall P : point, length (xcoord P) = 32%nat
}.

(** AES-GCM with a 128-bit tag: the ciphertext carries the tag, and
    opening what was sealed under the same key and IV gives the plaintext
    back. *)
Class Aead := {
  gcm_seal : bytes -> bytes -> bytes -> bytes;
  gcm_open : bytes -> bytes -> bytes -> option bytes;
  gcm_open_seal : forall key iv plain : bytes,
    gcm_open key iv (gcm_seal key iv plain) = Some plain
}.

(** SHA-256. *)
Class Hash := {
  sha256 : bytes -> bytes
}.

(* ===================================================================== *)
(** * Exceptions and the state monad of the handlers *)
(* ===================================================================== *)

Inductive Exn :=
  | TypeError | SyntaxError | DataError | InvalidAccessError
  | OperationError | InvalidStateError
  | JsError (msg : string).

Inductive Outcome (A : Type) :=
  | Ok (a : A)
  | Throw (e : Exn).
Arguments Ok {A} a.
Arguments Throw {A} e.

(* ===================================================================== *)
(** * WebCrypto: keys and the [crypto.subtle] operations the app calls *)
(* ===================================================================== *)

Inductive KeyUsage :=
  | encrypt | decrypt | sign | verify
  | deriveKey | deriveBits | wrapKey | unwrapKey.

Inductive KeyType := public | private | secret.

Inductive KeyAlgorithm :=
  | ECDH (namedCurve : string)
  | AES_GCM (length : Z).

Definition usage_eqb (a b : KeyUsage) : bool :=
  match a, b with
  | encrypt, encrypt | decrypt, decrypt | sign, sign | verify, verify
  | deriveKey, deriveKey | deriveBits, deriveBits
  | wrapKey, wrapKey | unwrapKey, unwrapKey => true
  | _, _ => false
  end.

Definition hasUsage (u : KeyUsage) (us : list KeyUsage) : bool :=
  existsb (usage_eqb u) us.

Definition isEcdhUsage (u : KeyUsage) : bool :=
  match u with deriveKey | deriveBits => true | _ => false end.

Definition isAesUsage (u : KeyUsage) : bool :=
  match u with encrypt | decrypt | wrapKey | unwrapKey => true | _ => false end.

Section WebCrypto.
Context {curve : Curve} {aead : Aead} {hash : Hash}.

(** What a [CryptoKey] holds internally. *)
Inductive KeyMaterial :=
  | PrivateScalar (d : N)
  | PublicPoint (Q : point)
  | SecretBytes (raw : bytes).

Record CryptoKey := {
  key_type : KeyType;
  key_extractable : bool;
  key_algorithm : KeyAlgorithm;
  key_usages : list KeyUsage;
  key_material : KeyMaterial
}.

Record CryptoKeyPair := {
  privateKey : CryptoKey;
  publicKey : CryptoKey
}.

(** A JSON Web Key as it travels in a signaling message.  [jwk_point]
    is [None] when the coordinates do not decode to a point of the
    curve. *)
Record Jwk := {
  jwk_kty : string;
  jwk_crv : string;
  jwk_point : option point;
  jwk_d : option N;
  jwk_k : option bytes;
  jwk_ext : bool;
  jwk_key_ops : list KeyUsage
}.

(** [crypto.subtle.generateKey({name:'ECDH', namedCurve}, extractable,
    usages)].  [d] is the private scalar drawn by the browser.  The
    public key of a pair is always extractable and has no usages; the
    [extractable] argument applies to the private key. *)
Definition generateKey (namedCurve : string) (extractable : bool)
    (usages : list KeyUsage) (d : N) : Outcome CryptoKeyPair :=
  if negb (forallb isEcdhUsage usages) then Throw SyntaxError
  else if negb (existsb isEcdhUsage usages) then Throw SyntaxError
  else Ok {|
    privateKey := {| key_type := private;
                     key_extractable := extractable;
                     key_algorithm := ECDH namedCurve;
                     key_usages := List.filter isEcdhUsage usages;
                     key_material := PrivateScalar d |};
    publicKey := {| key_type := public;
                    key_extractable := true;
                    key_algorithm := ECDH namedCurve;
                    key_usages := [];
                    key_material := PublicPoint (smul d basePoint) |}
  |}.

(** [crypto.subtle.exportKey('jwk', key)]. *)
Definition exportKey (key : CryptoKey) : Outcome Jwk :=
  if negb (key_extractable key) then Throw InvalidAccessError
  else match key_algorithm key, key_material key with
    | ECDH crv, PublicPoint Q =>
        Ok {| jwk_kty := "EC"; jwk_crv := crv; jwk_point := Some Q;
              jwk_d := None; jwk_k := None;
              jwk_ext := key_extractable key;
              jwk_key_ops := key_usages key |}
    | ECDH crv, PrivateScalar d =>
        Ok {| jwk_kty := "EC"; jwk_crv := crv;
              jwk_point := Some (smul d basePoint);
              jwk_d := Some d; jwk_k := None;
              jwk_ext := key_extractable key;
              jwk_key_ops := key_usages key |}
    | AES_GCM _, SecretBytes raw =>
        Ok {| jwk_kty := "oct"; jwk_crv := ""; jwk_point := None;
              jwk_d := None; jwk_k := Some raw;
              jwk_ext := key_extractable key;
              jwk_key_ops := key_usages key |}
    | _, _ => Throw OperationError
    end.

(** [crypto.subtle.importKey('jwk', keyData, {name:'ECDH', namedCurve},
    extractable, usages)].  [keyData] is [None] when the message has no
    usable [publicKey] field. *)
Definition importKeyJwk (keyData : option Jwk) (namedCurve : string)
    (extractable : bool) (usages : list KeyUsage) : Outcome CryptoKey :=
  match keyData with
  | None => Throw DataError
  | Some jwk =>
      match jwk_d jwk with
      | Some d =>
          if negb (forallb isEcdhUsage usages) then Throw SyntaxError
          else if negb (String.eqb (jwk_kty jwk) "EC") then Throw DataError
          else if negb (jwk_ext jwk) && extractable then Throw DataError
          else if negb (String.eqb (jwk_crv jwk) namedCurve) then Throw DataError
          else match jwk_point jwk with
            | None => Throw DataError
            | Some _ =>
                if negb (existsb isEcdhUsage usages) then Throw SyntaxError
                else Ok {| key_type := private;
                           key_extractable := extractable;
                           key_algorithm := ECDH namedCurve;
                           key_usages := usages;
                           key_material := PrivateScalar d |}
            end
      | None =>
          match usages with
          | _ :: _ => Throw SyntaxError
          | [] =>
              if negb (String.eqb (jwk_kty jwk) "EC") then Throw DataError
              else if negb (jwk_ext jwk) && extractable then Throw DataError
              else if negb (String.eqb (jwk_crv jwk) namedCurve) then Throw DataError
              else match jwk_point jwk with
                | None => Throw DataError
                | Some Q =>
                    Ok {| key_type := public;
                          key_extractable := extractable;
                          key_algorithm := ECDH namedCurve;
                          key_usages := [];
                          key_material := PublicPoint Q |}
                end
          end
      end
  end.

(** [crypto.subtle.deriveBits({name:'ECDH', public: pub}, baseKey,
    length)]: the first [length] bits of the x coordinate of
    [d * Q]. *)
Definition deriveBitsOp (pub baseKey : CryptoKey) (length : Z)
    : Outcome bytes :=
  if negb (hasUsage deriveBits (key_usages baseKey)) then Throw InvalidAccessError
  else match key_type baseKey, key_algorithm baseKey, key_material baseKey,
             key_type pub, key_algorithm pub, key_material pub with
    | private, ECDH crv, PrivateScalar d, public, ECDH crv', PublicPoint Q =>
        if negb (String.eqb crv crv') then Throw InvalidAccessError
        else
          let shared := xcoord (smul d Q) in
          if 8 * byteLength shared <? length then Throw OperationError
          else Ok (take (Z.to_nat (length / 8)) shared)
    | _, _, _, _, _, _ => Throw InvalidAccessError
    end.

(** [crypto.subtle.importKey('raw', keyData, {name:'AES-GCM', length},
    extractable, usages)]. *)
Definition importKeyRaw (keyData : bytes) (extractable : bool)
    (usages : list KeyUsage) : Outcome CryptoKey :=
  if negb (forallb isAesUsage usages) then Throw SyntaxError
  else
    let bits := 8 * byteLength keyData in
    if negb ((bits =? 128) || (bits =? 192) || (bits =? 256)) then Throw DataError
    else match usages with
      | [] => Throw SyntaxError
      | _ :: _ =>
          Ok {| key_type := secret;
                key_extractable := extractable;
                key_algorithm := AES_GCM bits;
                key_usages := usages;
                key_material := SecretBytes keyData |}
      end.

(** [crypto.subtle.encrypt({name:'AES-GCM', iv}, key, data)]: the
    result is the ciphertext followed by the tag. *)
Definition encryptOp (iv : bytes) (key : CryptoKey) (data : bytes)
    : Outcome bytes :=
  match key_algorithm key, key_material key with
  | AES_GCM _, SecretBytes raw =>
      if negb (hasUsage encrypt (key_usages key)) then Throw InvalidAccessError
      else Ok (gcm_seal raw iv data)
  | _, _ => Throw InvalidAccessError
  end.

(** [crypto.subtle.decrypt({name:'AES-GCM', iv}, key, data)]. *)
Definition decryptOp (iv : bytes) (key : CryptoKey) (data : bytes)
    : Outcome bytes :=
  match key_algorithm key, key_material key with
  | AES_GCM _, SecretBytes raw =>
      if negb (hasUsage decrypt (key_usages key)) then Throw InvalidAccessError
      else match gcm_open raw iv data with
        | Some plain => Ok plain
        | None => Throw OperationError
        end
  | _, _ => Throw InvalidAccessError
  end.

(** [crypto.subtle.digest('SHA-256', buf)]. *)
Definition digest (buf : bytes) : bytes := sha256 buf.

End WebCrypto.

(* ===================================================================== *)
(** * WebRTC: session descriptions, peer connection, data channel *)
(* ===================================================================== *)

(** The [sdp] field of a description as the browser takes it: the text
    of a session description it accepts, or anything else, which it
    rejects. *)
Inductive SdpText :=
  | Sdp (text : string)
  | NotSdp (raw : string).

Record RTCSessionDescription := {
  sdp_type : string;
  sdp : SdpText
}.

Inductive SignalingState := stable | have_local_offer | have_remote_offer.

(** [icePeer] is the [peerId] captured by the [onicecandidate] closure. *)
Record RTCPeerConnection := {
  signalingState : SignalingState;
  localDescription : option RTCSessionDescription;
  remoteDescription : option RTCSessionDescription;
  remoteCandidates : list string;
  icePeer : string
}.

Record RTCDataChannel := {
  label : string;
  readyState : string
}.

Definition newPeerConnection (peerId : string) : RTCPeerConnection :=
  {| signalingState := stable; localDescription := None;
     remoteDescription := None; remoteCandidates := []; icePeer := peerId |}.

Definition createDataChannel (name : string) : RTCDataChannel :=
  {| label := name; readyState := "connecting" |}.

Definition createOffer (pc : RTCPeerConnection) (text : string)
    : Outcome RTCSessionDescription :=
  match signalingState pc with
  | have_remote_offer => Throw InvalidStateError
  | _ => Ok {| sdp_type := "offer"; sdp := Sdp text |}
  end.

Definition createAnswer (pc : RTCPeerConnection) (text : string)
    : Outcome RTCSessionDescription :=
  match signalingState pc with
  | have_remote_offer => Ok {| sdp_type := "answer"; sdp := Sdp text |}
  | _ => Throw InvalidStateError
  end.

(** Both [setLocalDescription] and [setRemoteDescription] reject a
    description whose type does not fit the signaling state and one whose
    [sdp] does not parse. *)
Definition setLocalDescription (pc : RTCPeerConnection)
    (desc : RTCSessionDescription) : Outcome RTCPeerConnection :=
  if String.eqb (sdp_type desc) "offer" then
    match signalingState pc with
    | have_remote_offer => Throw InvalidStateError
    | _ =>
        match sdp desc with
        | NotSdp _ => Throw OperationError
        | Sdp _ =>
            Ok {| signalingState := have_local_offer;
                  localDescription := Some desc;
                  remoteDescription := remoteDescription pc;
                  remoteCandidates := remoteCandidates pc;
                  icePeer := icePeer pc |}
        end
    end
  else if String.eqb (sdp_type desc) "answer" then
    match signalingState pc with
    | have_remote_offer =>
        match sdp desc with
        | NotSdp _ => Throw OperationError
        | Sdp _ =>
            Ok {| signalingState := stable;
                  localDescription := Some desc;
                  remoteDescription := remoteDescription pc;
                  remoteCandidates := remoteCandidates pc;
                  icePeer := icePeer pc |}
        end
    | _ => Throw InvalidStateError
    end
  else Throw TypeError.

(** [desc] is [None] when the message lacks the field. *)
Definition setRemoteDescription (pc : RTCPeerConnection)
    (desc : option RTCSessionDescription) : Outcome RTCPeerConnection :=
  match desc with
  | None => Throw TypeError
  | Some d =>
      if String.eqb (sdp_type d) "offer" then
        match signalingState pc with
        | have_local_offer => Throw InvalidStateError
        | _ =>
            match sdp d with
            | NotSdp _ => Throw OperationError
            | Sdp _ =>
                Ok {| signalingState := have_remote_offer;
                      localDescription := localDescription pc;
                      remoteDescription := Some d;
                      remoteCandidates := remoteCandidates pc;
                      icePeer := icePeer pc |}
            end
        end
      else if String.eqb (sdp_type d) "answer" then
        match signalingState pc with
        | have_local_offer =>
            match sdp d with
            | NotSdp _ => Throw OperationError
            | Sdp _ =>
                Ok {| signalingState := stable;
                      localDescription := localDescription pc;
                      remoteDescription := Some d;
                      remoteCandidates := remoteCandidates pc;
                      icePeer := icePeer pc |}
            end
        | _ => Throw InvalidStateError
        end
      else Throw TypeError
  end.

Definition addIceCandidate (pc : RTCPeerConnection) (cand : option string)
    : Outcome RTCPeerConnection :=
  match cand, remoteDescription pc with
  | None, _ => Ok pc
  | Some _, None => Throw InvalidStateError
  | Some c, Some _ =>
      Ok {| signalingState := signalingState pc;
            localDescription := localDescription pc;
            remoteDescription := remoteDescription pc;
            remoteCandidates := remoteCandidates pc ++ [c];
            icePeer := icePeer pc |}
  end.

(* ===================================================================== *)
(** * Files, control messages and frames on the data channel *)
(* ===================================================================== *)

Record File := {
  file_name : string;
  file_type : string;
  file_data : bytes
}.

Definition file_size (f : File) : Z := byteLength (file_data f).

(** The object a control message parses to: [{type, fileName, fileSize,
    fileType, fileHash}]. *)
Record ControlMessage := {
  cm_type : string;
  fileName : string;
  fileSize : Z;
  fileType : string;
  fileHash : string
}.

(** A text frame either is the JSON of a control object or is not JSON at
    all; [JSON.parse (JSON.stringify o)] gives [o] back. *)
Inductive Text :=
  | Json (o : ControlMessage)
  | NotJson (raw : string).

Definition JSON_stringify (o : ControlMessage) : Text := Json o.

Definition JSON_parse (t : Text) : Outcome ControlMessage :=
  match t with
  | Json o => Ok o
  | NotJson _ => Throw SyntaxError
  end.

(** [event.data] of a data-channel message: a string or an ArrayBuffer. *)
Inductive Frame :=
  | TextFrame (t : Text)
  | BinaryFrame (b : bytes).

Record Blob := {
  blob_parts : bytes;
  blob_type : string
}.

Record ReceivedFile := {
  name : string;
  blob : Blob
}.

Record TransferRecord := {
  tr_senderId : option string;
  tr_recipientId : string;
  tr_fileName : string;
  tr_fileHash : string;
  tr_timestamp : string
}.

(** The status line shown to the user. *)
Inductive Message :=
  | MsgWelcome
  | MsgOfferHandled | MsgAnswerHandled | MsgSignalingFailed
  | MsgChannelOpen | MsgPeerDisconnected
  | MsgReceiving (fname : string) (size : Z)
  | MsgVerified | MsgVerificationFailed | MsgDecryptFailed
  | MsgPeerIdGenerated (id : string)
  | MsgEnterPeerId | MsgCreatingOffer | MsgOfferSent | MsgConnectFailed
  | MsgFileSelected (fname : string)
  | MsgSelectFileAndConnect | MsgNoSymmetricKey | MsgSending
  | MsgFileSent | MsgTransferError
  | MsgNoFile | MsgDownloading (fname : string).

(* ===================================================================== *)
(** * The component's state *)
(* ===================================================================== *)

Section App.
Context {curve : Curve} {aead : Aead} {hash : Hash}.

(** A document of a signaling collection:
    [{type, senderId, targetId?, publicKey?, offer?, answer?,
    candidate?}]. *)
Record SignalData := {
  sd_type : string;
  senderId : string;
  targetId : option string;
  sd_publicKey : option Jwk;
  offer : option RTCSessionDescription;
  answer : option RTCSessionDescription;
  candidate : option string
}.

(** One entry of [snap.docChanges()]. *)
Record DocChange := {
  change_type : string;
  doc_id : string;
  doc_data : SignalData
}.

(** [useState] cells.  [userId] is [None] until sign-in completes. *)
Record ReactState := {
  userId : option string;
  peerIdInput : string;
  connectedPeerId : string;
  connectionStatus : string;
  file : option File;
  transferProgress : Q;
  message : Message;
  receivedFile : option ReceivedFile
}.

(** [useRef] cells. *)
Record Refs := {
  peerConnection : option RTCPeerConnection;
  dataChannel : option RTCDataChannel;
  receiveBuffer : list bytes;
  receivedFileMetadata : option ControlMessage;
  receivedSize : Z;
  symmetricKey : option CryptoKey;
  cryptoKeyPair : option CryptoKeyPair
}.

(** What the handlers act on outside the component.
    - [mailbox]: the user's own signaling collection, by document id;
      [deleteCalls] lists the [deleteDoc] calls in order.
    - [outbox]: the [addDoc] calls on a signaling collection, each with
      the identity whose mailbox it writes to.
    - [fileHistory]: the [addDoc] calls on the history collection.
    - [wire]: the [dataChannel.send] calls in order.
    - [scalars], [randomBytes]: what the browser's generator yields on
      its n-th key generation and for its n-th random byte.
    - [sdpText], [clock]: the text of the next session description and
      the current time. *)
Record Env := {
  mailbox : gmap string SignalData;
  deleteCalls : list string;
  outbox : list (string * SignalData);
  fileHistory : list TransferRecord;
  wire : list Frame;
  scalars : nat -> N;
  keygenCount : nat;
  randomBytes : nat -> byte;
  randomCount : nat;
  sdpText : string;
  clock : string
}.

Record World := {
  ui : ReactState;
  refs : Refs;
  env : Env
}.

Definition withUi (f : ReactState -> ReactState) (w : World) : World :=
  {| ui := f (ui w); refs := refs w; env := env w |}.
Definition withRefs (f : Refs -> Refs) (w : World) : World :=
  {| ui := ui w; refs := f (refs w); env := env w |}.
Definition withEnv (f : Env -> Env) (w : World) : World :=
  {| ui := ui w; refs := refs w; env := f (env w) |}.

(** ** The monad *)

Definition M (A : Type) : Type := World -> Outcome A * World.

Definition ret {A} (a : A) : M A := fun w => (Ok a, w).

Definition bind {A B} (c : M A) (k : A -> M B) : M B := fun w =>
  match c w with
  | (Ok a, w') => k a w'
  | (Throw e, w') => (Throw e, w')
  end.

Definition throw {A} (e : Exn) : M A := fun w => (Throw e, w).

Definition get : M World := fun w => (Ok w, w).

Definition modify (f : World -> World) : M unit := fun w => (Ok tt, f w).

(** Lift the outcome of a browser call. *)
Definition lift {A} (o : Outcome A) : M A := fun w => (o, w).

(** [x.field] on a ref that may hold [null]. *)
Definition deref {A} (o : option A) : M A :=
  match o with
  | Some a => ret a
  | None => throw TypeError
  end.

(** [try { body } catch (e) { handler }]. *)
Definition tryCatch (body : M unit) (handler : Exn -> M unit) : M unit :=
  fun w =>
    match body w with
    | (Ok _, w') => (Ok tt, w')
    | (Throw e, w') => handler e w'
    end.

(** [try { body } catch (e) { handler } finally { fin }]. *)
Definition tryCatchFinally (body : M unit) (handler : Exn -> M unit)
    (fin : M unit) : M unit :=
  fun w =>
    match tryCatch body handler w with
    | (Ok _, w') => fin w'
    | (Throw e, w') =>
        match fin w' with
        | (Ok _, w'') => (Throw e, w'')
        | (Throw e', w'') => (Throw e', w'')
        end
    end.

(** The state an event handler leaves behind; an exception escaping an
    event handler is reported to the console and the state stays as it
    was when it was thrown. *)
Definition exec {A} (c : M A) (w : World) : World := snd (c w).

End App.

Declare Scope js_scope.
Delimit Scope js_scope with js.
Notation "'let*' x ':=' c 'in' k" := (bind c (fun x => k))
  (at level 10, x name, c at level 100, k at level 200) : js_scope.
Notation "c ';;;' k" := (bind c (fun _ => k))
  (at level 100, k at level 200, right associativity) : js_scope.
Open Scope js_scope.

(* ===================================================================== *)
(** * State updates and calls into the environment *)
(* ===================================================================== *)

Section Effects.
Context {curve : Curve} {aead : Aead} {hash : Hash}.

(** ** [useState] setters *)

Definition setConnectedPeerId (v : string) : M unit :=
  modify (withUi (fun s =>
    {| userId := userId s; peerIdInput := peerIdInput s;
       connectedPeerId := v; connectionStatus := connectionStatus s;
       file := file s; transferProgress := transferProgress s;
       message := message s; receivedFile := receivedFile s |})).

Definition setPeerIdInput (v : string) : M unit :=
  modify (withUi (fun s =>
    {| userId := userId s; peerIdInput := v;
       connectedPeerId := connectedPeerId s;
       connectionStatus := connectionStatus s;
       file := file s; transferProgress := transferProgress s;
       message := message s; receivedFile := receivedFile s |})).

Definition setConnectionStatus (v : string) : M unit :=
  modify (withUi (fun s =>
    {| userId := userId s; peerIdInput := peerIdInput s;
       connectedPeerId := connectedPeerId s; connectionStatus := v;
       file := file s; transferProgress := transferProgress s;
       message := message s; receivedFile := receivedFile s |})).

Definition setFile (v : option File) : M unit :=
  modify (withUi (fun s =>
    {| userId := userId s; peerIdInput := peerIdInput s;
       connectedPeerId := connectedPeerId s;
       connectionStatus := connectionStatus s;
       file := v; transferProgress := transferProgress s;
       message := message s; receivedFile := receivedFile s |})).

Definition setTransferProgress (v : Q) : M unit :=
  modify (withUi (fun s =>
    {| userId := userId s; peerIdInput := peerIdInput s;
       connectedPeerId := connectedPeerId s;
       connectionStatus := connectionStatus s;
       file := file s; transferProgress := v;
       message := message s; receivedFile := receivedFile s |})).

Definition setMessage (v : Message) : M unit :=
  modify (withUi (fun s =>
    {| userId := userId s; peerIdInput := peerIdInput s;
       connectedPeerId := connectedPeerId s;
       connectionStatus := connectionStatus s;
       file := file s; transferProgress := transferProgress s;
       message := v; receivedFile := receivedFile s |})).

Definition setReceivedFile (v : option ReceivedFile) : M unit :=
  modify (withUi (fun s =>
    {| userId := userId s; peerIdInput := peerIdInput s;
       connectedPeerId := connectedPeerId s;
       connectionStatus := connectionStatus s;
       file := file s; transferProgress := transferProgress s;
       message := message s; receivedFile := v |})).

(** ** Assignments to [ref.current] *)

Definition set_peerConnection (v : option RTCPeerConnection) : M unit :=
  modify (withRefs (fun r =>
    {| peerConnection := v; dataChannel := dataChannel r;
       receiveBuffer := receiveBuffer r;
       receivedFileMetadata := receivedFileMetadata r;
       receivedSize := receivedSize r; symmetricKey := symmetricKey r;
       cryptoKeyPair := cryptoKeyPair r |})).

Definition set_dataChannel (v : option RTCDataChannel) : M unit :=
  modify (withRefs (fun r =>
    {| peerConnection := peerConnection r; dataChannel := v;
       receiveBuffer := receiveBuffer r;
       receivedFileMetadata := receivedFileMetadata r;
       receivedSize := receivedSize r; symmetricKey := symmetricKey r;
       cryptoKeyPair := cryptoKeyPair r |})).

Definition set_receiveBuffer (v : list bytes) : M unit :=
  modify (withRefs (fun r =>
    {| peerConnection := peerConnection r; dataChannel := dataChannel r;
       receiveBuffer := v;
       receivedFileMetadata := receivedFileMetadata r;
       receivedSize := receivedSize r; symmetricKey := symmetricKey r;
       cryptoKeyPair := cryptoKeyPair r |})).

Definition set_receivedFileMetadata (v : option ControlMessage) : M unit :=
  modify (withRefs (fun r =>
    {| peerConnection := peerConnection r; dataChannel := dataChannel r;
       receiveBuffer := receiveBuffer r;
       receivedFileMetadata := v;
       receivedSize := receivedSize r; symmetricKey := symmetricKey r;
       cryptoKeyPair := cryptoKeyPair r |})).

Definition set_receivedSize (v : Z) : M unit :=
  modify (withRefs (fun r =>
    {| peerConnection := peerConnection r; dataChannel := dataChannel r;
       receiveBuffer := receiveBuffer r;
       receivedFileMetadata := receivedFileMetadata r;
       receivedSize := v; symmetricKey := symmetricKey r;
       cryptoKeyPair := cryptoKeyPair r |})).

Definition set_symmetricKey (v : option CryptoKey) : M unit :=
  modify (withRefs (fun r =>
    {| peerConnection := peerConnection r; dataChannel := dataChannel r;
       receiveBuffer := receiveBuffer r;
       receivedFileMetadata := receivedFileMetadata r;
       receivedSize := receivedSize r; symmetricKey := v;
       cryptoKeyPair := cryptoKeyPair r |})).

Definition set_cryptoKeyPair (v : option CryptoKeyPair) : M unit :=
  modify (withRefs (fun r =>
    {| peerConnection := peerConnection r; dataChannel := dataChannel r;
       receiveBuffer := receiveBuffer r;
       receivedFileMetadata := receivedFileMetadata r;
       receivedSize := receivedSize r; symmetricKey := symmetricKey r;
       cryptoKeyPair := v |})).

(** Read a ref or a state cell. *)
Definition readRef {A} (proj : Refs -> A) : M A :=
  fun w => (Ok (proj (refs w)), w).
Definition readUi {A} (proj : ReactState -> A) : M A :=
  fun w => (Ok (proj (ui w)), w).
Definition readEnv {A} (proj : Env -> A) : M A :=
  fun w => (Ok (proj (env w)), w).

(** ** Firestore *)

(** [deleteDoc(doc(db, signalingCollectionPath, id))] on the user's own
    mailbox. *)
Definition deleteDoc (id : string) : M unit :=
  modify (withEnv (fun e =>
    {| mailbox := delete id (mailbox e);
       deleteCalls := deleteCalls e ++ [id];
       outbox := outbox e; fileHistory := fileHistory e; wire := wire e;
       scalars := scalars e; keygenCount := keygenCount e;
       randomBytes := randomBytes e; randomCount := randomCount e;
       sdpText := sdpText e; clock := clock e |})).

(** [addDoc(collection(db, `artifacts/${APP_ID}/users/${peer}/signaling`),
    data)]. *)
Definition addDoc (peer : string) (data : SignalData) : M unit :=
  modify (withEnv (fun e =>
    {| mailbox := mailbox e; deleteCalls := deleteCalls e;
       outbox := outbox e ++ [(peer, data)];
       fileHistory := fileHistory e; wire := wire e;
       scalars := scalars e; keygenCount := keygenCount e;
       randomBytes := randomBytes e; randomCount := randomCount e;
       sdpText := sdpText e; clock := clock e |})).

(** [addDoc] on the user's [fileHistory] collection. *)
Definition addHistory (r : TransferRecord) : M unit :=
  modify (withEnv (fun e =>
    {| mailbox := mailbox e; deleteCalls := deleteCalls e;
       outbox := outbox e;
       fileHistory := fileHistory e ++ [r]; wire := wire e;
       scalars := scalars e; keygenCount := keygenCount e;
       randomBytes := randomBytes e; randomCount := randomCount e;
       sdpText := sdpText e; clock := clock e |})).

(** ** Data channel and randomness *)

(** [dataChannel.current.send(data)]. *)
Definition send (data : Frame) : M unit :=
  let* dc := bind (readRef dataChannel) deref in
  if String.eqb (readyState dc) "open" then
    modify (withEnv (fun e =>
      {| mailbox := mailbox e; deleteCalls := deleteCalls e;
         outbox := outbox e; fileHistory := fileHistory e;
         wire := wire e ++ [data];
         scalars := scalars e; keygenCount := keygenCount e;
         randomBytes := randomBytes e; randomCount := randomCount e;
         sdpText := sdpText e; clock := clock e |}))
  else throw InvalidStateError.

(** [crypto.getRandomValues(new Uint8Array(n))]. *)
Definition getRandomValues (n : nat) : M bytes :=
  fun w =>
    let e := env w in
    (Ok (map (randomBytes e) (seq (randomCount e) n)),
     withEnv (fun e =>
      {| mailbox := mailbox e; deleteCalls := deleteCalls e;
         outbox := outbox e; fileHistory := fileHistory e; wire := wire e;
         scalars := scalars e; keygenCount := keygenCount e;
         randomBytes := randomBytes e; randomCount := (randomCount e + n)%nat;
         sdpText := sdpText e; clock := clock e |}) w).

(** The private scalar of the next key generation. *)
Definition freshScalar : M N :=
  fun w =>
    let e := env w in
    (Ok (scalars e (keygenCount e)),
     withEnv (fun e =>
      {| mailbox := mailbox e; deleteCalls := deleteCalls e;
         outbox := outbox e; fileHistory := fileHistory e; wire := wire e;
         scalars := scalars e; keygenCount := S (keygenCount e);
         randomBytes := randomBytes e; randomCount := randomCount e;
         sdpText := sdpText e; clock := clock e |}) w).

(** A method of [peerConnection.current] that changes the connection. *)
Definition onPeerConnection
    (f : RTCPeerConnection -> Outcome RTCPeerConnection) : M unit :=
  let* pc := bind (readRef peerConnection) deref in
  let* pc' := lift (f pc) in
  set_peerConnection (Some pc').

End Effects.

(* ===================================================================== *)
(** * The component's functions *)
(* ===================================================================== *)

(** Strings are sequences of UTF-8 bytes.  [utf8 l] is the string with
    the bytes [l]. *)
Definition utf8 (l : list nat) : string :=
  string_of_list_ascii (map ascii_of_nat l).

(** The characters [String.prototype.trim] strips: the WhiteSpace and
    LineTerminator code points of ECMAScript (TAB, LF, VT, FF, CR,
    SPACE, U+00A0, U+1680, U+2000 to U+200A, U+2028, U+2029, U+202F,
    U+205F, U+3000, U+FEFF), each in its UTF-8 encoding. *)
Definition whiteSpace : list string :=
  [utf8 [9]; utf8 [10]; utf8 [11]; utf8 [12]; utf8 [13]; utf8 [32];
   utf8 [194; 160]; utf8 [225; 154; 128];
   utf8 [226; 128; 128]; utf8 [226; 128; 129]; utf8 [226; 128; 130];
   utf8 [226; 128; 131]; utf8 [226; 128; 132]; utf8 [226; 128; 133];
   utf8 [226; 128; 134]; utf8 [226; 128; 135]; utf8 [226; 128; 136];
   utf8 [226; 128; 137]; utf8 [226; 128; 138];
   utf8 [226; 128; 168]; utf8 [226; 128; 169]; utf8 [226; 128; 175];
   utf8 [226; 129; 159]; utf8 [227; 128; 128]; utf8 [239; 187; 191]]%nat.

(** [s] without its prefix [p], if it starts with [p]. *)
Fixpoint stripPrefix (p s : string) : option string :=
  match p with
  | EmptyString => Some s
  | String a p' =>
      match s with
      | String b s' => if Ascii.eqb a b then stripPrefix p' s' else None
      | EmptyString => None
      end
  end.

(** [s] without the first of [ps] it starts with. *)
Fixpoint stripAny (ps : list string) (s : string) : option string :=
  match ps with
  | [] => None
  | p :: ps' =>
      match stripPrefix p s with
      | Some rest => Some rest
      | None => stripAny ps' s
      end
  end.

(** Strip leading elements of [ps] for as long as there is one; [fuel]
    bounds the number of rounds, and the length of [s] is enough. *)
Fixpoint stripAll (ps : list string) (fuel : nat) (s : string) : string :=
  match fuel with
  | O => s
  | S fuel' =>
      match stripAny ps s with
      | Some rest => stripAll ps fuel' rest
      | None => s
      end
  end.

Definition reverse (s : string) : string :=
  string_of_list_ascii (rev (list_ascii_of_string s)).

(** [s.trimStart()] *)
Definition trimStart (s : string) : string :=
  stripAll whiteSpace (String.length s) s.

(** [s.trimEnd()] *)
Definition trimEnd (s : string) : string :=
  reverse (stripAll (map reverse whiteSpace) (String.length s) (reverse s)).

(** [s.trim()] *)
Definition trim (s : string) : string := trimEnd (trimStart s).

(** [x === userId] for a field that may be absent. *)
Definition isId (x : option string) (uid : string) : bool :=
  match x with
  | Some s => String.eqb s uid
  | None => false
  end.

Definition chunkSize : Z := 16 * 1024.

(** [(a / b) * 100] *)
Definition percent (a b : Z) : Q := (inject_Z a / inject_Z b) * 100.

Section Component.
Context {curve : Curve} {aead : Aead} {hash : Hash}.

(** [hashFile(blob)]: SHA-256 of the blob's bytes as lowercase hex. *)
Definition hashFile (b : Blob) : M string :=
  let buf := blob_parts b in
  let h := digest buf in
  ret (joinMap (fun b => padStart2 (toString16 b)) h).

(** [setupDataChannelEvents()] installs [onopen], [onclose] and
    [onmessage] (below) on [dataChannel.current] when there is one.
    The handlers read the refs when they run, so installing them
    changes nothing in the state. *)
Definition setupDataChannelEvents : M unit :=
  let* dc := readRef dataChannel in
  match dc with
  | None => ret tt
  | Some _ => ret tt
  end.

(** [dataChannel.current.onopen] *)
Definition onopen : M unit :=
  setConnectionStatus "connected" ;;;
  setMessage MsgChannelOpen.

(** [dataChannel.current.onclose] *)
Definition onclose : M unit :=
  setConnectionStatus "disconnected" ;;;
  setMessage MsgPeerDisconnected ;;;
  set_peerConnection None ;;;
  set_dataChannel None ;;;
  set_symmetricKey None.

(** [dataChannel.current.onmessage] *)
Definition onmessage (msg : Frame) : M unit :=
  match msg with
  | TextFrame t =>
      tryCatch
        (let* parsed := lift (JSON_parse t) in
         if String.eqb (cm_type parsed) "fileMetadata" then
           set_receivedFileMetadata (Some parsed) ;;;
           set_receiveBuffer [] ;;;
           set_receivedSize 0 ;;;
           setMessage (MsgReceiving (fileName parsed) (fileSize parsed)) ;;;
           setTransferProgress 0
         else ret tt)
        (fun _ => ret tt)
  | BinaryFrame buffer =>
      tryCatch
        (let* key := readRef symmetricKey in
         match key with
         | None => throw (JsError "Symmetric key not established.")
         | Some key =>
             let iv := slice buffer 0 12 in
             let encryptedData := sliceFrom buffer 12 in
             let* decryptedChunk := lift (decryptOp iv key encryptedData) in
             let* buf := readRef receiveBuffer in
             set_receiveBuffer (buf ++ [decryptedChunk]) ;;;
             let* size := readRef receivedSize in
             set_receivedSize (size + byteLength decryptedChunk) ;;;
             let* meta := readRef receivedFileMetadata in
             let* size := readRef receivedSize in
             match meta with
             | Some m =>
                 if fileSize m =? 0 then ret tt
                 else setTransferProgress (percent size (fileSize m))
             | None => ret tt
             end ;;;
             match meta with
             | Some m =>
                 if fileSize m <=? size then
                   let* parts := readRef receiveBuffer in
                   let receivedBlob :=
                     {| blob_parts := concat parts;
                        blob_type := fileType m |} in
                   let* receivedFileHash := hashFile receivedBlob in
                   if String.eqb receivedFileHash (fileHash m) then
                     setMessage MsgVerified ;;;
                     setReceivedFile
                       (Some {| name := fileName m; blob := receivedBlob |})
                   else
                     setMessage MsgVerificationFailed ;;;
                     setReceivedFile None
                 else ret tt
             | None => ret tt
             end
         end)
        (fun _ => setMessage MsgDecryptFailed)
  end.

(** [setupPeerConnection(peerId)].  The three handlers it installs on
    the connection are [onicecandidate], [ondatachannel] and
    [onconnectionstatechange] below. *)
Definition setupPeerConnection (peerId : string) : M unit :=
  let* d := freshScalar in
  let* pair := lift (generateKey "P-256" true [deriveBits] d) in
  set_cryptoKeyPair (Some pair) ;;;
  set_peerConnection (Some (newPeerConnection peerId)) ;;;
  let* pc := bind (readRef peerConnection) deref in
  set_dataChannel (Some (createDataChannel "fileTransfer")) ;;;
  setupDataChannelEvents.

(** [peerConnection.current.onicecandidate]; [uid] and [peerId] are the
    values its closure captured. *)
Definition onicecandidate (uid peerId : string) (cand : option string)
    : M unit :=
  match cand with
  | Some c =>
      tryCatch
        (addDoc peerId
           {| sd_type := "candidate"; senderId := uid;
              targetId := Some peerId; sd_publicKey := None;
              offer := None; answer := None; candidate := Some c |})
        (fun _ => ret tt)
  | None => ret tt
  end.

(** [peerConnection.current.ondatachannel] *)
Definition ondatachannel (channel : RTCDataChannel) : M unit :=
  set_dataChannel (Some channel) ;;;
  setupDataChannelEvents.

(** [peerConnection.current.onconnectionstatechange]; [state] is the
    connection's [connectionState] at that moment. *)
Definition onconnectionstatechange (state : string) : M unit :=
  let* pc := bind (readRef peerConnection) deref in
  setConnectionStatus state.

(** ** The signaling listener *)

(** The [offer] branch of the listener. *)
Definition handleOffer (uid : string) (data : SignalData) : M unit :=
  setupPeerConnection (senderId data) ;;;
  let* peerPublicKey :=
    lift (importKeyJwk (sd_publicKey data) "P-256" false []) in
  let* pair := bind (readRef cryptoKeyPair) deref in
  let* derivedBits :=
    lift (deriveBitsOp peerPublicKey (privateKey pair) 256) in
  let* key := lift (importKeyRaw derivedBits false [encrypt; decrypt]) in
  set_symmetricKey (Some key) ;;;
  onPeerConnection (fun pc => setRemoteDescription pc (offer data)) ;;;
  let* pc := bind (readRef peerConnection) deref in
  let* text := readEnv sdpText in
  let* answer := lift (createAnswer pc text) in
  onPeerConnection (fun pc => setLocalDescription pc answer) ;;;
  let* pair := bind (readRef cryptoKeyPair) deref in
  let* ownPublicKey := lift (exportKey (publicKey pair)) in
  addDoc (senderId data)
    {| sd_type := "answer"; senderId := uid;
       targetId := Some (senderId data);
       sd_publicKey := Some ownPublicKey;
       offer := None; answer := Some answer; candidate := None |} ;;;
  setConnectedPeerId (senderId data) ;;;
  setMessage MsgOfferHandled.

(** The [answer] branch of the listener. *)
Definition handleAnswer (data : SignalData) : M unit :=
  let* peerPublicKey :=
    lift (importKeyJwk (sd_publicKey data) "P-256" false []) in
  let* pair := bind (readRef cryptoKeyPair) deref in
  let* derivedBits :=
    lift (deriveBitsOp peerPublicKey (privateKey pair) 256) in
  let* key := lift (importKeyRaw derivedBits false [encrypt; decrypt]) in
  set_symmetricKey (Some key) ;;;
  onPeerConnection (fun pc => setRemoteDescription pc (answer data)) ;;;
  setMessage MsgAnswerHandled.

(** The [candidate] branch:
    [peerConnection.current?.addIceCandidate(data.candidate)]. *)
Definition handleCandidate (data : SignalData) : M unit :=
  let* pc := readRef peerConnection in
  match pc with
  | None => ret tt
  | Some _ => onPeerConnection (fun pc => addIceCandidate pc (candidate data))
  end.

(** The body of the [try] block. *)
Definition dispatch (uid : string) (data : SignalData) : M unit :=
  if String.eqb (sd_type data) "offer" then handleOffer uid data
  else if String.eqb (sd_type data) "answer" && isId (targetId data) uid
  then handleAnswer data
  else if String.eqb (sd_type data) "candidate" && isId (targetId data) uid
  then handleCandidate data
  else ret tt.

(** One iteration of [for (const change of snap.docChanges())]. *)
Definition onChange (uid : string) (change : DocChange) : M unit :=
  if negb (String.eqb (change_type change) "added") then ret tt
  else
    let data := doc_data change in
    if String.eqb (senderId data) uid then deleteDoc (doc_id change)
    else
      tryCatchFinally
        (dispatch uid data)
        (fun _ => setMessage MsgSignalingFailed)
        (deleteDoc (doc_id change)).

(** The [onSnapshot] callback of the signaling listener; [uid] is the
    [userId] the effect ran with. *)
Fixpoint onSnapshot (uid : string) (changes : list DocChange) : M unit :=
  match changes with
  | [] => ret tt
  | change :: rest => onChange uid change ;;; onSnapshot uid rest
  end.

End Component.

Section Actions.
Context {curve : Curve} {aead : Aead} {hash : Hash}.

(** [connectToPeer()] *)
Definition connectToPeer : M unit :=
  let* input := readUi peerIdInput in
  let peerId := trim input in
  let* user := readUi userId in
  match user with
  | None => setMessage MsgEnterPeerId
  | Some uid =>
      if String.eqb peerId "" || String.eqb uid "" then
        setMessage MsgEnterPeerId
      else
        tryCatch
          (setMessage MsgCreatingOffer ;;;
           setConnectionStatus "connecting" ;;;
           setupPeerConnection peerId ;;;
           let* pair := bind (readRef cryptoKeyPair) deref in
           let* publicKey := lift (exportKey (publicKey pair)) in
           let* pc := bind (readRef peerConnection) deref in
           let* text := readEnv sdpText in
           let* offer := lift (createOffer pc text) in
           onPeerConnection (fun pc => setLocalDescription pc offer) ;;;
           addDoc peerId
             {| sd_type := "offer"; senderId := uid;
                targetId := Some peerId;
                sd_publicKey := Some publicKey;
                offer := Some offer; answer := None; candidate := None |} ;;;
           setConnectedPeerId peerId ;;;
           setMessage MsgOfferSent)
          (fun _ =>
             setMessage MsgConnectFailed ;;;
             setConnectionStatus "disconnected")
  end.

(** [handleFileChange] and [handleDrop]: [f] is the first file of the
    event, if any. *)
Definition handleFileChange (f : option File) : M unit :=
  match f with
  | Some f' => setFile (Some f') ;;; setMessage (MsgFileSelected (file_name f'))
  | None => ret tt
  end.

(** The body of the [while] loop of [sendFile], up to and including
    [dataChannel.current.send(combined.buffer)]. *)
Definition sendChunk (fileData : bytes) (offset : Z) : M unit :=
  let chunk := slice fileData offset (offset + chunkSize) in
  let* iv := getRandomValues 12 in
  let* key := bind (readRef symmetricKey) deref in
  let* encryptedChunk := lift (encryptOp iv key chunk) in
  let combined := iv ++ encryptedChunk in
  send (BinaryFrame combined).

(** The [while (offset < fileData.byteLength)] loop of [sendFile].
    [fuel] bounds the number of iterations; running out of it is
    reported as an exception, which no call below meets (the offset
    grows by [chunkSize] each time). *)
Fixpoint sendChunks (fuel : nat) (fileData : bytes) (offset : Z) : M unit :=
  if offset <? byteLength fileData then
    match fuel with
    | O => throw (JsError "out of fuel")
    | S fuel' =>
        sendChunk fileData offset ;;;
        let offset := offset + chunkSize in
        setTransferProgress (percent offset (byteLength fileData)) ;;;
        sendChunks fuel' fileData offset
    end
  else ret tt.

(** [reader.onload]: the body of the transfer, run when the file's
    bytes are available. *)
Definition readerOnload (f : File) : M unit :=
  tryCatch
    (let fileData := file_data f in
     let* fileHash := hashFile {| blob_parts := fileData; blob_type := "" |} in
     let* user := readUi userId in
     let* peer := readUi connectedPeerId in
     let* now := readEnv clock in
     addHistory
       {| tr_senderId := user; tr_recipientId := peer;
          tr_fileName := file_name f; tr_fileHash := fileHash;
          tr_timestamp := now |} ;;;
     send (TextFrame (JSON_stringify
       {| cm_type := "fileMetadata"; fileName := file_name f;
          fileSize := file_size f; fileType := file_type f;
          fileHash := fileHash |})) ;;;
     sendChunks (length fileData) fileData 0 ;;;
     setMessage MsgFileSent)
    (fun _ => setMessage MsgTransferError).

(** [sendFile()] up to [reader.readAsArrayBuffer(file)]; it answers
    with the file whose load event will follow, if any. *)
Definition sendFile : M (option File) :=
  let* f := readUi file in
  let* dc := readRef dataChannel in
  let* key := readRef symmetricKey in
  match f, dc with
  | Some f', Some dc' =>
      if negb (String.eqb (readyState dc') "open") then
        setMessage MsgSelectFileAndConnect ;;; ret None
      else
        match key with
        | None => setMessage MsgNoSymmetricKey ;;; ret None
        | Some _ =>
            setMessage MsgSending ;;;
            setTransferProgress 0 ;;;
            ret (Some f')
        end
  | _, _ => setMessage MsgSelectFileAndConnect ;;; ret None
  end.

(** [downloadFile()] *)
Definition downloadFile : M unit :=
  let* rf := readUi receivedFile in
  match rf with
  | None => setMessage MsgNoFile
  | Some f => setMessage (MsgDownloading (name f)) ;;; setReceivedFile None
  end.

(** ** Events *)

(** What the browser, the user and Firestore can deliver to the
    component.  [ChannelOpened] is the open event of the channel the
    ref holds; the browser has set its [readyState] by then. *)
Inductive Event :=
  | Snapshot (changes : list DocChange)
  | PeerIdTyped (s : string)
  | ConnectClicked
  | IceCandidateFound (peerId : string) (cand : option string)
  | DataChannelReceived (channel : RTCDataChannel)
  | ConnectionStateChanged (state : string)
  | ChannelOpened
  | ChannelClosed
  | ChannelMessage (msg : Frame)
  | FileChosen (f : option File)
  | SendClicked
  | DownloadClicked.

Definition markOpen : M unit :=
  let* dc := readRef dataChannel in
  match dc with
  | Some c => set_dataChannel (Some {| label := label c; readyState := "open" |})
  | None => ret tt
  end.

(** The state after the handler of one event has run.  The signaling
    listener exists only once [userId] is set. *)
Definition step (ev : Event) (w : World) : World :=
  match ev with
  | Snapshot changes =>
      match userId (ui w) with
      | Some uid => if String.eqb uid "" then w else exec (onSnapshot uid changes) w
      | None => w
      end
  | PeerIdTyped s => exec (setPeerIdInput s) w
  | ConnectClicked => exec connectToPeer w
  | IceCandidateFound peerId cand =>
      match userId (ui w) with
      | Some uid => exec (onicecandidate uid peerId cand) w
      | None => w
      end
  | DataChannelReceived channel => exec (ondatachannel channel) w
  | ConnectionStateChanged state => exec (onconnectionstatechange state) w
  | ChannelOpened => exec (markOpen ;;; onopen) w
  | ChannelClosed => exec onclose w
  | ChannelMessage msg => exec (onmessage msg) w
  | FileChosen f => exec (handleFileChange f) w
  | SendClicked =>
      exec (let* f := sendFile in
            match f with
            | Some f' => readerOnload f'
            | None => ret tt
            end) w
  | DownloadClicked => exec downloadFile w
  end.

Definition run (evs : list Event) (w : World) : World :=
  fold_left (fun w ev => step ev w) evs w.

(** The component right after mount and sign-in as [uid], in a given
    environment. *)
Definition initialRefs : Refs :=
  {| peerConnection := None; dataChannel := None; receiveBuffer := [];
     receivedFileMetadata := None; receivedSize := 0;
     symmetricKey := None; cryptoKeyPair := None |}.

Definition initialUi (uid : string) : ReactState :=
  {| userId := Some uid; peerIdInput := ""; connectedPeerId := "";
     connectionStatus := "disconnected"; file := None;
     transferProgress := 0; message := MsgWelcome; receivedFile := None |}.

Definition initialWorld (uid : string) (e : Env) : World :=
  {| ui := initialUi uid; refs := initialRefs; env := e |}.

Inductive reachable (uid : string) (e : Env) : World -> Prop :=
  | reachable_init : reachable uid e (initialWorld uid e)
  | reachable_step : forall w ev,
      reachable uid e w -> reachable uid e (step ev w).

End Actions.

(* ===================================================================== *)
(** * Notions used to state the properties *)
(* ===================================================================== *)

Section Notions.
Context {curve : Curve} {aead : Aead} {hash : Hash}.

(** [keeps proj c]: whatever [c] does, and whether it returns or
    throws, the part [proj] of the state is the same afterwards. *)
Definition keeps {A B} (proj : World -> B) (c : M A) : Prop :=
  forall w, proj (snd (c w)) = proj w.

Definition isAdded (c : DocChange) : bool :=
  String.eqb (change_type c) "added".

(** The same message with another [targetId] field ([None]: no such
    field). *)
Definition withTargetId (t : option string) (data : SignalData) : SignalData :=
  {| sd_type := sd_type data; senderId := senderId data; targetId := t;
     sd_publicKey := sd_publicKey data; offer := offer data;
     answer := answer data; candidate := candidate data |}.

Definition retarget (t : option string) (c : DocChange) : DocChange :=
  {| change_type := change_type c; doc_id := doc_id c;
     doc_data := withTargetId t (doc_data c) |}.

(** The AES-256-GCM key both handlers build from a shared point. *)
Definition sharedKey (P : point) : CryptoKey :=
  {| key_type := secret; key_extractable := false;
     key_algorithm := AES_GCM 256; key_usages := [encrypt; decrypt];
     key_material := SecretBytes (xcoord P) |}.

Definition importedPublicKey (Q : point) : CryptoKey :=
  {| key_type := public; key_extractable := false;
     key_algorithm := ECDH "P-256"; key_usages := [];
     key_material := PublicPoint Q |}.

(** The digest string [hashFile] computes. *)
Definition hexDigest (data : bytes) : string :=
  joinMap (fun b => padStart2 (toString16 b)) (digest data).

(** What the receiver shows once [size] bytes are in [parts], under
    the metadata [meta]: the progress... *)
Definition progressAfter (meta : option ControlMessage) (size : Z) (old : Q) : Q :=
  match meta with
  | Some m => if fileSize m =? 0 then old else percent size (fileSize m)
  | None => old
  end.

(** ... and the received file with the status line. *)
Definition verdictAfter (meta : option ControlMessage) (size : Z)
    (parts : list bytes) (old : option ReceivedFile * Message)
    : option ReceivedFile * Message :=
  match meta with
  | Some m =>
      if fileSize m <=? size then
        let receivedBlob :=
          {| blob_parts := concat parts; blob_type := fileType m |} in
        if String.eqb (hexDigest (concat parts)) (fileHash m)
        then (Some {| name := fileName m; blob := receivedBlob |}, MsgVerified)
        else (None, MsgVerificationFailed)
      else old
  | None => old
  end.

(** The IV the sender draws in state [w]. *)
Definition nextIv (w : World) : bytes :=
  map (randomBytes (env w)) (seq (randomCount (env w)) 12).

(** The receiver on a sequence of frames. *)
Definition receive (frames : list Frame) (w : World) : World :=
  fold_left (fun w f => exec (onmessage f) w) frames w.

(** The receiver is in the middle of a transfer of [data] announced by
    [m], with the first [offset] bytes in its buffer. *)
Definition receiving (key : CryptoKey) (m : ControlMessage) (data : bytes)
    (offset : Z) (w : World) : Prop :=
  symmetricKey (refs w) = Some key /\
  receivedFileMetadata (refs w) = Some m /\
  receivedSize (refs w) = offset /\
  concat (receiveBuffer (refs w)) = take (Z.to_nat offset) data.

(** What the receiver exposes when the assembled bytes are [data]. *)
Definition delivered (m : ControlMessage) (data : bytes)
    : option ReceivedFile * Message :=
  if String.eqb (hexDigest data) (fileHash m)
  then (Some {| name := fileName m;
                blob := {| blob_parts := data; blob_type := fileType m |} |},
        MsgVerified)
  else (None, MsgVerificationFailed).

(** The control message [sendFile] announces a file with. *)
Definition metadataOf (f : File) : ControlMessage :=
  {| cm_type := "fileMetadata"; fileName := file_name f;
     fileSize := file_size f; fileType := file_type f;
     fileHash := hexDigest (file_data f) |}.

End Notions.

(* ===================================================================== *)
(** * Small instances of the primitives, for running the model *)
(* ===================================================================== *)

Module Toy.

Definition byteOfZ (z : Z) : byte :=
  match Byte.of_N (Z.to_N (z mod 256)) with
  | Some b => b
  | None => x00
  end.

(** Big-endian encoding on [n] bytes. *)
Definition encodeBE (n : nat) (z : Z) : bytes :=
  map (fun i => byteOfZ (z / 256 ^ Z.of_nat (n - 1 - i))) (seq 0 n).

Definition modulus : Z := 2 ^ 61 - 1.

(** The additive group of integers modulo [modulus], generated by 1. *)
Definition toy_smul (a : N) (P : Z) : Z := (Z.of_N a * P) mod modulus.

Definition toy_xcoord (P : Z) : bytes := encodeBE 32 P.

(** An authenticated "cipher" that leaves the text as it is and appends
    a 16-byte tag made of the key and the IV. *)
Definition toy_tag (key iv : bytes) : bytes :=
  take 16 (rev key ++ iv ++ replicate 16 x00).

Definition toy_seal (key iv plain : bytes) : bytes :=
  plain ++ toy_tag key iv.

Definition toy_open (key iv data : bytes) : option bytes :=
  let n := (length data - 16)%nat in
  if (length data <? 16)%nat then None
  else if List.list_eq_dec byte_eq_dec (drop n data) (toy_tag key iv)
  then Some (take n data)
  else None.

Definition letters : bytes :=
  [x41; x42; x43; x44; x45; x46; x47; x48; x49; x4a; x4b; x4c; x4d;
   x4e; x4f; x50; x51; x52; x53; x54; x55; x56; x57; x58; x59; x5a].

(** A 32-byte polynomial checksum. *)
Definition toy_sha256 (b : bytes) : bytes :=
  encodeBE 32
    (fold_left (fun h x => (h * 257 + Z.of_N (Byte.to_N x) + 1) mod 2 ^ 256) b 7).

End Toy.

(** The small instances, with the proofs of their laws. *)

Definition toyCurve : Curve.
Proof.
  refine {| point := Z; basePoint := 1;
            smul := Toy.toy_smul; xcoord := Toy.toy_xcoord |}.
  - intros a b P. unfold Toy.toy_smul.
    rewrite Z.mul_mod_idemp_r by (unfold Toy.modulus; lia).
    f_equal. rewrite N2Z.inj_mul. ring.
  - intros P. unfold Toy.toy_xcoord, Toy.encodeBE.
    now rewrite length_map, length_seq.
Defined.

Definition toyAead : Aead.
Proof.
  refine {| gcm_seal := Toy.toy_seal; gcm_open := Toy.toy_open |}.
  intros key iv plain. unfold Toy.toy_open, Toy.toy_seal.
  assert (Htag : length (Toy.toy_tag key iv) = 16%nat).
  { unfold Toy.toy_tag.
    rewrite length_take, !length_app, length_replicate. lia. }
  rewrite length_app, Htag.
  replace (length plain + 16 - 16)%nat with (length plain) by lia.
  destruct (Nat.ltb_spec (length plain + 16) 16) as [Hlt | _]; [lia |].
  rewrite drop_app_length, take_app_length.
  destruct (List.list_eq_dec byte_eq_dec _ _) as [_ | Hne];
    [reflexivity | congruence].
Defined.

Definition toyHash : Hash := {| sha256 := Toy.toy_sha256 |}.

(* ===================================================================== *)
(** * A concrete session between two peers *)
(* ===================================================================== *)

Section Session.
#[local] Existing Instance toyCurve.
#[local] Existing Instance toyAead.
#[local] Existing Instance toyHash.

(** An environment whose n-th private scalar is [seed + n] and whose
    random bytes are the letters from 'A' on, then dots. *)
Definition toyEnv (seed : N) : Env :=
  {| mailbox := ∅; deleteCalls := []; outbox := []; fileHistory := [];
     wire := [];
     scalars := fun n => (seed + N.of_nat n)%N; keygenCount := 0;
     randomBytes := fun n => nth n Toy.letters x2e; randomCount := 0;
     sdpText := "v=0"; clock := "2024-01-01T00:00:00.000Z" |}.

Definition alice0 : World := initialWorld "alice" (toyEnv 5).
Definition bob0 : World := initialWorld "bob" (toyEnv 11).

(** Alice types Bob's identity and clicks Connect. *)
Definition alice1 : World := run [PeerIdTyped " bob "; ConnectClicked] alice0.

(** A message written to a mailbox, as the owner's listener reads it. *)
Definition delivery (id : string) (m : string * SignalData) : DocChange :=
  {| change_type := "added"; doc_id := id; doc_data := snd m |}.

(** Bob's listener reads the offer; his channel opens. *)
Definition bob1 : World :=
  run [Snapshot (map (delivery "d1") (outbox (env alice1))); ChannelOpened] bob0.

(** Alice's listener reads the answer; her channel opens. *)
Definition alice2 : World :=
  run [Snapshot (map (delivery "d2") (outbox (env bob1))); ChannelOpened] alice1.

Definition noData : SignalData :=
  {| sd_type := ""; senderId := ""; targetId := None; sd_publicKey := None;
     offer := None; answer := None; candidate := None |}.

Definition offerOfAlice : SignalData :=
  match outbox (env alice1) with
  | (_, m) :: _ => m
  | [] => noData
  end.

Definition answerOfBob : SignalData :=
  match outbox (env bob1) with
  | (_, m) :: _ => m
  | [] => noData
  end.

Definition pairOf (w : World) : CryptoKeyPair :=
  match cryptoKeyPair (refs w) with
  | Some p => p
  | None => {| privateKey := sharedKey 0; publicKey := sharedKey 0 |}
  end.

Definition jwkOf (m : SignalData) : Jwk :=
  match sd_publicKey m with
  | Some j => j
  | None => {| jwk_kty := ""; jwk_crv := ""; jwk_point := None; jwk_d := None;
               jwk_k := None; jwk_ext := false; jwk_key_ops := [] |}
  end.

Definition keyOf (w : World) : CryptoKey :=
  match symmetricKey (refs w) with
  | Some k => k
  | None => sharedKey 0
  end.

Definition rawOf (k : CryptoKey) : bytes :=
  match key_material k with
  | SecretBytes raw => raw
  | _ => []
  end.

Definition openChannel : RTCDataChannel :=
  {| label := "fileTransfer"; readyState := "open" |}.

Definition abc : File :=
  {| file_name := "a.txt"; file_type := "text/plain";
     file_data := [x61; x62; x63] |}.

Definition emptyFile : File :=
  {| file_name := "empty.txt"; file_type := "text/plain"; file_data := [] |}.

(** Alice sends a three-byte file; Bob has read the control message. *)
Definition alice3 : World := run [FileChosen (Some abc); SendClicked] alice2.


Definition frameOfAbc : bytes :=
  nextIv alice2 ++ gcm_seal (rawOf (keyOf alice2)) (nextIv alice2) (file_data abc).

Definition oneByte : File :=
  {| file_name := "x.bin"; file_type := ""; file_data := [x2a] |}.

(** A batch for Alice's listener: an offer from Carol without a public
    key, an echo of Alice's own, a change that is not an addition, and a
    candidate from Carol. *)
Definition badOffer : SignalData :=
  {| sd_type := "offer"; senderId := "carol"; targetId := None;
     sd_publicKey := None; offer := None; answer := None; candidate := None |}.

Definition echo : SignalData :=
  {| sd_type := "offer"; senderId := "alice"; targetId := Some "alice";
     sd_publicKey := None; offer := None; answer := None; candidate := None |}.

Definition carolCandidate : SignalData :=
  {| sd_type := "candidate"; senderId := "carol"; targetId := Some "alice";
     sd_publicKey := None; offer := None; answer := None;
     candidate := Some "candidate:1 1 udp 1 192.0.2.1 9 typ host" |}.

Definition change (kind id : string) (data : SignalData) : DocChange :=
  {| change_type := kind; doc_id := id; doc_data := data |}.

Definition batch : list DocChange :=
  [change "added" "m1" badOffer; change "added" "m2" echo;
   change "modified" "m3" carolCandidate; change "added" "m4" carolCandidate].

End Session.

(* ===================================================================== *)
(** * Further notions *)
(* ===================================================================== *)

Section MoreNotions.
Context {curve : Curve} {aead : Aead} {hash : Hash}.

(** [cs] lists white-space characters only (none included); the string
    they make up is [String.concat "" cs]. *)
Definition blank (cs : list string) : bool :=
  forallb (fun c => existsb (String.eqb c) whiteSpace) cs.

(** A document read by the listener as a newly added one. *)
Definition asAdded (id : string) (data : SignalData) : DocChange :=
  {| change_type := "added"; doc_id := id; doc_data := data |}.

(** ** Assertions on handlers *)

(** [hoare P c Q E]: from a state in [P], the computation [c] either
    returns a value [a] in a state satisfying [Q a], or throws in a
    state satisfying [E]. *)
Definition hoare {A} (P : World -> Prop) (c : M A)
    (Q : A -> World -> Prop) (E : World -> Prop) : Prop :=
  forall w, P w ->
    match c w with
    | (Ok a, w') => Q a w'
    | (Throw _, w') => E w'
    end.

(** A key whose export carries no secret: the public half of an
    elliptic-curve pair. *)
Definition isPublicKey (k : CryptoKey) : Prop :=
  exists Q, key_material k = PublicPoint Q.

(** A signaling message as [uid] may write it to the mailbox [fst
    entry]: it names [uid] as its sender and the mailbox's owner as its
    target, and the key it carries, if any, has neither a private scalar
    nor symmetric key bytes. *)
Definition sentBy (uid : string) (entry : string * SignalData) : Prop :=
  senderId (snd entry) = uid /\
  targetId (snd entry) = Some (fst entry) /\
  forall j, sd_publicKey (snd entry) = Some j ->
            jwk_d j = None /\ jwk_k j = None.

(** What signaling maintains, for a component signed in as [uid] whose
    environment started with [base] in the outbox. *)
Definition signalingInv (uid : string) (base : list (string * SignalData))
    (w : World) : Prop :=
  userId (ui w) = Some uid /\
  (forall pair, cryptoKeyPair (refs w) = Some pair ->
                isPublicKey (publicKey pair)) /\
  exists l, outbox (env w) = base ++ l /\ Forall (sentBy uid) l.

(** What this invariant reads of the state. *)
Definition signalingView (w : World)
    : option string * option CryptoKeyPair * list (string * SignalData) :=
  (userId (ui w), cryptoKeyPair (refs w), outbox (env w)).

(** [receivedSize.current] counts the bytes of [receiveBuffer.current]. *)
Definition bufferCounted (w : World) : Prop :=
  receivedSize (refs w) = byteLength (concat (receiveBuffer (refs w))).

(** [c] maintains [I], whether it returns or throws. *)
Definition maintains {A} (I : World -> Prop) (c : M A) : Prop :=
  hoare I c (fun _ => I) I.


(** ** Reading a hex string back *)

(** The value of a lower-case hexadecimal digit. *)
Definition hexValue (c : ascii) : N :=
  let n := N_of_ascii c in
  if (n <=? 57)%N then (n - 48)%N else (n - 87)%N.

(** The bytes a string of two-digit hexadecimal numbers stands for. *)
Fixpoint fromHex (s : string) : bytes :=
  match s with
  | String hi (String lo rest) =>
      match Byte.of_N (16 * hexValue hi + hexValue lo) with
      | Some b => b :: fromHex rest
      | None => []
      end
  | _ => []
  end.

(** The same message under another [senderId]. *)
Definition withSenderId (s : string) (data : SignalData) : SignalData :=
  {| sd_type := sd_type data; senderId := s; targetId := targetId data;
     sd_publicKey := sd_publicKey data; offer := offer data;
     answer := answer data; candidate := candidate data |}.

End MoreNotions.

Section MoreSession.
#[local] Existing Instance toyCurve.
#[local] Existing Instance toyAead.
#[local] Existing Instance toyHash.

(** Alice has typed Bob's identity, her own, or only spaces. *)
Definition aliceTyped (s : string) : World := step (PeerIdTyped s) alice0.

(** U+00A0, and a peer id typed as a space, a no-break space and a
    tab. *)
Definition noBreakSpace : string := utf8 [194; 160]%nat.

Definition spaces : string := utf8 [32; 194; 160; 9]%nat.

(** Everything that happens to Alice up to the open channel. *)
Definition aliceConnected : list Event :=
  [PeerIdTyped " bob "; ConnectClicked;
   Snapshot (map (delivery "d2") (outbox (env bob1))); ChannelOpened].

(** An offer from Alice whose [sdp] does not parse. *)
Definition garbledOffer : SignalData :=
  {| sd_type := "offer"; senderId := "alice"; targetId := Some "bob";
     sd_publicKey := sd_publicKey offerOfAlice;
     offer := Some {| sdp_type := "offer"; sdp := NotSdp "v=" |};
     answer := None; candidate := None |}.

(** A control message of another kind. *)
Definition ping : ControlMessage :=
  {| cm_type := "ping"; fileName := ""; fileSize := 0; fileType := "";
     fileHash := "" |}.

(** An offer from Carol with Alice's public key but no session
    description. *)
Definition offerWithoutDescription : SignalData :=
  {| sd_type := "offer"; senderId := "carol"; targetId := None;
     sd_publicKey := sd_publicKey offerOfAlice;
     offer := None; answer := None; candidate := None |}.

End MoreSession.

(* ===================================================================== *)
(** * Properties of the component *)
(* ===================================================================== *)

Section Properties.
Context {curve : Curve} {aead : Aead} {hash : Hash}.

(** ** Closing the transport *)

Lemma onclose_runs (w : World) :
  onclose w =
    (Ok tt,
     {| ui := {| userId := userId (ui w); peerIdInput := peerIdInput (ui w);
                 connectedPeerId := connectedPeerId (ui w);
                 connectionStatus := "disconnected";
                 file := file (ui w);
                 transferProgress := transferProgress (ui w);
                 message := MsgPeerDisconnected;
                 receivedFile := receivedFile (ui w) |};
        refs := {| peerConnection := None; dataChannel := None;
                   receiveBuffer := receiveBuffer (refs w);
                   receivedFileMetadata := receivedFileMetadata (refs w);
                   receivedSize := receivedSize (refs w);
                   symmetricKey := None;
                   cryptoKeyPair := cryptoKeyPair (refs w) |};
        env := env w |}).
Proof. reflexivity. Qed.

Lemma run_snoc (evs : list Event) (ev : Event) (w : World) :
  run (evs ++ [ev]) w = step ev (run evs w).
Proof. unfold run. now rewrite fold_left_app. Qed.

Lemma run_reachable (uid : string) (e : Env) (evs : list Event) :
  reachable uid e (run evs (initialWorld uid e)).
Proof.
  induction evs as [| ev evs IH] using rev_ind.
  - constructor.
  - rewrite run_snoc. now constructor.
Qed.

(** The peer connection's own [connectionstatechange] event does not
    go through [onclose]: it copies the reported state (which may be "disconnected",
    "failed" or "closed") into the status and clears nothing. *)
Lemma connection_state_change_keeps_refs
    (state : string) (pc : RTCPeerConnection) (w : World) :
  peerConnection (refs w) = Some pc ->
  connectionStatus (ui (step (ConnectionStateChanged state) w)) = state /\
  refs (step (ConnectionStateChanged state) w) = refs w.
Proof.
  intros Hpc. cbn [step]. unfold exec, onconnectionstatechange.
  unfold bind at 1. unfold bind, readRef. rewrite Hpc. cbn. split; reflexivity.
Qed.

End Properties.

(* ===================================================================== *)
(** * Frame rules: what a computation leaves alone *)
(* ===================================================================== *)

Section Frames.
Context {curve : Curve} {aead : Aead} {hash : Hash}.

Lemma keeps_bind {A B C} (proj : World -> C) (c : M A) (k : A -> M B) :
  keeps proj c -> (forall a, keeps proj (k a)) -> keeps proj (bind c k).
Proof.
  intros Hc Hk w. unfold bind.
  specialize (Hc w). destruct (c w) as [[a | e] w1]; cbn in *.
  - now rewrite Hk.
  - exact Hc.
Qed.

Lemma keeps_tryCatch {C} (proj : World -> C) (body : M unit)
    (handler : Exn -> M unit) :
  keeps proj body -> (forall e, keeps proj (handler e)) ->
  keeps proj (tryCatch body handler).
Proof.
  intros Hb Hh w. unfold tryCatch.
  specialize (Hb w). destruct (body w) as [[a | e] w1]; cbn in *.
  - exact Hb.
  - now rewrite Hh.
Qed.

Lemma keeps_deref {A C} (proj : World -> C) (o : option A) :
  keeps proj (deref o).
Proof. intros w. now destruct o. Qed.

Lemma keeps_lift {A C} (proj : World -> C) (o : Outcome A) :
  keeps proj (lift o).
Proof. intros w. reflexivity. Qed.

End Frames.

(** Decompose a [keeps] goal along the structure of the computation;
    what is left are the primitive updates, which either compute to the
    same projection or are the ones that really change it. *)
Ltac keeps_step :=
  match goal with
  | |- keeps _ (bind _ _) => apply keeps_bind; [| intros ?]
  | |- keeps _ (tryCatch _ _) => apply keeps_tryCatch; [| intros ?]
  | |- keeps _ (deref _) => apply keeps_deref
  | |- keeps _ (lift _) => apply keeps_lift
  | |- keeps _ (match ?x with _ => _ end) => destruct x
  | |- keeps _ _ => solve [intros ?; reflexivity]
  end.

Ltac keeps_auto := repeat keeps_step.

Section Signaling.
Context {curve : Curve} {aead : Aead} {hash : Hash}.

Lemma setupPeerConnection_keeps_mailbox (peerId : string) :
  keeps (fun w => (mailbox (env w), deleteCalls (env w)))
        (setupPeerConnection peerId).
Proof.
  unfold setupPeerConnection, setupDataChannelEvents. keeps_auto.
Qed.

Lemma dispatch_keeps_mailbox (uid : string) (data : SignalData) :
  keeps (fun w => (mailbox (env w), deleteCalls (env w))) (dispatch uid data).
Proof.
  unfold dispatch, handleOffer, handleAnswer, handleCandidate, onPeerConnection.
  pose proof (setupPeerConnection_keeps_mailbox (senderId data)).
  keeps_auto; assumption.
Qed.

Lemma deleteDoc_runs (id : string) (w : World) :
  exists w', deleteDoc id w = (Ok tt, w') /\
    ui w' = ui w /\ refs w' = refs w /\
    mailbox (env w') = delete id (mailbox (env w)) /\
    deleteCalls (env w') = deleteCalls (env w) ++ [id] /\
    outbox (env w') = outbox (env w) /\
    wire (env w') = wire (env w) /\
    keygenCount (env w') = keygenCount (env w).
Proof. eexists. split; [reflexivity |]. cbn. repeat split. Qed.

(** One iteration of the listener's loop always completes, and what it
    does to the mailbox depends only on the kind of change. *)
Lemma onChange_runs (uid : string) (c : DocChange) (w : World) :
  exists w', onChange uid c w = (Ok tt, w') /\
    mailbox (env w') =
      (if isAdded c then delete (doc_id c) (mailbox (env w))
       else mailbox (env w)) /\
    deleteCalls (env w') =
      deleteCalls (env w) ++ (if isAdded c then [doc_id c] else []).
Proof.
  unfold onChange, isAdded.
  destruct (String.eqb (change_type c) "added"); cbn [negb].
  2:{ exists w. cbn. now rewrite app_nil_r. }
  destruct (String.eqb (senderId (doc_data c)) uid).
  { destruct (deleteDoc_runs (doc_id c) w) as (w' & -> & _ & _ & Hm & Hd & _).
    now exists w'. }
  unfold tryCatchFinally, tryCatch.
  pose proof (dispatch_keeps_mailbox uid (doc_data c) w) as Hk.
  destruct (dispatch uid (doc_data c) w) as [[[] | e] w1]; cbn in Hk;
    injection Hk as Hm Hd; eexists; (split; [reflexivity |]); cbn;
    now rewrite Hm, Hd.
Qed.

Lemma onSnapshot_cons (uid : string) (c : DocChange) (rest : list DocChange)
    (w : World) :
  onSnapshot uid (c :: rest) w = onSnapshot uid rest (exec (onChange uid c) w).
Proof.
  cbn [onSnapshot]. unfold bind, exec.
  destruct (onChange_runs uid c w) as (w' & -> & _). reflexivity.
Qed.

Lemma onSnapshot_app (uid : string) (pre post : list DocChange) (w : World) :
  onSnapshot uid (pre ++ post) w =
  onSnapshot uid post (exec (onSnapshot uid pre) w).
Proof.
  revert w. induction pre as [| c pre IH]; intros w.
  - reflexivity.
  - rewrite <- app_comm_cons, onSnapshot_cons, IH. f_equal.
    unfold exec. now rewrite (onSnapshot_cons uid c pre w).
Qed.

Lemma onSnapshot_runs (uid : string) (changes : list DocChange) (w : World) :
  exists w', onSnapshot uid changes w = (Ok tt, w') /\
    deleteCalls (env w') =
      deleteCalls (env w) ++ map doc_id (List.filter isAdded changes) /\
    mailbox (env w') =
      fold_left (fun m id => delete id m)
                (map doc_id (List.filter isAdded changes)) (mailbox (env w)).
Proof.
  revert w. induction changes as [| c rest IH]; intros w.
  - exists w. cbn. now rewrite app_nil_r.
  - rewrite onSnapshot_cons. unfold exec.
    destruct (onChange_runs uid c w) as (w1 & -> & Hm & Hd). cbn [snd].
    destruct (IH w1) as (w' & -> & Hd' & Hm').
    exists w'. split; [reflexivity |].
    rewrite Hd', Hm', Hd, Hm. cbn [List.filter].
    destruct (isAdded c); cbn [map fold_left].
    + now rewrite <- app_assoc.
    + now rewrite app_nil_r.
Qed.

Lemma fold_delete_gone (ids : list string) (m : gmap string SignalData)
    (id : string) :
  In id ids -> fold_left (fun m id => delete id m) ids m !! id = None.
Proof.
  revert m. induction ids as [| i ids IH]; intros m Hin; cbn in Hin;
    [contradiction |]. destruct Hin as [-> | Hin]; cbn.
  - clear IH. generalize (lookup_delete_eq m id).
    generalize (delete id m). induction ids as [| j ids IH]; intros m' Hm'.
    + exact Hm'.
    + cbn. apply IH. destruct (decide (j = id)) as [-> | Hne].
      * apply lookup_delete_eq.
      * now rewrite lookup_delete_ne.
  - now apply IH.
Qed.

(** C5.  The listener's callback always runs to the end of the batch.
    It calls [deleteDoc] once for each message it reads (each change
    of type "added"), in order, and for nothing else, and afterwards
    none of those documents is in the mailbox.  When the handling of a
    message throws, the exception is caught, that message is deleted
    all the same, and the loop goes on with the rest of the batch. *)
Theorem mailbox_message_deleted_once_even_if_handling_throws
    (uid : string) (changes : list DocChange) (w : World) :
  let read := map doc_id (List.filter isAdded changes) in
  let w' := exec (onSnapshot uid changes) w in
  fst (onSnapshot uid changes w) = Ok tt /\
  deleteCalls (env w') = deleteCalls (env w) ++ read /\
  (forall id, In id read -> mailbox (env w') !! id = None) /\
  (forall (c : DocChange) (rest : list DocChange) (w0 : World) (e : Exn),
      isAdded c = true ->
      String.eqb (senderId (doc_data c)) uid = false ->
      fst (dispatch uid (doc_data c) w0) = Throw e ->
      let w1 := exec (onChange uid c) w0 in
      fst (onChange uid c w0) = Ok tt /\
      message (ui w1) = MsgSignalingFailed /\
      deleteCalls (env w1) = deleteCalls (env w0) ++ [doc_id c] /\
      mailbox (env w1) !! doc_id c = None /\
      onSnapshot uid (c :: rest) w0 = onSnapshot uid rest w1).
Proof.
  intros read w'. subst read w'. unfold exec.
  destruct (onSnapshot_runs uid changes w) as (w' & -> & Hd & Hm). cbn [fst snd].
  split; [reflexivity |]. split; [exact Hd |]. split.
  - intros id Hin. rewrite Hm. now apply fold_delete_gone.
  - intros c rest w0 e Hadd Hself Hthrow.
    rewrite onSnapshot_cons. unfold exec.
    destruct (onChange_runs uid c w0) as (w2 & Hrun & Hm2 & Hd2).
    rewrite Hrun. cbn [fst snd]. rewrite Hadd in Hm2, Hd2.
    split; [reflexivity |]. split; [| split; [exact Hd2 | split]].
    + revert Hrun. unfold onChange. fold (isAdded c). rewrite Hadd, Hself.
      cbn [negb]. unfold tryCatchFinally, tryCatch.
      destruct (dispatch uid (doc_data c) w0) as [[[] | e'] w3];
        [discriminate |].
      intros [= <-]. reflexivity.
    + rewrite Hm2. apply lookup_delete_eq.
    + reflexivity.
Qed.

(** C6.  A message whose [senderId] is the local identity is never
    given to the offer, answer or candidate branch: wherever it stands
    in a batch, its whole processing is the one [deleteDoc] call.  The
    React state, the refs (keys, connection, channel), the messages
    written to other mailboxes, the frames sent and the key-generation
    count are as before; the document is gone from the mailbox; and the
    loop goes on with the rest of the batch. *)
Theorem self_echo_is_deleted_without_processing
    (uid : string) (pre post : list DocChange) (c : DocChange) (w : World) :
  senderId (doc_data c) = uid ->
  isAdded c = true ->
  let w1 := exec (onSnapshot uid pre) w in
  let w2 := exec (onChange uid c) w1 in
  onChange uid c w1 = deleteDoc (doc_id c) w1 /\
  ui w2 = ui w1 /\
  refs w2 = refs w1 /\
  outbox (env w2) = outbox (env w1) /\
  wire (env w2) = wire (env w1) /\
  keygenCount (env w2) = keygenCount (env w1) /\
  deleteCalls (env w2) = deleteCalls (env w1) ++ [doc_id c] /\
  mailbox (env w2) !! doc_id c = None /\
  exec (onSnapshot uid (pre ++ c :: post)) w = exec (onSnapshot uid post) w2.
Proof.
  intros Hself Hadd w1 w2.
  assert (Hstep : onChange uid c w1 = deleteDoc (doc_id c) w1).
  { unfold onChange. fold (isAdded c). rewrite Hadd, Hself, String.eqb_refl.
    reflexivity. }
  split; [exact Hstep |].
  assert (Hw2 : w2 = snd (deleteDoc (doc_id c) w1)).
  { subst w2. unfold exec. now rewrite Hstep. }
  destruct (deleteDoc_runs (doc_id c) w1)
    as (w' & Hrun & Hui & Hrefs & Hm & Hd & Ho & Hw & Hk).
  rewrite Hrun in Hw2. cbn [snd] in Hw2. subst w'.
  repeat (split; [assumption |]). split.
  - rewrite Hm. apply lookup_delete_eq.
  - unfold exec at 1. rewrite onSnapshot_app. fold w1.
    now rewrite onSnapshot_cons.
Qed.

(** ** The target of a message *)

Lemma setupPeerConnection_runs (peerId : string) (w : World) :
  exists w' pair, setupPeerConnection peerId w = (Ok tt, w') /\
    generateKey "P-256" true [deriveBits]
      (scalars (env w) (keygenCount (env w))) = Ok pair /\
    cryptoKeyPair (refs w') = Some pair /\
    peerConnection (refs w') = Some (newPeerConnection peerId) /\
    dataChannel (refs w') = Some (createDataChannel "fileTransfer") /\
    symmetricKey (refs w') = symmetricKey (refs w) /\
    keygenCount (env w') = S (keygenCount (env w)) /\
    ui w' = ui w.
Proof.
  do 2 eexists. split; [reflexivity |]. cbn. repeat split.
Qed.

Lemma handleOffer_generates_key (uid : string) (data : SignalData) (w : World) :
  keygenCount (env (snd (handleOffer uid data w))) = S (keygenCount (env w)).
Proof.
  unfold handleOffer. unfold bind at 1.
  destruct (setupPeerConnection_runs (senderId data) w)
    as (w1 & pair & -> & _ & _ & _ & _ & _ & Hk & _).
  rewrite <- Hk.
  match goal with |- _ (_ (snd (?c w1))) = _ =>
    enough (Hkeeps : keeps (fun w => keygenCount (env w)) c) by apply Hkeeps
  end.
  unfold onPeerConnection. keeps_auto.
Qed.

Lemma connectToPeer_runs (uid : string) (w : World) :
  userId (ui w) = Some uid ->
  uid <> "" ->
  trim (peerIdInput (ui w)) <> "" ->
  let peerId := trim (peerIdInput (ui w)) in
  let d := scalars (env w) (keygenCount (env w)) in
  exists w' pair jwk,
    connectToPeer w = (Ok tt, w') /\
    generateKey "P-256" true [deriveBits] d = Ok pair /\
    exportKey (publicKey pair) = Ok jwk /\
    cryptoKeyPair (refs w') = Some pair /\
    outbox (env w') = outbox (env w) ++
      [(peerId,
        {| sd_type := "offer"; senderId := uid; targetId := Some peerId;
           sd_publicKey := Some jwk;
           offer := Some {| sdp_type := "offer"; sdp := Sdp (sdpText (env w)) |};
           answer := None; candidate := None |})] /\
    (exists pc, peerConnection (refs w') = Some pc /\
                signalingState pc = have_local_offer) /\
    userId (ui w') = Some uid /\
    connectionStatus (ui w') = "connecting" /\
    connectedPeerId (ui w') = peerId.
Proof.
  intros Hu Huid Hpeer peerId d.
  apply String.eqb_neq in Huid, Hpeer.
  do 3 eexists. split.
  - unfold connectToPeer, bind at 1 2, readUi. rewrite Hu, Hpeer, Huid.
    cbn. reflexivity.
  - cbn. repeat split; try assumption. eexists. split; reflexivity.
Qed.

(** C10.  For a message read from a remote sender: an offer is handled
    whatever its [targetId] is (the listener does the same with any
    other [targetId], absent included, and a fresh key pair is always
    generated for it); an answer or a candidate is handled when its
    [targetId] is the local identity and otherwise only deleted.  The
    offer that [connectToPeer] writes does carry the peer's identity as
    [targetId]. *)
Theorem answer_and_candidate_need_targetId_offer_does_not
    (uid : string) (c : DocChange) (w : World) :
  isAdded c = true ->
  senderId (doc_data c) <> uid ->
  let data := doc_data c in
  let guarded (h : M unit) :=
    tryCatchFinally h (fun _ => setMessage MsgSignalingFailed)
                    (deleteDoc (doc_id c)) in
  (sd_type data = "offer" ->
     onChange uid c w = guarded (handleOffer uid data) w /\
     (forall t, onChange uid (retarget t c) w = onChange uid c w) /\
     keygenCount (env (exec (onChange uid c) w)) = S (keygenCount (env w))) /\
  (sd_type data = "answer" ->
     (targetId data = Some uid ->
        onChange uid c w = guarded (handleAnswer data) w) /\
     (targetId data <> Some uid ->
        onChange uid c w = deleteDoc (doc_id c) w)) /\
  (sd_type data = "candidate" ->
     (targetId data = Some uid ->
        onChange uid c w = guarded (handleCandidate data) w) /\
     (targetId data <> Some uid ->
        onChange uid c w = deleteDoc (doc_id c) w)) /\
  (forall (me : string) (w0 : World),
      userId (ui w0) = Some me -> me <> "" ->
      trim (peerIdInput (ui w0)) <> "" ->
      exists sent,
        outbox (env (exec connectToPeer w0)) =
          outbox (env w0) ++ [(trim (peerIdInput (ui w0)), sent)] /\
        sd_type sent = "offer" /\
        targetId sent = Some (trim (peerIdInput (ui w0)))).
Proof.
  intros Hadd Hremote data guarded.
  apply String.eqb_neq in Hremote.
  assert (Hid : forall t, targetId data <> Some uid -> t = targetId data ->
                          isId t uid = false).
  { intros t Hne ->. destruct (targetId data) as [s |]; [| reflexivity].
    cbn. apply String.eqb_neq. congruence. }
  assert (Hchange : onChange uid c w = guarded (dispatch uid data) w).
  { unfold onChange. fold (isAdded c). now rewrite Hadd, Hremote. }
  split; [| split; [| split]].
  - intros Htype.
    assert (Hd : forall t, dispatch uid (withTargetId t data)
                           = handleOffer uid data).
    { intros t. unfold dispatch. cbn [withTargetId sd_type]. now rewrite Htype. }
    assert (Hd0 : dispatch uid data = handleOffer uid data).
    { unfold dispatch. now rewrite Htype. }
    split; [now rewrite Hchange, Hd0 |]. split.
    + intros t. rewrite Hchange. unfold onChange, isAdded in *.
      cbn [retarget change_type doc_data doc_id].
      rewrite Hadd. cbn [withTargetId senderId]. rewrite Hremote.
      cbn [negb]. fold data. now rewrite Hd, Hd0.
    + unfold exec. rewrite Hchange, Hd0. unfold guarded, tryCatchFinally, tryCatch.
      pose proof (handleOffer_generates_key uid data w) as Hk.
      destruct (handleOffer uid data w) as [[[] | e] w1]; cbn in Hk |- *; exact Hk.
  - intros Htype. split.
    + intros Ht. rewrite Hchange. unfold dispatch. rewrite Htype, Ht.
      cbn. now rewrite String.eqb_refl.
    + intros Ht. rewrite Hchange. unfold dispatch.
      rewrite Htype, (Hid _ Ht eq_refl). reflexivity.
  - intros Htype. split.
    + intros Ht. rewrite Hchange. unfold dispatch. rewrite Htype, Ht.
      cbn. now rewrite String.eqb_refl.
    + intros Ht. rewrite Hchange. unfold dispatch.
      rewrite Htype, (Hid _ Ht eq_refl). reflexivity.
  - intros me w0 Hme Hne Hpeer.
    destruct (connectToPeer_runs me w0 Hme Hne Hpeer)
      as (w' & pair & jwk & Hrun & _ & _ & _ & Hout & _).
    eexists. unfold exec. rewrite Hrun. cbn [snd]. split; [exact Hout |].
    split; reflexivity.
Qed.

End Signaling.

(* ===================================================================== *)
(** * Key agreement *)
(* ===================================================================== *)

Section KeyAgreement.
Context {curve : Curve} {aead : Aead} {hash : Hash}.

Lemma bind_ok {A B} (c : M A) (k : A -> M B) (w w1 : World) (a : A) :
  c w = (Ok a, w1) -> bind c k w = k a w1.
Proof. intros H. unfold bind. now rewrite H. Qed.

(** The key pair that [generateKey] returns for the private scalar
    [d]. *)
Lemma generateKey_pair (d : N) (pair : CryptoKeyPair) :
  generateKey "P-256" true [deriveBits] d = Ok pair ->
  privateKey pair =
    {| key_type := private; key_extractable := true;
       key_algorithm := ECDH "P-256"; key_usages := [deriveBits];
       key_material := PrivateScalar d |} /\
  publicKey pair =
    {| key_type := public; key_extractable := true;
       key_algorithm := ECDH "P-256"; key_usages := [];
       key_material := PublicPoint (smul d basePoint) |}.
Proof. cbn. intros [= <-]. split; reflexivity. Qed.

(** Exporting the public key of a pair and importing it on the other
    side, as the two handlers do, gives the point back. *)
Lemma import_exported_public_key (d : N) (pair : CryptoKeyPair) (jwk : Jwk) :
  generateKey "P-256" true [deriveBits] d = Ok pair ->
  exportKey (publicKey pair) = Ok jwk ->
  importKeyJwk (Some jwk) "P-256" false [] =
    Ok {| key_type := public; key_extractable := false;
          key_algorithm := ECDH "P-256"; key_usages := [];
          key_material := PublicPoint (smul d basePoint) |}.
Proof.
  intros Hgen Hexp. apply generateKey_pair in Hgen as [_ Hpub].
  rewrite Hpub in Hexp. cbn in Hexp. injection Hexp as <-. reflexivity.
Qed.

(** ECDH: 256 bits derived from the private scalar [d] and the public
    point [Q] are the x coordinate of [d * Q]. *)
Lemma deriveBits_shared (d : N) (Q : point) (ext ext' : bool) :
  deriveBitsOp
    {| key_type := public; key_extractable := ext';
       key_algorithm := ECDH "P-256"; key_usages := [];
       key_material := PublicPoint Q |}
    {| key_type := private; key_extractable := ext;
       key_algorithm := ECDH "P-256"; key_usages := [deriveBits];
       key_material := PrivateScalar d |}
    256
  = Ok (xcoord (smul d Q)).
Proof.
  unfold deriveBitsOp. cbn -[Z.mul Z.ltb Z.div Z.to_nat take].
  unfold byteLength. rewrite xcoord_length.
  change (8 * Z.of_nat 32 <? 256) with false. cbn iota.
  f_equal. apply take_ge. rewrite xcoord_length.
  change (Z.to_nat (256 / 8)) with 32%nat. lia.
Qed.

(** The raw ECDH output is used directly as the AES-256-GCM key. *)
Lemma importKeyRaw_shared (P : point) :
  importKeyRaw (xcoord P) false [encrypt; decrypt] =
    Ok {| key_type := secret; key_extractable := false;
          key_algorithm := AES_GCM 256; key_usages := [encrypt; decrypt];
          key_material := SecretBytes (xcoord P) |}.
Proof.
  unfold importKeyRaw. cbn -[Z.mul Z.eqb]. unfold byteLength.
  rewrite xcoord_length. reflexivity.
Qed.

(** Diffie-Hellman: both orders of multiplication reach one point. *)
Lemma smul_comm (a b : N) :
  smul a (smul b basePoint) = smul b (smul a basePoint).
Proof. rewrite !smul_smul. f_equal. apply N.mul_comm. Qed.

(** The answer branch, on the side that holds the pair of scalar [d]. *)
Lemma handleAnswer_installs_key (d : N) (pair : CryptoKeyPair) (Q : point)
    (data : SignalData) (w : World) :
  generateKey "P-256" true [deriveBits] d = Ok pair ->
  cryptoKeyPair (refs w) = Some pair ->
  importKeyJwk (sd_publicKey data) "P-256" false [] = Ok (importedPublicKey Q) ->
  symmetricKey (refs (exec (handleAnswer data) w)) = Some (sharedKey (smul d Q)).
Proof.
  intros Hgen Hpair Himp. apply generateKey_pair in Hgen as [Hpriv _].
  unfold exec, handleAnswer.
  erewrite bind_ok by (unfold lift; rewrite Himp; reflexivity).
  erewrite bind_ok by (unfold bind, readRef; rewrite Hpair; reflexivity).
  erewrite bind_ok
    by (unfold lift, importedPublicKey; rewrite Hpriv, deriveBits_shared;
        reflexivity).
  erewrite bind_ok by (unfold lift; rewrite importKeyRaw_shared; reflexivity).
  erewrite bind_ok by reflexivity.
  match goal with |- _ (_ (snd (?c ?w1))) = _ =>
    assert (Hkeeps : keeps (fun w => symmetricKey (refs w)) c)
  end.
  { unfold onPeerConnection. keeps_auto. }
  rewrite (Hkeeps _). reflexivity.
Qed.

(** The offer branch: it generates the pair of the next scalar and
    derives the key from it. *)
Lemma handleOffer_installs_key (uid : string) (Q : point)
    (data : SignalData) (w : World) :
  importKeyJwk (sd_publicKey data) "P-256" false [] = Ok (importedPublicKey Q) ->
  let d := scalars (env w) (keygenCount (env w)) in
  let w' := exec (handleOffer uid data) w in
  exists pair,
    generateKey "P-256" true [deriveBits] d = Ok pair /\
    cryptoKeyPair (refs w') = Some pair /\
    symmetricKey (refs w') = Some (sharedKey (smul d Q)).
Proof.
  intros Himp d w'. subst w'.
  unfold exec, handleOffer.
  erewrite bind_ok by reflexivity.
  erewrite bind_ok by (unfold lift; rewrite Himp; reflexivity).
  erewrite bind_ok by reflexivity.
  erewrite bind_ok
    by (unfold lift, importedPublicKey;
        cbn [privateKey List.filter isEcdhUsage];
        rewrite deriveBits_shared; reflexivity).
  erewrite bind_ok by (unfold lift; rewrite importKeyRaw_shared; reflexivity).
  erewrite bind_ok by reflexivity.
  match goal with |- exists _, _ /\ _ (_ (snd (?c ?w1))) = _ /\ _ =>
    assert (Hkeeps : keeps (fun w => (symmetricKey (refs w),
                                      cryptoKeyPair (refs w))) c);
    [| specialize (Hkeeps w1); cbn in Hkeeps ]
  end.
  { unfold onPeerConnection. keeps_auto. }
  injection Hkeeps as Hk1 Hk2. rewrite Hk1, Hk2.
  eexists. repeat split.
Qed.

(** C1.  Take any two P-256 key pairs, of private scalars [dA] and
    [dB], each with its exported public key.  On the side of B the offer
    branch, given A's public key, generates B's pair and installs a
    symmetric key; on the side of A the answer branch, given B's public
    key, installs a symmetric key from A's pair.  The two installed keys
    are the same AES-256-GCM key: same 32 bytes (the x coordinate of
    the common point), same algorithm, usages and extractability. *)
Theorem both_handlers_derive_the_same_symmetric_key
    (dA dB : N) (pairA pairB : CryptoKeyPair) (jwkA jwkB : Jwk)
    (uidB : string) (offerData answerData : SignalData) (wA wB : World) :
  generateKey "P-256" true [deriveBits] dA = Ok pairA ->
  generateKey "P-256" true [deriveBits] dB = Ok pairB ->
  exportKey (publicKey pairA) = Ok jwkA ->
  exportKey (publicKey pairB) = Ok jwkB ->
  cryptoKeyPair (refs wA) = Some pairA ->
  scalars (env wB) (keygenCount (env wB)) = dB ->
  sd_publicKey offerData = Some jwkA ->
  sd_publicKey answerData = Some jwkB ->
  let wB' := exec (handleOffer uidB offerData) wB in
  let wA' := exec (handleAnswer answerData) wA in
  exists key : CryptoKey,
    cryptoKeyPair (refs wB') = Some pairB /\
    symmetricKey (refs wB') = Some key /\
    symmetricKey (refs wA') = Some key /\
    key_material key = SecretBytes (xcoord (smul (dA * dB) basePoint)) /\
    key_algorithm key = AES_GCM 256 /\
    key_usages key = [encrypt; decrypt] /\
    key_extractable key = false.
Proof.
  intros HgenA HgenB HexpA HexpB HpairA HdB HoffA HansB wB' wA'.
  pose proof (import_exported_public_key dA pairA jwkA HgenA HexpA) as HimpA.
  pose proof (import_exported_public_key dB pairB jwkB HgenB HexpB) as HimpB.
  rewrite <- HoffA in HimpA. rewrite <- HansB in HimpB.
  destruct (handleOffer_installs_key uidB _ offerData wB HimpA)
    as (pair & Hgen & Hpair & Hkey).
  rewrite HdB in Hgen, Hkey. rewrite HgenB in Hgen. injection Hgen as <-.
  pose proof (handleAnswer_installs_key dA pairA _ answerData wA
                HgenA HpairA HimpB) as HkeyA.
  exists (sharedKey (smul dB (smul dA basePoint))).
  split; [exact Hpair |]. split; [exact Hkey |]. split.
  - fold wA' in HkeyA. rewrite HkeyA. now rewrite smul_comm.
  - cbn. rewrite smul_smul, N.mul_comm. repeat split.
Qed.

End KeyAgreement.

(* ===================================================================== *)
(** * The session key pair *)
(* ===================================================================== *)

Section SessionKeyPair.
Context {curve : Curve} {aead : Aead} {hash : Hash}.

(** C7, as the code has it.  The key pair that [setupPeerConnection]
    generates for a session is an ECDH pair on P-256; its private key
    has [deriveBits] as its only usage (so it cannot sign) and is
    extractable, because [generateKey] is called with
    [extractable = true]: exporting it succeeds and yields the private
    scalar.  The public key can be exported and carries the public
    point. *)
Theorem session_keypair_is_p256_derive_only_and_extractable
    (peerId : string) (w : World) :
  let d := scalars (env w) (keygenCount (env w)) in
  exists pair : CryptoKeyPair,
    cryptoKeyPair (refs (exec (setupPeerConnection peerId) w)) = Some pair /\
    key_type (privateKey pair) = private /\
    key_algorithm (privateKey pair) = ECDH "P-256" /\
    key_usages (privateKey pair) = [deriveBits] /\
    hasUsage sign (key_usages (privateKey pair)) = false /\
    key_extractable (privateKey pair) = true /\
    (exists jwk, exportKey (privateKey pair) = Ok jwk /\ jwk_d jwk = Some d) /\
    key_type (publicKey pair) = public /\
    key_algorithm (publicKey pair) = ECDH "P-256" /\
    key_material (publicKey pair) = PublicPoint (smul d basePoint) /\
    (exists jwk, exportKey (publicKey pair) = Ok jwk /\
                 jwk_crv jwk = "P-256" /\
                 jwk_point jwk = Some (smul d basePoint) /\
                 jwk_d jwk = None).
Proof.
  intros d. eexists. cbn. repeat split; eexists; repeat split.
Qed.

End SessionKeyPair.

(* ===================================================================== *)
(** * Chunked transfer *)
(* ===================================================================== *)

Section Transfer.
Context {curve : Curve} {aead : Aead} {hash : Hash}.

(** The receiver's handler on a binary frame that decrypts. *)
Lemma onmessage_binary_runs (buffer plain : bytes) (key : CryptoKey) (w : World) :
  symmetricKey (refs w) = Some key ->
  decryptOp (slice buffer 0 12) key (sliceFrom buffer 12) = Ok plain ->
  let parts := receiveBuffer (refs w) ++ [plain] in
  let size := receivedSize (refs w) + byteLength plain in
  let meta := receivedFileMetadata (refs w) in
  exists w', onmessage (BinaryFrame buffer) w = (Ok tt, w') /\
    receiveBuffer (refs w') = parts /\
    receivedSize (refs w') = size /\
    receivedFileMetadata (refs w') = meta /\
    symmetricKey (refs w') = Some key /\
    dataChannel (refs w') = dataChannel (refs w) /\
    peerConnection (refs w') = peerConnection (refs w) /\
    cryptoKeyPair (refs w') = cryptoKeyPair (refs w) /\
    env w' = env w /\
    connectionStatus (ui w') = connectionStatus (ui w) /\
    transferProgress (ui w') = progressAfter meta size (transferProgress (ui w)) /\
    (receivedFile (ui w'), message (ui w')) =
      verdictAfter meta size parts (receivedFile (ui w), message (ui w)).
Proof.
  intros Hkey Hdec parts size meta. subst parts size meta.
  unfold onmessage, tryCatch.
  erewrite bind_ok by reflexivity. rewrite Hkey.
  erewrite bind_ok by (unfold lift; rewrite Hdec; reflexivity).
  do 5 (erewrite bind_ok by reflexivity).
  cbn [receivedFileMetadata receivedSize receiveBuffer refs withRefs].
  unfold progressAfter, verdictAfter, hashFile, hexDigest.
  destruct (receivedFileMetadata (refs w)) as [m |] eqn:Hmeta.
  - unfold bind, ret, readRef.
    cbn [receivedFileMetadata receivedSize receiveBuffer refs withRefs withUi].
    destruct (fileSize m =? 0),
             (fileSize m <=? receivedSize (refs w) + byteLength plain);
      cbn [setTransferProgress modify];
      try destruct (String.eqb _ _);
      eexists; (split; [reflexivity |]); cbn; rewrite ?Hkey;
      repeat split; assumption.
  - cbn. eexists. split; [reflexivity |]. cbn. rewrite ?Hkey.
    repeat split; assumption.
Qed.

Lemma hashFile_hexDigest (b : Blob) (w : World) :
  hashFile b w = (Ok (hexDigest (blob_parts b)), w).
Proof. reflexivity. Qed.


(** ** The sender's frame *)

Lemma importKeyRaw_inv (raw : bytes) (key : CryptoKey) :
  importKeyRaw raw false [encrypt; decrypt] = Ok key ->
  key = {| key_type := secret; key_extractable := false;
           key_algorithm := AES_GCM (8 * byteLength raw);
           key_usages := [encrypt; decrypt];
           key_material := SecretBytes raw |}.
Proof.
  unfold importKeyRaw. cbn [forallb isAesUsage andb negb].
  destruct (negb _); [discriminate |]. now intros [= <-].
Qed.

Lemma encryptOp_seals (raw iv data : bytes) (key : CryptoKey) :
  importKeyRaw raw false [encrypt; decrypt] = Ok key ->
  encryptOp iv key data = Ok (gcm_seal raw iv data).
Proof. intros ->%importKeyRaw_inv. reflexivity. Qed.

Lemma decryptOp_opens (raw iv data : bytes) (key : CryptoKey) :
  importKeyRaw raw false [encrypt; decrypt] = Ok key ->
  decryptOp iv key (gcm_seal raw iv data) = Ok data.
Proof.
  intros ->%importKeyRaw_inv. unfold decryptOp. cbn.
  now rewrite gcm_open_seal.
Qed.

(** Splitting a frame at byte 12 undoes the sender's concatenation
    when the IV has 12 bytes. *)
Lemma split_frame (iv sealed : bytes) :
  length iv = 12%nat ->
  slice (iv ++ sealed) 0 12 = iv /\ sliceFrom (iv ++ sealed) 12 = sealed.
Proof.
  intros Hlen. unfold slice, sliceFrom.
  change (Z.to_nat (12 - 0)) with 12%nat. change (Z.to_nat 0) with 0%nat.
  change (Z.to_nat 12) with 12%nat. rewrite drop_0. split.
  - now apply take_app_length'.
  - now apply drop_app_length'.
Qed.

Lemma getRandomValues_length (n : nat) (w : World) (iv : bytes) (w' : World) :
  getRandomValues n w = (Ok iv, w') -> length iv = n.
Proof. intros [= <- _]. now rewrite length_map, length_seq. Qed.

Lemma sendChunk_runs (raw : bytes) (key : CryptoKey) (dc : RTCDataChannel)
    (fileData : bytes) (offset : Z) (w : World) :
  importKeyRaw raw false [encrypt; decrypt] = Ok key ->
  symmetricKey (refs w) = Some key ->
  dataChannel (refs w) = Some dc ->
  readyState dc = "open" ->
  let chunk := slice fileData offset (offset + chunkSize) in
  let frame := BinaryFrame (nextIv w ++ gcm_seal raw (nextIv w) chunk) in
  exists w', sendChunk fileData offset w = (Ok tt, w') /\
    wire (env w') = wire (env w) ++ [frame] /\
    refs w' = refs w /\
    ui w' = ui w.
Proof.
  intros Hraw Hkey Hdc Hopen chunk frame. unfold sendChunk.
  erewrite bind_ok by reflexivity.
  erewrite bind_ok by (unfold bind, readRef; cbn; rewrite Hkey; reflexivity).
  erewrite bind_ok
    by (unfold lift; rewrite (encryptOp_seals raw _ _ key Hraw); reflexivity).
  unfold send. erewrite bind_ok
    by (unfold bind, readRef; cbn; rewrite Hdc; reflexivity).
  rewrite Hopen. cbn. eexists. repeat split.
Qed.

Lemma nextIv_length (w : World) : length (nextIv w) = 12%nat.
Proof. unfold nextIv. now rewrite length_map, length_seq. Qed.

(** The receiver's handler on a frame built as the sender builds it. *)
Lemma onmessage_sealed_frame (raw iv plain : bytes) (key : CryptoKey) (w : World) :
  importKeyRaw raw false [encrypt; decrypt] = Ok key ->
  symmetricKey (refs w) = Some key ->
  length iv = 12%nat ->
  let buffer := iv ++ gcm_seal raw iv plain in
  decryptOp (slice buffer 0 12) key (sliceFrom buffer 12) = Ok plain.
Proof.
  intros Hraw Hkey Hiv buffer. subst buffer.
  destruct (split_frame iv (gcm_seal raw iv plain) Hiv) as [-> ->].
  now apply decryptOp_opens.
Qed.

(** C2.  With the same installed key on both sides: one round of the
    sender's loop draws 12 random bytes as IV, encrypts the chunk, and
    sends exactly the IV followed by the AES-GCM output; cutting that
    frame at byte 12 gives the IV and the ciphertext back.  And for
    every plaintext [P] and every 12-byte IV, the receiver's handler,
    given the frame "IV then sealed [P]", decrypts it to [P] and
    appends exactly [P] to its buffer. *)
Theorem encrypted_chunk_frame_round_trip
    (raw : bytes) (key : CryptoKey) (dc : RTCDataChannel)
    (fileData : bytes) (offset : Z) (ws wr : World) :
  importKeyRaw raw false [encrypt; decrypt] = Ok key ->
  symmetricKey (refs ws) = Some key ->
  symmetricKey (refs wr) = Some key ->
  dataChannel (refs ws) = Some dc ->
  readyState dc = "open" ->
  let chunk := slice fileData offset (offset + chunkSize) in
  let iv := nextIv ws in
  let frame := iv ++ gcm_seal raw iv chunk in
  let ws' := exec (sendChunk fileData offset) ws in
  length iv = 12%nat /\
  fst (sendChunk fileData offset ws) = Ok tt /\
  wire (env ws') = wire (env ws) ++ [BinaryFrame frame] /\
  slice frame 0 12 = iv /\
  sliceFrom frame 12 = gcm_seal raw iv chunk /\
  (forall P iv' : bytes,
      length iv' = 12%nat ->
      let received := iv' ++ gcm_seal raw iv' P in
      let wr' := exec (onmessage (BinaryFrame received)) wr in
      decryptOp (slice received 0 12) key (sliceFrom received 12) = Ok P /\
      receiveBuffer (refs wr') = receiveBuffer (refs wr) ++ [P] /\
      receivedSize (refs wr') = receivedSize (refs wr) + byteLength P).
Proof.
  intros Hraw Hks Hkr Hdc Hopen chunk iv frame ws'.
  pose proof (nextIv_length ws) as Hiv. fold iv in Hiv.
  destruct (sendChunk_runs raw key dc fileData offset ws Hraw Hks Hdc Hopen)
    as (w1 & Hrun & Hwire & _).
  destruct (split_frame iv (gcm_seal raw iv chunk) Hiv) as [Hs1 Hs2].
  subst ws'. unfold exec. rewrite Hrun. cbn [fst snd].
  split; [exact Hiv |]. split; [reflexivity |]. split; [exact Hwire |].
  split; [exact Hs1 |]. split; [exact Hs2 |].
  intros P iv' Hiv'.
  pose proof (onmessage_sealed_frame raw iv' P key wr Hraw Hkr Hiv') as Hdec.
  cbv zeta in Hdec. split; [exact Hdec |].
  destruct (onmessage_binary_runs _ P key wr Hkr Hdec)
    as (w2 & -> & Hbuf & Hsize & _).
  cbn [snd]. now split.
Qed.

(** ** The whole transfer *)

Lemma slice_chunk (data : bytes) (offset : Z) :
  slice data offset (offset + chunkSize) =
  take (Z.to_nat chunkSize) (drop (Z.to_nat offset) data).
Proof. unfold slice. do 2 f_equal. lia. Qed.

Lemma concat_snoc (parts : list bytes) (x : bytes) :
  concat (parts ++ [x]) = concat parts ++ x.
Proof. rewrite concat_app. cbn. now rewrite app_nil_r. Qed.

(** A chunk that is not the last one is full. *)
Lemma chunk_full (data : bytes) (offset : Z) :
  0 <= offset ->
  offset + chunkSize < byteLength data ->
  byteLength (slice data offset (offset + chunkSize)) = chunkSize /\
  take (Z.to_nat offset) data ++ slice data offset (offset + chunkSize)
    = take (Z.to_nat (offset + chunkSize)) data.
Proof.
  intros Hpos Hlt. rewrite slice_chunk. unfold byteLength in *. split.
  - rewrite length_take, length_drop. unfold chunkSize in *. lia.
  - rewrite take_take_drop. f_equal. unfold chunkSize. lia.
Qed.

(** The last chunk is what is left of the file. *)
Lemma chunk_last (data : bytes) (offset : Z) :
  0 <= offset ->
  byteLength data <= offset + chunkSize ->
  offset + byteLength (slice data offset (offset + chunkSize))
    = Z.max offset (byteLength data) /\
  take (Z.to_nat offset) data ++ slice data offset (offset + chunkSize) = data.
Proof.
  intros Hpos Hge. rewrite slice_chunk. unfold byteLength in *.
  rewrite take_ge by (rewrite length_drop; unfold chunkSize in *; lia).
  split.
  - rewrite length_drop. lia.
  - apply take_drop.
Qed.

Lemma sendChunks_done (fuel : nat) (data : bytes) (offset : Z) (w : World) :
  byteLength data <= offset ->
  sendChunks fuel data offset w = (Ok tt, w).
Proof.
  intros Hge. apply Z.ltb_ge in Hge.
  destruct fuel; cbn [sendChunks]; now rewrite Hge.
Qed.

(** The sender's loop, and the receiver run on the frames it sends.
    With enough fuel the loop completes; its last reported progress is
    computed from the offset after the increment; and a receiver that
    holds the first [offset] bytes ends with the whole file assembled
    and judged. *)
Lemma sendChunks_runs (raw : bytes) (key : CryptoKey) (dc : RTCDataChannel)
    (data : bytes) :
  importKeyRaw raw false [encrypt; decrypt] = Ok key ->
  readyState dc = "open" ->
  forall (fuel : nat) (offset : Z) (ws : World),
    symmetricKey (refs ws) = Some key ->
    dataChannel (refs ws) = Some dc ->
    0 <= offset < byteLength data ->
    byteLength data - offset <= Z.of_nat fuel * chunkSize ->
    exists (ws' : World) (frames : list Frame) (k : Z),
      sendChunks fuel data offset ws = (Ok tt, ws') /\
      wire (env ws') = wire (env ws) ++ frames /\
      refs ws' = refs ws /\
      message (ui ws') = message (ui ws) /\
      1 <= k /\
      offset + (k - 1) * chunkSize < byteLength data <= offset + k * chunkSize /\
      transferProgress (ui ws') =
        percent (offset + k * chunkSize) (byteLength data) /\
      (forall (m : ControlMessage) (wr : World),
          fileSize m = byteLength data ->
          receiving key m data offset wr ->
          let wr' := receive frames wr in
          concat (receiveBuffer (refs wr')) = data /\
          receivedSize (refs wr') = byteLength data /\
          (receivedFile (ui wr'), message (ui wr')) = delivered m data /\
          connectionStatus (ui wr') = connectionStatus (ui wr)).
Proof.
  intros Hraw Hopen. induction fuel as [| fuel IH];
    intros offset ws Hkey Hdc Hoff Hfuel.
  { unfold chunkSize in *. lia. }
  cbn [sendChunks].
  destruct (Z.ltb_spec offset (byteLength data)) as [_ | Hc]; [| lia].
  destruct (sendChunk_runs raw key dc data offset ws Hraw Hkey Hdc Hopen)
    as (ws1 & Hrun & Hwire1 & Hrefs1 & Hui1).
  erewrite bind_ok by exact Hrun.
  erewrite bind_ok by reflexivity.
  set (chunk := slice data offset (offset + chunkSize)) in *.
  set (frame := BinaryFrame (nextIv ws ++ gcm_seal raw (nextIv ws) chunk)) in *.
  match goal with |- context [sendChunks fuel data _ ?w] => set (ws2 := w) end.
  assert (Hrefs2 : refs ws2 = refs ws) by (subst ws2; cbn; exact Hrefs1).
  assert (Hwire2 : wire (env ws2) = wire (env ws) ++ [frame])
    by (subst ws2; cbn; exact Hwire1).
  assert (Hmsg2 : message (ui ws2) = message (ui ws))
    by (subst ws2; cbn; now rewrite Hui1).
  assert (Hstep : forall (m : ControlMessage) (wr : World),
             fileSize m = byteLength data ->
             receiving key m data offset wr ->
             let wr1 := exec (onmessage frame) wr in
             symmetricKey (refs wr1) = Some key /\
             receivedFileMetadata (refs wr1) = Some m /\
             receivedSize (refs wr1) = offset + byteLength chunk /\
             concat (receiveBuffer (refs wr1)) =
               take (Z.to_nat offset) data ++ chunk /\
             connectionStatus (ui wr1) = connectionStatus (ui wr) /\
             (receivedFile (ui wr1), message (ui wr1)) =
               verdictAfter (Some m) (offset + byteLength chunk)
                 (receiveBuffer (refs wr) ++ [chunk])
                 (receivedFile (ui wr), message (ui wr))).
  { intros m wr Hm (Hk & Hmeta & Hsize & Hbuf) wr1. subst wr1.
    unfold exec, frame.
    pose proof (onmessage_sealed_frame raw (nextIv ws) chunk key wr Hraw Hk
                  (nextIv_length ws)) as Hdec. cbv zeta in Hdec.
    destruct (onmessage_binary_runs _ chunk key wr Hk Hdec)
      as (w1 & -> & Hb1 & Hs1 & Hm1 & Hk1 & _ & _ & _ & _ & Hst1 & _ & Hv1).
    cbn [snd]. rewrite Hb1, Hs1, Hm1, Hmeta, Hsize, concat_snoc, Hbuf.
    rewrite Hmeta, Hsize in Hv1. repeat split; assumption. }
  destruct (Z.lt_ge_cases (offset + chunkSize) (byteLength data)) as [Hlt | Hge].
  - destruct (chunk_full data offset (proj1 Hoff) Hlt) as [Hlen Hcat].
    fold chunk in Hlen, Hcat.
    destruct (IH (offset + chunkSize) ws2) as
      (ws' & frames & k & Hrun' & Hwire' & Hrefs' & Hmsg' & Hk1 & Hk2 & Hprog & Hrecv).
    { now rewrite Hrefs2. } { now rewrite Hrefs2. }
    { unfold chunkSize in *. lia. } { unfold chunkSize in *. lia. }
    exists ws', (frame :: frames), (k + 1).
    split; [exact Hrun' |].
    split; [now rewrite Hwire', Hwire2, <- app_assoc |].
    split; [now rewrite Hrefs', Hrefs2 |].
    split; [now rewrite Hmsg', Hmsg2 |].
    split; [lia |]. split; [unfold chunkSize in *; lia |].
    split; [rewrite Hprog; f_equal; lia |].
    intros m wr Hm Hrecving. cbn [receive fold_left].
    destruct (Hstep m wr Hm Hrecving) as (Hk' & Hmeta' & Hs' & Hb' & Hst' & Hv').
    rewrite Hlen in Hs', Hv'. rewrite Hcat in Hb'.
    specialize (Hrecv m (exec (onmessage frame) wr) Hm
                  (conj Hk' (conj Hmeta' (conj Hs' Hb')))).
    cbv zeta in Hrecv. unfold receive in Hrecv.
    destruct Hrecv as (? & ? & ? & Hst''). rewrite Hst'' , Hst'.
    repeat split; assumption.
  - rewrite sendChunks_done by (unfold chunkSize in *; lia).
    destruct (chunk_last data offset (proj1 Hoff) Hge) as [Hlen Hcat].
    fold chunk in Hlen, Hcat.
    rewrite Z.max_r in Hlen by lia.
    exists ws2, [frame], 1.
    split; [reflexivity |]. split; [exact Hwire2 |]. split; [exact Hrefs2 |].
    split; [exact Hmsg2 |]. split; [lia |].
    split; [unfold chunkSize in *; lia |].
    split; [subst ws2; cbn; f_equal; lia |].
    intros m wr Hm Hrecving. cbn [receive fold_left].
    destruct (Hstep m wr Hm Hrecving) as (Hk' & Hmeta' & Hs' & Hb' & Hst' & Hv').
    rewrite Hlen in Hs', Hv'. rewrite Hcat in Hb'.
    split; [exact Hb' |]. split; [exact Hs' |]. split; [| exact Hst'].
    rewrite Hv'. unfold verdictAfter, delivered. rewrite Hm, Z.leb_refl.
    destruct Hrecving as (_ & _ & _ & Hbuf).
    now rewrite concat_snoc, Hbuf, Hcat.
Qed.

(** The receiver's handler on the control message. *)
Lemma onmessage_metadata (m : ControlMessage) (w : World) :
  cm_type m = "fileMetadata" ->
  let w' := exec (onmessage (TextFrame (Json m))) w in
  receivedFileMetadata (refs w') = Some m /\
  receiveBuffer (refs w') = [] /\
  receivedSize (refs w') = 0 /\
  symmetricKey (refs w') = symmetricKey (refs w) /\
  receivedFile (ui w') = receivedFile (ui w) /\
  message (ui w') = MsgReceiving (fileName m) (fileSize m) /\
  connectionStatus (ui w') = connectionStatus (ui w).
Proof.
  intros Htype. unfold exec, onmessage, tryCatch.
  erewrite bind_ok by reflexivity. rewrite Htype. cbn. repeat split.
Qed.

Lemma send_open (dc : RTCDataChannel) (data : Frame) (w : World) :
  dataChannel (refs w) = Some dc ->
  readyState dc = "open" ->
  exists w', send data w = (Ok tt, w') /\
    refs w' = refs w /\ ui w' = ui w /\
    wire (env w') = wire (env w) ++ [data] /\
    fileHistory (env w') = fileHistory (env w).
Proof.
  intros Hdc Hopen. unfold send.
  erewrite bind_ok by (unfold bind, readRef; cbn; rewrite Hdc; reflexivity).
  rewrite Hopen. eexists. split; [reflexivity |]. cbn. repeat split.
Qed.

(** [reader.onload] up to the loop: the history record is written and
    the control message is sent. *)
Lemma readerOnload_unfold (dc : RTCDataChannel) (f : File) (ws : World) :
  dataChannel (refs ws) = Some dc ->
  readyState dc = "open" ->
  exists ws0,
    refs ws0 = refs ws /\
    ui ws0 = ui ws /\
    wire (env ws0) = wire (env ws) ++ [TextFrame (Json (metadataOf f))] /\
    length (fileHistory (env ws0)) = S (length (fileHistory (env ws))) /\
    readerOnload f ws =
      tryCatch (sendChunks (length (file_data f)) (file_data f) 0 ;;;
                setMessage MsgFileSent)
               (fun _ => setMessage MsgTransferError) ws0.
Proof.
  intros Hdc Hopen.
  unfold readerOnload, tryCatch.
  do 5 (erewrite bind_ok by reflexivity).
  match goal with |- context [bind (send ?fr) _ ?w] =>
    destruct (send_open dc fr w Hdc Hopen) as (ws0 & Hsend & Hr & Hu & Hw & Hh)
  end.
  erewrite bind_ok by exact Hsend.
  exists ws0. cbn in Hr, Hu, Hw, Hh.
  repeat (split; [assumption |]). split; [| reflexivity].
  rewrite Hh, length_app. cbn. lia.
Qed.

(** The whole transfer of a file that is not empty.  [reader.onload]
    completes; it sends the control message and then one frame per
    chunk; its last reported progress is [k * chunkSize / size * 100]
    for the number [k] of chunks; and a receiver with the same key, run
    on these frames in order, ends with exactly the file's bytes,
    verified and exposed under the file's name. *)
Lemma nonempty_file_transfer (raw : bytes) (key : CryptoKey)
    (dc : RTCDataChannel) (f : File) (ws : World) :
  importKeyRaw raw false [encrypt; decrypt] = Ok key ->
  symmetricKey (refs ws) = Some key ->
  dataChannel (refs ws) = Some dc ->
  readyState dc = "open" ->
  0 < file_size f ->
  exists (ws' : World) (frames : list Frame) (k : Z),
    readerOnload f ws = (Ok tt, ws') /\
    wire (env ws') = wire (env ws) ++ frames /\
    message (ui ws') = MsgFileSent /\
    (k - 1) * chunkSize < file_size f <= k * chunkSize /\
    transferProgress (ui ws') = percent (k * chunkSize) (file_size f) /\
    (forall wr : World,
        symmetricKey (refs wr) = Some key ->
        let wr' := receive frames wr in
        concat (receiveBuffer (refs wr')) = file_data f /\
        receivedSize (refs wr') = file_size f /\
        receivedFile (ui wr') =
          Some {| name := file_name f;
                  blob := {| blob_parts := file_data f;
                             blob_type := file_type f |} |} /\
        message (ui wr') = MsgVerified /\
        connectionStatus (ui wr') = connectionStatus (ui wr)).
Proof.
  intros Hraw Hkey Hdc Hopen Hsize. unfold file_size in *.
  destruct (readerOnload_unfold dc f ws Hdc Hopen)
    as (ws0 & Hr0 & Hu0 & Hw0 & _ & ->).
  destruct (sendChunks_runs raw key dc (file_data f) Hraw Hopen
              (length (file_data f)) 0 ws0)
    as (ws1 & frames & k & Hrun & Hw1 & Hr1 & Hm1 & Hk & Hbound & Hprog & Hrecv).
  { now rewrite Hr0. } { now rewrite Hr0. } { lia. }
  { unfold byteLength, chunkSize. lia. }
  unfold tryCatch. erewrite bind_ok by exact Hrun.
  eexists. exists (TextFrame (Json (metadataOf f)) :: frames), k.
  split; [reflexivity |]. cbn [setMessage modify withUi ui env].
  split; [now rewrite Hw1, Hw0, <- app_assoc |].
  split; [reflexivity |]. rewrite !Z.add_0_l in Hbound, Hprog.
  split; [exact Hbound |]. split; [exact Hprog |].
  intros wr Hkr. cbn [receive fold_left].
  destruct (onmessage_metadata (metadataOf f) wr eq_refl)
    as (Hmeta & Hbuf & Hsz & Hk' & _ & _ & Hst).
  specialize (Hrecv (metadataOf f) (exec (onmessage (TextFrame (Json (metadataOf f)))) wr)
                eq_refl).
  destruct Hrecv as (Hcat & Hlen & Hdel & Hst').
  { unfold receiving. rewrite Hmeta, Hbuf, Hsz, Hk', Hkr. repeat split. }
  unfold delivered in Hdel. cbn [metadataOf fileHash fileName fileType] in Hdel.
  rewrite String.eqb_refl in Hdel. injection Hdel as Hfile Hmsg.
  unfold receive in *. rewrite Hst', Hst. repeat split; assumption.
Qed.

(** C3 at the empty file.  For a file of size 0 the sender's loop
    does not run: [reader.onload] sends the control message only and
    reports success.  The receiver, given all that was sent, records
    the metadata with an empty buffer, and although its byte count (0)
    has reached the announced size (0), it assembles and exposes
    nothing: [receivedFile] is what it was before the transfer. *)
Theorem empty_file_transfer_never_completes
    (dc : RTCDataChannel) (f : File) (ws wr : World) :
  dataChannel (refs ws) = Some dc ->
  readyState dc = "open" ->
  file_data f = [] ->
  let ws' := exec (readerOnload f) ws in
  let sent := [TextFrame (Json (metadataOf f))] in
  let wr' := receive sent wr in
  fst (readerOnload f ws) = Ok tt /\
  message (ui ws') = MsgFileSent /\
  wire (env ws') = wire (env ws) ++ sent /\
  receivedFileMetadata (refs wr') = Some (metadataOf f) /\
  fileSize (metadataOf f) = 0 /\
  receivedSize (refs wr') = 0 /\
  receiveBuffer (refs wr') = [] /\
  receivedFile (ui wr') = receivedFile (ui wr) /\
  message (ui wr') = MsgReceiving (file_name f) 0.
Proof.
  intros Hdc Hopen Hempty ws' sent wr'. subst ws' sent wr'. unfold exec.
  destruct (readerOnload_unfold dc f ws Hdc Hopen)
    as (ws0 & Hr0 & Hu0 & Hw0 & _ & ->).
  rewrite Hempty. cbn [length sendChunks]. unfold byteLength. cbn [length].
  change (0 <? Z.of_nat 0) with false. cbn iota.
  unfold tryCatch. erewrite bind_ok by reflexivity.
  cbn [setMessage modify withUi ui env fst snd message].
  split; [reflexivity |]. split; [reflexivity |]. split; [exact Hw0 |].
  cbn [receive fold_left].
  destruct (onmessage_metadata (metadataOf f) wr eq_refl)
    as (Hmeta & Hbuf & Hsz & _ & Hfile & Hmsg & _).
  unfold exec in *. rewrite Hmeta, Hbuf, Hsz, Hfile, Hmsg.
  cbn [metadataOf fileSize fileName]. unfold file_size, byteLength.
  rewrite Hempty. repeat split.
Qed.

(** ** Progress arithmetic *)

Lemma percent_above (a b : Z) :
  0 < b -> b < a -> (100 < percent a b)%Q.
Proof.
  intros Hb Hab. unfold percent.
  assert (H1 : (1 < inject_Z a / inject_Z b)%Q).
  { apply Qlt_shift_div_l.
    - change 0%Q with (inject_Z 0). now rewrite <- Zlt_Qlt.
    - rewrite Qmult_1_l. now rewrite <- Zlt_Qlt. }
  apply (Qle_lt_trans _ (1 * 100)%Q).
  - rewrite Qmult_1_l. apply Qle_refl.
  - apply Qmult_lt_compat_r; [reflexivity | exact H1].
Qed.

Lemma percent_exact (b : Z) : 0 < b -> (percent b b == 100)%Q.
Proof.
  intros Hb. unfold percent. field.
  intros H. unfold Qeq in H. cbn in H. lia.
Qed.

Lemma chunk_count (n k : Z) :
  (k - 1) * chunkSize < n <= k * chunkSize ->
  k = (n + chunkSize - 1) / chunkSize.
Proof.
  intros H. apply (Z.div_unique _ _ k (n + chunkSize - 1 - k * chunkSize));
    unfold chunkSize in *; lia.
Qed.

(** C8 on the code.  After the last chunk of a file that is not
    empty, the sender has sent all [size] bytes of the file, but the
    progress it reports is [chunks * 16384 / size * 100], where
    [chunks] is the number of chunks: the offset is advanced by the
    chunk size, not by the length of the chunk sent.  The report is
    100 when the size is a multiple of 16384 and above 100 for every
    other size. *)
Theorem sender_final_progress_counts_whole_chunks
    (raw : bytes) (key : CryptoKey) (dc : RTCDataChannel)
    (f : File) (ws : World) :
  importKeyRaw raw false [encrypt; decrypt] = Ok key ->
  symmetricKey (refs ws) = Some key ->
  dataChannel (refs ws) = Some dc ->
  readyState dc = "open" ->
  0 < file_size f ->
  let ws' := exec (readerOnload f) ws in
  let chunks := (file_size f + chunkSize - 1) / chunkSize in
  message (ui ws') = MsgFileSent /\
  transferProgress (ui ws') = percent (chunks * chunkSize) (file_size f) /\
  (file_size f mod chunkSize <> 0 -> (100 < transferProgress (ui ws'))%Q) /\
  (file_size f mod chunkSize = 0 -> (transferProgress (ui ws') == 100)%Q).
Proof.
  intros Hraw Hkey Hdc Hopen Hsize ws' chunks. subst ws'. unfold exec.
  destruct (nonempty_file_transfer raw key dc f ws Hraw Hkey Hdc Hopen Hsize)
    as (ws' & frames & k & -> & _ & Hmsg & Hbound & Hprog & _).
  cbn [snd]. pose proof (chunk_count _ _ Hbound) as Hk. fold chunks in Hk.
  subst k. split; [exact Hmsg |]. split; [exact Hprog |].
  rewrite Hprog. split; intros Hmod.
  - apply percent_above; [exact Hsize |].
    destruct (Z.eq_dec (chunks * chunkSize) (file_size f)) as [Heq | Hne];
      [| lia].
    exfalso. apply Hmod. rewrite <- Heq. apply Z.mod_mul. discriminate.
  - replace (chunks * chunkSize) with (file_size f).
    + now apply percent_exact.
    + apply Z.mod_divide in Hmod; [| discriminate].
      destruct Hmod as [q Hq]. rewrite Hq in Hbound |- *.
      f_equal. unfold chunkSize in *. nia.
Qed.

End Transfer.

(* ===================================================================== *)
(** * Further properties *)
(* ===================================================================== *)

Section MoreProperties.
Context {curve : Curve} {aead : Aead} {hash : Hash}.

(** ** What an inbound frame can and cannot do *)

Lemma onmessage_keeps_session (msg : Frame) :
  keeps (fun w => (env w, symmetricKey (refs w), cryptoKeyPair (refs w),
                   peerConnection (refs w), dataChannel (refs w),
                   connectionStatus (ui w), userId (ui w),
                   connectedPeerId (ui w), file (ui w)))
        (onmessage msg).
Proof.
  unfold onmessage, hashFile. destruct msg as [t | buffer].
  - keeps_auto.
  - apply keeps_tryCatch; [| intros ?; keeps_auto].
    apply keeps_bind; [keeps_auto |]. intros [key |]; [| keeps_auto].
    cbv zeta. keeps_auto.
Qed.

Lemma receive_snoc (frames : list Frame) (f : Frame) (w : World) :
  receive (frames ++ [f]) w = exec (onmessage f) (receive frames w).
Proof. unfold receive. now rewrite fold_left_app. Qed.

Lemma receive_app (frames frames' : list Frame) (w : World) :
  receive (frames ++ frames') w = receive frames' (receive frames w).
Proof. unfold receive. now rewrite fold_left_app. Qed.

Lemma receive_keeps_session
    (frames : list Frame) (w : World) :
  let w' := receive frames w in
  env w' = env w /\
  symmetricKey (refs w') = symmetricKey (refs w) /\
  cryptoKeyPair (refs w') = cryptoKeyPair (refs w) /\
  peerConnection (refs w') = peerConnection (refs w) /\
  dataChannel (refs w') = dataChannel (refs w) /\
  connectionStatus (ui w') = connectionStatus (ui w) /\
  connectedPeerId (ui w') = connectedPeerId (ui w).
Proof.
  induction frames as [| f frames IH] using rev_ind; cbv zeta.
  - repeat split.
  - rewrite receive_snoc. unfold exec.
    pose proof (onmessage_keeps_session f (receive frames w)) as Hk.
    cbv beta in Hk. injection Hk as -> -> -> -> -> -> _ -> _.
    exact IH.
Qed.

(** X1.  Whatever arrives on the data channel, in whatever order, the
    receiver's handler writes nothing anywhere (no signaling message, no
    frame, no history record, no mailbox deletion, no randomness drawn)
    and leaves the shared key, the key pair, the peer connection, the
    data channel, the connection status and the peer's identity as they
    were. *)
Theorem inbound_frames_never_touch_session_or_environment
    (frames : list Frame) (w : World) :
  let w' := receive frames w in
  env w' = env w /\
  symmetricKey (refs w') = symmetricKey (refs w) /\
  cryptoKeyPair (refs w') = cryptoKeyPair (refs w) /\
  peerConnection (refs w') = peerConnection (refs w) /\
  dataChannel (refs w') = dataChannel (refs w) /\
  connectionStatus (ui w') = connectionStatus (ui w) /\
  connectedPeerId (ui w') = connectedPeerId (ui w).
Proof. exact (receive_keeps_session frames w). Qed.

(** X2.  A binary frame that cannot be decrypted, because no key is
    installed or because AES-GCM rejects it, changes the status line and
    nothing else: no byte is added to the buffer, the byte count, the
    progress and the received file stay, and the session goes on. *)
Theorem undecryptable_frame_only_changes_status_line
    (buffer : bytes) (w : World) :
  (symmetricKey (refs w) = None \/
   exists key e, symmetricKey (refs w) = Some key /\
                 decryptOp (slice buffer 0 12) key (sliceFrom buffer 12) = Throw e) ->
  onmessage (BinaryFrame buffer) w = setMessage MsgDecryptFailed w.
Proof.
  intros [Hnone | (key & e & Hkey & Hdec)]; unfold onmessage, tryCatch.
  - erewrite bind_ok by reflexivity. rewrite Hnone. reflexivity.
  - erewrite bind_ok by reflexivity. rewrite Hkey.
    unfold bind at 1, lift. rewrite Hdec. reflexivity.
Qed.

(** X3.  Text on the data channel that is not the JSON of a
    [fileMetadata] object is ignored without a trace. *)
Theorem text_other_than_metadata_is_ignored (t : Text) (w : World) :
  (forall o, t = Json o -> cm_type o <> "fileMetadata") ->
  onmessage (TextFrame t) w = (Ok tt, w).
Proof.
  intros Hother. unfold onmessage, tryCatch. destruct t as [o | raw].
  - erewrite bind_ok by reflexivity.
    destruct (String.eqb_spec (cm_type o) "fileMetadata") as [Heq | _].
    + now destruct (Hother o eq_refl).
    + reflexivity.
  - reflexivity.
Qed.

(** X4.  [sendFile] hands the file to the reader exactly when a file is
    selected, the data channel exists and is open, and a shared key is
    installed; otherwise it only reports why not.  In no case does it
    itself send, log or change a ref. *)
Theorem sendFile_starts_only_with_file_open_channel_and_key (w : World) :
  env (exec sendFile w) = env w /\
  refs (exec sendFile w) = refs w /\
  (forall f : File,
      fst (sendFile w) = Ok (Some f) <->
      file (ui w) = Some f /\
      (exists dc, dataChannel (refs w) = Some dc /\ readyState dc = "open") /\
      is_Some (symmetricKey (refs w))) /\
  (fst (sendFile w) = Ok None ->
     transferProgress (ui (exec sendFile w)) = transferProgress (ui w) /\
     (message (ui (exec sendFile w)) = MsgSelectFileAndConnect \/
      message (ui (exec sendFile w)) = MsgNoSymmetricKey /\
      symmetricKey (refs w) = None)).
Proof.
  unfold exec, sendFile. do 3 (erewrite bind_ok by reflexivity).
  destruct (file (ui w)) as [f' |] eqn:Hf;
    [destruct (dataChannel (refs w)) as [dc |] eqn:Hdc;
       [destruct (String.eqb_spec (readyState dc) "open") as [Hopen | Hclosed];
          [destruct (symmetricKey (refs w)) as [key |] eqn:Hkey |] |] |];
    cbn; (split; [reflexivity |]); (split; [reflexivity |]); split.
  - intros g. split.
    + intros [= <-]. split; [reflexivity |]. split.
      * exists dc. split; [reflexivity | exact Hopen].
      * exists key. reflexivity.
    + intros ([= <-] & _). reflexivity.
  - intros H; discriminate H.
  - intros g. split; [intros H; discriminate H | intros (_ & _ & [k Hk]); discriminate].
  - intros _. split; [reflexivity | right; split; reflexivity].
  - intros g. split; [intros H; discriminate H |].
    intros (_ & (dc0 & [= <-] & Ho) & _). contradiction (Hclosed Ho).
  - intros _. split; [reflexivity | left; reflexivity].
  - intros g. split; [intros H; discriminate H | intros (_ & (dc0 & [=] & _) & _)].
  - intros _. split; [reflexivity | left; reflexivity].
  - intros g. split; [intros H; discriminate H | intros ([=] & _)].
  - intros _. split; [reflexivity | left; reflexivity].
Qed.

Lemma sendChunks_keeps {C} (proj : World -> C) :
  (forall v, keeps proj (setTransferProgress v)) ->
  (forall data offset, keeps proj (sendChunk data offset)) ->
  forall fuel data offset, keeps proj (sendChunks fuel data offset).
Proof.
  intros Hprog Hchunk. induction fuel as [| fuel IH]; intros data offset;
    cbn [sendChunks]; destruct (offset <? byteLength data).
  - intros w. reflexivity.
  - intros w. reflexivity.
  - apply keeps_bind; [apply Hchunk | intros _].
    apply keeps_bind; [apply Hprog | intros _; apply IH].
  - intros w. reflexivity.
Qed.

Lemma send_fails (data : Frame) (w : World) :
  (dataChannel (refs w) = None \/
   exists dc, dataChannel (refs w) = Some dc /\ readyState dc <> "open") ->
  exists e, send data w = (Throw e, w).
Proof.
  unfold send, bind, readRef.
  intros [-> | (dc & -> & Hclosed)]; cbn.
  - eexists. reflexivity.
  - apply String.eqb_neq in Hclosed. rewrite Hclosed. eexists. reflexivity.
Qed.

(** X5.  [reader.onload] never throws, and it writes the transfer
    record (sender, recipient, file name, SHA-256 hex digest of the
    file, time) to the history whether or not anything can be sent
    afterwards; it changes no ref.  When there is no data channel, or
    it is not open, nothing is sent and the failure is reported. *)
Theorem transfer_record_is_logged_even_if_sending_fails (f : File) (w : World) :
  let w' := exec (readerOnload f) w in
  fst (readerOnload f w) = Ok tt /\
  fileHistory (env w') = fileHistory (env w) ++
    [{| tr_senderId := userId (ui w);
        tr_recipientId := connectedPeerId (ui w);
        tr_fileName := file_name f;
        tr_fileHash := hexDigest (file_data f);
        tr_timestamp := clock (env w) |}] /\
  refs w' = refs w /\
  ((dataChannel (refs w) = None \/
    exists dc, dataChannel (refs w) = Some dc /\ readyState dc <> "open") ->
   wire (env w') = wire (env w) /\ message (ui w') = MsgTransferError).
Proof.
  cbv zeta. unfold exec, readerOnload.
  assert (Hkeeps : forall fr,
    keeps (fun w => (fileHistory (env w), refs w))
      (send fr ;;;
       sendChunks (length (file_data f)) (file_data f) 0 ;;;
       setMessage MsgFileSent)).
  { intros fr. apply keeps_bind; [unfold send; keeps_auto | intros _].
    apply keeps_bind; [| intros _; keeps_auto].
    apply sendChunks_keeps.
    - intros v. keeps_auto.
    - intros data offset. unfold sendChunk, send. keeps_auto. }
  unfold tryCatch. do 5 (erewrite bind_ok by reflexivity).
  match goal with |- context [bind (send ?fr) ?k ?w0] =>
    pose proof (Hkeeps fr w0) as Hk; pose proof (send_fails fr w0) as Hfail;
    destruct (bind (send fr) k w0) as [[[] | e] w1] eqn:Hrun
  end; cbn in Hk; injection Hk as Hh Hr; cbn [fst snd].
  - split; [reflexivity |]. split; [exact Hh |]. split; [exact Hr |].
    intros Hbad. destruct (Hfail Hbad) as [e He].
    unfold bind in Hrun at 1. rewrite He in Hrun. discriminate Hrun.
  - split; [reflexivity |]. split; [exact Hh |]. split; [exact Hr |].
    intros Hbad. destruct (Hfail Hbad) as [e' He].
    unfold bind in Hrun at 1. rewrite He in Hrun. injection Hrun as _ <-.
    split; reflexivity.
Qed.

(** ** What the signaling listener leaves alone *)

Lemma keeps_tryCatchFinally {C} (proj : World -> C) (body : M unit)
    (handler : Exn -> M unit) (fin : M unit) :
  keeps proj body -> (forall e, keeps proj (handler e)) -> keeps proj fin ->
  keeps proj (tryCatchFinally body handler fin).
Proof.
  intros Hb Hh Hf w. unfold tryCatchFinally.
  pose proof (keeps_tryCatch proj body handler Hb Hh w) as Hk.
  destruct (tryCatch body handler w) as [[[] | e] w1]; cbn in Hk.
  - now rewrite Hf.
  - specialize (Hf w1). destruct (fin w1) as [[[] | e'] w2]; cbn in *;
      now rewrite Hf.
Qed.

Lemma onSnapshot_keeps {C} (proj : World -> C) (uid : string) :
  (forall id, keeps proj (deleteDoc id)) ->
  (forall data, keeps proj (dispatch uid data)) ->
  keeps proj (setMessage MsgSignalingFailed) ->
  forall changes, keeps proj (onSnapshot uid changes).
Proof.
  intros Hdel Hdisp Hmsg. induction changes as [| c rest IH]; cbn [onSnapshot].
  - intros w. reflexivity.
  - apply keeps_bind; [| intros _; exact IH]. unfold onChange.
    destruct (negb _); [intros w; reflexivity |].
    destruct (String.eqb _ _); [apply Hdel |].
    apply keeps_tryCatchFinally; auto.
Qed.

(** X6.  However many messages a snapshot brings and whatever they
    hold, the signaling listener never sends anything on the data
    channel, never writes a history record, and never touches the
    receive buffer, the received byte count, the announced metadata, the
    received file, the progress, the selected file or the typed peer
    id. *)
Theorem signaling_never_touches_transfer_state
    (uid : string) (changes : list DocChange) (w : World) :
  let w' := exec (onSnapshot uid changes) w in
  wire (env w') = wire (env w) /\
  fileHistory (env w') = fileHistory (env w) /\
  receiveBuffer (refs w') = receiveBuffer (refs w) /\
  receivedSize (refs w') = receivedSize (refs w) /\
  receivedFileMetadata (refs w') = receivedFileMetadata (refs w) /\
  receivedFile (ui w') = receivedFile (ui w) /\
  transferProgress (ui w') = transferProgress (ui w) /\
  file (ui w') = file (ui w) /\
  peerIdInput (ui w') = peerIdInput (ui w).
Proof.
  cbv zeta. unfold exec.
  assert (Hk : keeps (fun w => (wire (env w), fileHistory (env w),
                  receiveBuffer (refs w), receivedSize (refs w),
                  receivedFileMetadata (refs w), receivedFile (ui w),
                  transferProgress (ui w), file (ui w), peerIdInput (ui w)))
                (onSnapshot uid changes)).
  { apply onSnapshot_keeps.
    - intros id. keeps_auto.
    - intros data.
      unfold dispatch, handleOffer, handleAnswer, handleCandidate,
        onPeerConnection, setupPeerConnection, setupDataChannelEvents.
      keeps_auto.
    - keeps_auto. }
  specialize (Hk w). cbv beta in Hk.
  injection Hk as -> -> -> -> -> -> -> -> ->. repeat split.
Qed.

(** ** Connecting *)

Lemma stripAny_whiteSpace (c s : string) :
  In c whiteSpace -> stripAny whiteSpace (c ++ s)%string = Some s.
Proof.
  intros Hin. unfold whiteSpace in Hin at 1. cbn [In] in Hin.
  repeat (destruct Hin as [<- | Hin]; [reflexivity |]). destruct Hin.
Qed.

Lemma whiteSpace_nonempty (c : string) :
  In c whiteSpace -> (1 <= String.length c)%nat.
Proof.
  intros Hin. unfold whiteSpace in Hin. cbn [In] in Hin.
  repeat (destruct Hin as [<- | Hin]; [cbn; lia |]). destruct Hin.
Qed.

Lemma blank_cons (c : string) (cs : list string) :
  blank (c :: cs) = true -> In c whiteSpace /\ blank cs = true.
Proof.
  unfold blank. cbn [forallb]. intros H. apply andb_prop in H as [Hc Hcs].
  split; [| exact Hcs]. apply existsb_exists in Hc as (x & Hin & Heq).
  apply String.eqb_eq in Heq. now subst x.
Qed.

Lemma length_append (a b : string) :
  String.length (a ++ b)%string = (String.length a + String.length b)%nat.
Proof.
  induction a as [| c a IH]; [reflexivity |].
  change (S (String.length (a ++ b)%string)
          = S (String.length a + String.length b)%nat).
  now rewrite IH.
Qed.

Lemma concat_cons (c : string) (cs : list string) :
  String.concat "" (c :: cs) = (c ++ String.concat "" cs)%string.
Proof.
  destruct cs as [| c' cs]; [| reflexivity]. cbn [String.concat].
  induction c as [| a c IH]; [reflexivity |].
  change (String a c = String a (c ++ "")%string). now rewrite <- IH.
Qed.

Lemma stripAll_blank (cs : list string) :
  blank cs = true ->
  forall fuel, (String.length (String.concat "" cs) <= fuel)%nat ->
    stripAll whiteSpace fuel (String.concat "" cs) = "".
Proof.
  induction cs as [| c cs IH]; intros Hblank fuel Hfuel.
  - now destruct fuel.
  - apply blank_cons in Hblank as [Hc Hcs].
    rewrite concat_cons in *. rewrite length_append in Hfuel.
    pose proof (whiteSpace_nonempty c Hc) as Hlen.
    destruct fuel as [| fuel]; [lia |]. cbn [stripAll].
    rewrite (stripAny_whiteSpace c _ Hc). apply IH; [exact Hcs | lia].
Qed.

Lemma trim_blank (cs : list string) :
  blank cs = true -> trim (String.concat "" cs) = "".
Proof.
  intros H. unfold trim, trimStart.
  now rewrite (stripAll_blank cs H _ (Nat.le_refl _)).
Qed.

(** X7.  [connectToPeer] does nothing but ask for a peer id when the
    typed id is empty or made of white space only, in the sense of
    [String.prototype.trim] (no-break space, line separators and the
    other Unicode spaces included): no key pair is generated, no
    connection is created, no offer is written and the status is not
    changed. *)
Theorem white_space_only_peer_id_refuses_to_connect
    (cs : list string) (w : World) :
  blank cs = true ->
  peerIdInput (ui w) = String.concat "" cs ->
  connectToPeer w = setMessage MsgEnterPeerId w.
Proof.
  intros Hblank Hinput. unfold connectToPeer.
  do 2 (erewrite bind_ok by reflexivity).
  rewrite Hinput, (trim_blank cs Hblank).
  destruct (userId (ui w)) as [uid |]; reflexivity.
Qed.


(** ** Offers *)

(** What the listener can import from a message is a public key on
    P-256: a key with a private part is refused (no usages are asked
    for). *)
Lemma importKeyJwk_public (keyData : option Jwk) (k : CryptoKey) :
  importKeyJwk keyData "P-256" false [] = Ok k ->
  exists (jwk : Jwk) (Q : point),
    keyData = Some jwk /\ jwk_d jwk = None /\ jwk_crv jwk = "P-256" /\
    jwk_point jwk = Some Q /\ k = importedPublicKey Q.
Proof.
  unfold importKeyJwk. destruct keyData as [jwk |]; [| discriminate].
  destruct (jwk_d jwk) as [d |] eqn:Hd.
  - cbn [forallb negb]. destruct (negb _); [discriminate |].
    destruct (_ && _); [discriminate |].
    destruct (negb _); [discriminate |].
    destruct (jwk_point jwk); discriminate.
  - destruct (negb (String.eqb (jwk_kty jwk) "EC")); [discriminate |].
    destruct (_ && _); [discriminate |].
    destruct (String.eqb_spec (jwk_crv jwk) "P-256") as [Hcrv | _];
      [| discriminate].
    cbn [negb]. destruct (jwk_point jwk) as [Q |] eqn:HQ; [| discriminate].
    intros [= <-]. exists jwk, Q. repeat split; assumption.
Qed.

(** The offer branch when everything in the message is usable. *)
Lemma handleOffer_succeeds
    (uid : string) (data : SignalData) (k : CryptoKey)
    (s : RTCSessionDescription) (text : string) (w : World) :
  importKeyJwk (sd_publicKey data) "P-256" false [] = Ok k ->
  offer data = Some s ->
  sdp_type s = "offer" ->
  sdp s = Sdp text ->
  let d := scalars (env w) (keygenCount (env w)) in
  let w' := exec (handleOffer uid data) w in
  exists (Q : point) (pair : CryptoKeyPair) (jwk : Jwk),
    k = importedPublicKey Q /\
    fst (handleOffer uid data w) = Ok tt /\
    generateKey "P-256" true [deriveBits] d = Ok pair /\
    cryptoKeyPair (refs w') = Some pair /\
    symmetricKey (refs w') = Some (sharedKey (smul d Q)) /\
    exportKey (publicKey pair) = Ok jwk /\
    jwk_point jwk = Some (smul d basePoint) /\
    jwk_d jwk = None /\
    outbox (env w') = outbox (env w) ++
      [(senderId data,
        {| sd_type := "answer"; senderId := uid;
           targetId := Some (senderId data);
           sd_publicKey := Some jwk; offer := None;
           answer := Some {| sdp_type := "answer"; sdp := Sdp (sdpText (env w)) |};
           candidate := None |})] /\
    peerConnection (refs w') =
      Some {| signalingState := stable;
              localDescription :=
                Some {| sdp_type := "answer"; sdp := Sdp (sdpText (env w)) |};
              remoteDescription := Some s; remoteCandidates := [];
              icePeer := senderId data |} /\
    dataChannel (refs w') = Some (createDataChannel "fileTransfer") /\
    connectedPeerId (ui w') = senderId data /\
    connectionStatus (ui w') = connectionStatus (ui w) /\
    message (ui w') = MsgOfferHandled.
Proof.
  intros Himp Hoffer Htype Hsdp. cbv zeta.
  destruct (importKeyJwk_public _ _ Himp) as (jwk0 & Q & _ & _ & _ & _ & ->).
  eassert (Hrun : handleOffer uid data w = (Ok tt, _)).
  { unfold handleOffer.
    erewrite bind_ok by reflexivity.
    erewrite bind_ok by (unfold lift; rewrite Himp; reflexivity).
    erewrite bind_ok by reflexivity.
    erewrite bind_ok
      by (unfold lift, importedPublicKey;
          cbn [privateKey List.filter isEcdhUsage];
          rewrite deriveBits_shared; reflexivity).
    erewrite bind_ok by (unfold lift; rewrite importKeyRaw_shared; reflexivity).
    erewrite bind_ok by reflexivity.
    unfold onPeerConnection at 1.
    erewrite bind_ok
      by (erewrite bind_ok by reflexivity;
          unfold bind, lift, setRemoteDescription;
          rewrite Hoffer, Htype, Hsdp; reflexivity).
    cbn. reflexivity. }
  unfold exec. rewrite Hrun. exists Q. do 2 eexists. cbn. repeat split.
Qed.


(** X10.  An offer from a remote sender whose public key does not
    import is not answered, yet it is not harmless: before the key is
    looked at, the handler has already replaced the key pair, the peer
    connection and the data channel by fresh ones, so the references to
    an established session are lost.  The shared key, the status and
    the peer's identity stay; the failure is reported and the message is
    deleted. *)
Theorem offer_with_bad_key_replaces_connection_and_sends_nothing
    (uid : string) (c : DocChange) (e : Exn) (w : World) :
  isAdded c = true ->
  senderId (doc_data c) <> uid ->
  sd_type (doc_data c) = "offer" ->
  importKeyJwk (sd_publicKey (doc_data c)) "P-256" false [] = Throw e ->
  let w' := exec (onChange uid c) w in
  exec (onChange uid c) w =
    exec (deleteDoc (doc_id c))
      (exec (setMessage MsgSignalingFailed)
         (exec (setupPeerConnection (senderId (doc_data c))) w)) /\
  outbox (env w') = outbox (env w) /\
  symmetricKey (refs w') = symmetricKey (refs w) /\
  peerConnection (refs w') = Some (newPeerConnection (senderId (doc_data c))) /\
  dataChannel (refs w') = Some (createDataChannel "fileTransfer") /\
  (exists pair,
      generateKey "P-256" true [deriveBits]
        (scalars (env w) (keygenCount (env w))) = Ok pair /\
      cryptoKeyPair (refs w') = Some pair) /\
  connectionStatus (ui w') = connectionStatus (ui w) /\
  connectedPeerId (ui w') = connectedPeerId (ui w) /\
  message (ui w') = MsgSignalingFailed.
Proof.
  intros Hadd Hremote Htype Himp. cbv zeta. apply String.eqb_neq in Hremote.
  assert (Hrun : exec (onChange uid c) w =
    exec (deleteDoc (doc_id c))
      (exec (setMessage MsgSignalingFailed)
         (exec (setupPeerConnection (senderId (doc_data c))) w))).
  { unfold exec at 1, onChange. fold (isAdded c). rewrite Hadd, Hremote.
    cbn [negb]. unfold dispatch. rewrite Htype. cbn [String.eqb Ascii.eqb Bool.eqb].
    unfold tryCatchFinally, tryCatch, handleOffer.
    erewrite bind_ok by reflexivity.
    unfold bind at 1, lift. rewrite Himp. reflexivity. }
  split; [exact Hrun |]. rewrite Hrun. cbn. repeat split.
  eexists. split; reflexivity.
Qed.

(** X11.  An offer whose key imports but whose session description is
    missing or is not an offer is not answered either; still the shared
    key derived from it has been installed by then. *)
Theorem offer_with_bad_description_installs_key_but_sends_nothing
    (uid : string) (data : SignalData) (k : CryptoKey) (w : World) :
  importKeyJwk (sd_publicKey data) "P-256" false [] = Ok k ->
  (offer data = None \/
   exists s, offer data = Some s /\ sdp_type s <> "offer") ->
  let d := scalars (env w) (keygenCount (env w)) in
  let w' := exec (handleOffer uid data) w in
  exists (Q : point) (e : Exn),
    k = importedPublicKey Q /\
    fst (handleOffer uid data w) = Throw e /\
    symmetricKey (refs w') = Some (sharedKey (smul d Q)) /\
    outbox (env w') = outbox (env w) /\
    connectedPeerId (ui w') = connectedPeerId (ui w) /\
    peerConnection (refs w') = Some (newPeerConnection (senderId data)).
Proof.
  intros Himp Hbad. cbv zeta.
  destruct (importKeyJwk_public _ _ Himp) as (jwk0 & Q & _ & _ & _ & _ & ->).
  exists Q.
  assert (Hfail : exists e, setRemoteDescription
            (newPeerConnection (senderId data)) (offer data) = Throw e).
  { unfold setRemoteDescription.
    destruct Hbad as [-> | (s & -> & Hs)]; [eexists; reflexivity |].
    apply String.eqb_neq in Hs. rewrite Hs. cbn [signalingState newPeerConnection].
    destruct (String.eqb (sdp_type s) "answer"); eexists; reflexivity. }
  destruct Hfail as [e He]. exists e.
  eassert (Hrun : handleOffer uid data w = (Throw e, _)).
  { unfold handleOffer.
    erewrite bind_ok by reflexivity.
    erewrite bind_ok by (unfold lift; rewrite Himp; reflexivity).
    erewrite bind_ok by reflexivity.
    erewrite bind_ok
      by (unfold lift, importedPublicKey;
          cbn [privateKey List.filter isEcdhUsage];
          rewrite deriveBits_shared; reflexivity).
    erewrite bind_ok by (unfold lift; rewrite importKeyRaw_shared; reflexivity).
    erewrite bind_ok by reflexivity.
    unfold bind at 1. unfold onPeerConnection.
    erewrite bind_ok by reflexivity.
    unfold bind at 1, lift. rewrite He. reflexivity. }
  unfold exec. rewrite Hrun. cbn. repeat split.
Qed.

(** ** Answers and candidates *)

(** X12.  An answer addressed to the local identity that arrives when
    no key pair exists (no connection attempt is pending), or whose
    public key does not import, is reported and deleted; no ref, no
    status and no mailbox of a peer is touched. *)
Theorem answer_without_key_pair_or_with_bad_key_changes_nothing
    (uid : string) (c : DocChange) (w : World) :
  isAdded c = true ->
  senderId (doc_data c) <> uid ->
  sd_type (doc_data c) = "answer" ->
  targetId (doc_data c) = Some uid ->
  (cryptoKeyPair (refs w) = None \/
   exists e, importKeyJwk (sd_publicKey (doc_data c)) "P-256" false [] = Throw e) ->
  exec (onChange uid c) w =
    exec (deleteDoc (doc_id c)) (exec (setMessage MsgSignalingFailed) w).
Proof.
  intros Hadd Hremote Htype Htarget Hbad. apply String.eqb_neq in Hremote.
  unfold exec at 1, onChange. fold (isAdded c). rewrite Hadd, Hremote.
  cbn [negb]. unfold dispatch. rewrite Htype, Htarget.
  cbn [String.eqb Ascii.eqb Bool.eqb isId]. rewrite String.eqb_refl.
  cbn [andb]. unfold tryCatchFinally, tryCatch, handleAnswer.
  destruct (importKeyJwk (sd_publicKey (doc_data c)) "P-256" false [])
    as [k | e] eqn:Himp.
  - destruct Hbad as [Hnone | [e He]]; [| discriminate He].
    erewrite bind_ok by reflexivity.
    unfold bind at 1. unfold bind at 1, readRef. rewrite Hnone. reflexivity.
  - unfold bind at 1, lift. reflexivity.
Qed.

(** X13.  A message from a remote sender that no branch takes is
    consumed without any effect but its deletion, and without an error
    report: a message of another type than offer, answer or candidate,
    and a candidate addressed to the local identity that arrives while
    there is no peer connection. *)
Theorem unhandled_messages_are_only_deleted
    (uid : string) (c : DocChange) (w : World) :
  isAdded c = true ->
  senderId (doc_data c) <> uid ->
  (sd_type (doc_data c) <> "offer" /\ sd_type (doc_data c) <> "answer" /\
   sd_type (doc_data c) <> "candidate") \/
  (sd_type (doc_data c) = "candidate" /\ peerConnection (refs w) = None) ->
  onChange uid c w = deleteDoc (doc_id c) w.
Proof.
  intros Hadd Hremote Hcase. apply String.eqb_neq in Hremote.
  unfold onChange. fold (isAdded c). rewrite Hadd, Hremote. cbn [negb].
  unfold dispatch.
  destruct Hcase as [(H1 & H2 & H3) | (Htype & Hpc)].
  - apply String.eqb_neq in H1, H2, H3. rewrite H1, H2, H3. reflexivity.
  - rewrite Htype. cbn [String.eqb Ascii.eqb Bool.eqb andb].
    destruct (isId (targetId (doc_data c)) uid); [| reflexivity].
    unfold tryCatchFinally, tryCatch, handleCandidate.
    erewrite bind_ok by reflexivity. rewrite Hpc. reflexivity.
Qed.

(** ** The handshake *)

(** The answer branch when everything in the message is usable and an
    offer of ours is pending. *)
Lemma handleAnswer_succeeds (d : N) (pair : CryptoKeyPair) (Q : point)
    (pc : RTCPeerConnection) (s : RTCSessionDescription) (text : string)
    (data : SignalData) (w : World) :
  generateKey "P-256" true [deriveBits] d = Ok pair ->
  cryptoKeyPair (refs w) = Some pair ->
  importKeyJwk (sd_publicKey data) "P-256" false [] = Ok (importedPublicKey Q) ->
  peerConnection (refs w) = Some pc ->
  signalingState pc = have_local_offer ->
  answer data = Some s ->
  sdp_type s = "answer" ->
  sdp s = Sdp text ->
  let w' := exec (handleAnswer data) w in
  fst (handleAnswer data w) = Ok tt /\
  symmetricKey (refs w') = Some (sharedKey (smul d Q)) /\
  peerConnection (refs w') =
    Some {| signalingState := stable;
            localDescription := localDescription pc;
            remoteDescription := Some s;
            remoteCandidates := remoteCandidates pc;
            icePeer := icePeer pc |} /\
  dataChannel (refs w') = dataChannel (refs w) /\
  cryptoKeyPair (refs w') = Some pair /\
  env w' = env w /\
  connectionStatus (ui w') = connectionStatus (ui w) /\
  connectedPeerId (ui w') = connectedPeerId (ui w) /\
  message (ui w') = MsgAnswerHandled.
Proof.
  intros Hgen Hpair Himp Hpc Hstate Hans Htype Hsdp. cbv zeta.
  apply generateKey_pair in Hgen as [Hpriv _].
  eassert (Hrun : handleAnswer data w = (Ok tt, _)).
  { unfold handleAnswer.
    erewrite bind_ok by (unfold lift; rewrite Himp; reflexivity).
    erewrite bind_ok by (unfold bind, readRef; rewrite Hpair; reflexivity).
    erewrite bind_ok
      by (unfold lift, importedPublicKey; rewrite Hpriv, deriveBits_shared;
          reflexivity).
    erewrite bind_ok by (unfold lift; rewrite importKeyRaw_shared; reflexivity).
    erewrite bind_ok by reflexivity.
    unfold onPeerConnection at 1.
    erewrite bind_ok
      by (erewrite bind_ok
            by (unfold bind, readRef; cbn; rewrite Hpc; reflexivity);
          unfold bind, lift, setRemoteDescription;
          rewrite Hans, Htype, Hstate, Hsdp; reflexivity).
    reflexivity. }
  unfold exec. rewrite Hrun. cbn. rewrite Hpair. repeat split.
Qed.

Lemma onSnapshot_single (uid : string) (c : DocChange) (w : World) :
  exec (onSnapshot uid [c]) w = exec (onChange uid c) w.
Proof.
  unfold exec. rewrite onSnapshot_cons. reflexivity.
Qed.

(** One remote message taken by a branch that succeeds. *)
Lemma onChange_handled (uid id : string) (data : SignalData) (w w1 : World) :
  senderId data <> uid ->
  dispatch uid data w = (Ok tt, w1) ->
  exec (onChange uid (asAdded id data)) w = exec (deleteDoc id) w1.
Proof.
  intros Hremote Hrun. apply String.eqb_neq in Hremote.
  unfold exec at 1, onChange. cbn [asAdded change_type doc_data doc_id].
  rewrite Hremote. cbn [String.eqb Ascii.eqb Bool.eqb negb].
  unfold tryCatchFinally, tryCatch. rewrite Hrun. reflexivity.
Qed.

(** The whole handshake between two peers [a] and [b], from any two
    states: [a] connects to [b]; [b]'s listener reads what [a] wrote;
    [a]'s listener reads what [b] wrote. *)
Lemma handshake_runs (a b id1 id2 : string) (wA wB : World) :
  userId (ui wA) = Some a ->
  a <> "" ->
  trim (peerIdInput (ui wA)) = b ->
  b <> "" ->
  a <> b ->
  let dA := scalars (env wA) (keygenCount (env wA)) in
  let dB := scalars (env wB) (keygenCount (env wB)) in
  let wA1 := exec connectToPeer wA in
  exists (offerMsg answerMsg : SignalData),
    outbox (env wA1) = outbox (env wA) ++ [(b, offerMsg)] /\
    let wB1 := exec (onSnapshot b [asAdded id1 offerMsg]) wB in
    outbox (env wB1) = outbox (env wB) ++ [(a, answerMsg)] /\
    let wA2 := exec (onSnapshot a [asAdded id2 answerMsg]) wA1 in
    symmetricKey (refs wA2) = Some (sharedKey (smul (dA * dB) basePoint)) /\
    symmetricKey (refs wB1) = Some (sharedKey (smul (dA * dB) basePoint)) /\
    (exists pcA, peerConnection (refs wA2) = Some pcA /\
                 signalingState pcA = stable /\ icePeer pcA = b) /\
    (exists pcB, peerConnection (refs wB1) = Some pcB /\
                 signalingState pcB = stable /\ icePeer pcB = a) /\
    dataChannel (refs wA2) = Some (createDataChannel "fileTransfer") /\
    dataChannel (refs wB1) = Some (createDataChannel "fileTransfer") /\
    connectedPeerId (ui wA2) = b /\
    connectedPeerId (ui wB1) = a /\
    connectionStatus (ui wA2) = "connecting" /\
    connectionStatus (ui wB1) = connectionStatus (ui wB) /\
    outbox (env wA2) = outbox (env wA1) /\
    deleteCalls (env wB1) = deleteCalls (env wB) ++ [id1] /\
    deleteCalls (env wA2) = deleteCalls (env wA) ++ [id2] /\
    wire (env wA2) = wire (env wA) /\
    wire (env wB1) = wire (env wB).
Proof.
  intros Hu Ha Hb Hbne Hab. cbv zeta.
  assert (Hpeer : trim (peerIdInput (ui wA)) <> "") by now rewrite Hb.
  destruct (connectToPeer_runs a wA Hu Ha Hpeer)
    as (wA1 & pairA & jwkA & HrunA & HgenA & HexpA & HpairA & HoutA
        & (pcA & HpcA & HstateA) & HuA1 & HstatusA & HpeerA).
  cbv zeta in *. rewrite Hb in HoutA, HpeerA.
  assert (HenvA : wire (env wA1) = wire (env wA) /\
                  deleteCalls (env wA1) = deleteCalls (env wA) /\
                  dataChannel (refs wA1) = Some (createDataChannel "fileTransfer") /\
                  icePeer pcA = b).
  { revert HrunA HpcA. unfold connectToPeer, bind at 1 2, readUi.
    rewrite Hu. rewrite Hb.
    apply String.eqb_neq in Ha, Hbne. rewrite Ha, Hbne.
    cbn. intros [= <-]. cbn. intros [= <-]. repeat split. }
  destruct HenvA as (HwireA & HdelA & HdcA & HiceA).
  assert (HwA1 : exec connectToPeer wA = wA1)
    by (unfold exec; now rewrite HrunA).
  rewrite HwA1.
  set (offerMsg := {| sd_type := "offer"; senderId := a; targetId := Some b;
                      sd_publicKey := Some jwkA;
                      offer := Some {| sdp_type := "offer";
                                       sdp := Sdp (sdpText (env wA)) |};
                      answer := None; candidate := None |}).
  pose proof (import_exported_public_key _ _ _ HgenA HexpA) as HimpA.
  destruct (handleOffer_succeeds b offerMsg _
              {| sdp_type := "offer"; sdp := Sdp (sdpText (env wA)) |}
              (sdpText (env wA)) wB HimpA eq_refl eq_refl eq_refl)
    as (Q & pairB & jwkB & HQ & HokB & HgenB & HpairB & HkeyB & HexpB & _ & _
        & HoutB & HpcB & HdcB & HpeerB & HstatusB & _).
  cbv zeta in *.
  assert (HQ' : Q = smul (scalars (env wA) (keygenCount (env wA))) basePoint).
  { unfold importedPublicKey in HQ. now injection HQ. }
  subst Q.
  (* Bob's side *)
  assert (HdispB : dispatch b offerMsg wB
                   = (Ok tt, exec (handleOffer b offerMsg) wB)).
  { unfold dispatch. cbn [offerMsg sd_type String.eqb Ascii.eqb Bool.eqb].
    unfold exec. rewrite (surjective_pairing (handleOffer b offerMsg wB)).
    now rewrite HokB. }
  assert (HabS : senderId offerMsg <> b) by exact Hab.
  pose proof (onChange_handled b id1 offerMsg wB _ HabS HdispB) as HwB1.
  rewrite <- onSnapshot_single in HwB1.
  destruct (deleteDoc_runs id1 (exec (handleOffer b offerMsg) wB))
    as (wB1 & HdelB & HuiB & HrefsB & _ & HcallsB & HoutB1 & HwireB1 & _).
  assert (HeqB : exec (deleteDoc id1) (exec (handleOffer b offerMsg) wB) = wB1)
    by (unfold exec at 1; now rewrite HdelB).
  rewrite HeqB in HwB1.
  set (answerMsg := {| sd_type := "answer"; senderId := b; targetId := Some a;
                       sd_publicKey := Some jwkB; offer := None;
                       answer := Some {| sdp_type := "answer";
                                         sdp := Sdp (sdpText (env wB)) |};
                       candidate := None |}).
  (* Alice's side *)
  pose proof (import_exported_public_key _ _ _ HgenB HexpB) as HimpB.
  destruct (handleAnswer_succeeds _ pairA _ pcA
              {| sdp_type := "answer"; sdp := Sdp (sdpText (env wB)) |}
              (sdpText (env wB)) answerMsg wA1
              HgenA HpairA HimpB HpcA HstateA eq_refl eq_refl eq_refl)
    as (HokA & HkeyA & HpcA2 & HdcA2 & _ & HenvA2 & HstatusA2 & HpeerA2 & _).
  assert (HdispA : dispatch a answerMsg wA1
                   = (Ok tt, exec (handleAnswer answerMsg) wA1)).
  { unfold dispatch. cbn [answerMsg sd_type targetId isId
                          String.eqb Ascii.eqb Bool.eqb].
    rewrite String.eqb_refl. cbn [andb].
    unfold exec. rewrite (surjective_pairing (handleAnswer answerMsg wA1)).
    now rewrite HokA. }
  assert (HbaS : senderId answerMsg <> a) by (cbn; congruence).
  pose proof (onChange_handled a id2 answerMsg wA1 _ HbaS HdispA) as HwA2.
  rewrite <- onSnapshot_single in HwA2.
  destruct (deleteDoc_runs id2 (exec (handleAnswer answerMsg) wA1))
    as (wA2 & HdelA2 & HuiA2 & HrefsA2 & _ & HcallsA2 & HoutA2 & HwireA2 & _).
  assert (HeqA : exec (deleteDoc id2) (exec (handleAnswer answerMsg) wA1) = wA2)
    by (unfold exec at 1; now rewrite HdelA2).
  rewrite HeqA in HwA2.
  exists offerMsg, answerMsg. split; [exact HoutA |].
  rewrite HwB1. split; [rewrite HoutB1; exact HoutB |].
  rewrite HwA2.
  rewrite HrefsA2, HuiA2, HrefsB, HuiB, HoutA2, HcallsA2, HwireA2,
    HcallsB, HwireB1.
  rewrite HkeyA, HkeyB, HpcA2, HdcA2, HdcA, HpcB, HdcB, HpeerB, HstatusB,
    HstatusA2, HpeerA2, HstatusA, HpeerA, HenvA2, HwireA, HdelA.
  rewrite !smul_smul, (N.mul_comm (scalars (env wB) _)).
  pose proof (dispatch_keeps_mailbox b offerMsg wB) as HkB.
  rewrite HdispB in HkB. cbn in HkB. injection HkB as _ HkB.
  assert (HwireB : wire (env (exec (handleOffer b offerMsg) wB)) = wire (env wB)).
  { assert (Hk : keeps (fun w => wire (env w)) (handleOffer b offerMsg)).
    { unfold handleOffer, onPeerConnection, setupPeerConnection,
        setupDataChannelEvents. keeps_auto. }
    apply Hk. }
  rewrite HkB, HwireB.
  repeat split; try reflexivity.
  - eexists. split; [reflexivity |]. split; [reflexivity | exact HiceA].
  - eexists. split; [reflexivity |]. split; reflexivity.
Qed.

(** X14.  The handshake, from any two states of two peers with
    different identities: [a] connects to [b], [b]'s listener reads the
    offer written to its mailbox, [a]'s listener reads the answer.  Then
    both hold the same AES-256-GCM key, derived from both private
    scalars and never written to a mailbox; both peer connections are in
    the stable state and point at the other peer; each side has deleted
    the one message it read; exactly one offer and one answer were
    written; nothing was sent on a data channel.  The caller's status
    is "connecting" and the answerer's is unchanged until the channel
    opens. *)
Theorem handshake_gives_both_peers_the_same_key (a b id1 id2 : string) (wA wB : World) :
  userId (ui wA) = Some a ->
  a <> "" ->
  trim (peerIdInput (ui wA)) = b ->
  b <> "" ->
  a <> b ->
  let dA := scalars (env wA) (keygenCount (env wA)) in
  let dB := scalars (env wB) (keygenCount (env wB)) in
  let wA1 := exec connectToPeer wA in
  exists (offerMsg answerMsg : SignalData),
    outbox (env wA1) = outbox (env wA) ++ [(b, offerMsg)] /\
    let wB1 := exec (onSnapshot b [asAdded id1 offerMsg]) wB in
    outbox (env wB1) = outbox (env wB) ++ [(a, answerMsg)] /\
    let wA2 := exec (onSnapshot a [asAdded id2 answerMsg]) wA1 in
    symmetricKey (refs wA2) = Some (sharedKey (smul (dA * dB) basePoint)) /\
    symmetricKey (refs wB1) = Some (sharedKey (smul (dA * dB) basePoint)) /\
    (exists pcA, peerConnection (refs wA2) = Some pcA /\
                 signalingState pcA = stable /\ icePeer pcA = b) /\
    (exists pcB, peerConnection (refs wB1) = Some pcB /\
                 signalingState pcB = stable /\ icePeer pcB = a) /\
    dataChannel (refs wA2) = Some (createDataChannel "fileTransfer") /\
    dataChannel (refs wB1) = Some (createDataChannel "fileTransfer") /\
    connectedPeerId (ui wA2) = b /\
    connectedPeerId (ui wB1) = a /\
    connectionStatus (ui wA2) = "connecting" /\
    connectionStatus (ui wB1) = connectionStatus (ui wB) /\
    outbox (env wA2) = outbox (env wA1) /\
    deleteCalls (env wB1) = deleteCalls (env wB) ++ [id1] /\
    deleteCalls (env wA2) = deleteCalls (env wA) ++ [id2] /\
    wire (env wA2) = wire (env wA) /\
    wire (env wB1) = wire (env wB).
Proof. exact (handshake_runs a b id1 id2 wA wB). Qed.

(** ** A transfer after the handshake *)

Lemma channelOpened_runs (dc : RTCDataChannel) (w : World) :
  dataChannel (refs w) = Some dc ->
  let w' := step ChannelOpened w in
  dataChannel (refs w') = Some {| label := label dc; readyState := "open" |} /\
  symmetricKey (refs w') = symmetricKey (refs w) /\
  peerConnection (refs w') = peerConnection (refs w) /\
  connectionStatus (ui w') = "connected" /\
  message (ui w') = MsgChannelOpen /\
  receivedFile (ui w') = receivedFile (ui w) /\
  env w' = env w.
Proof.
  intros Hdc. cbn. unfold exec, markOpen, bind, readRef.
  cbn. rewrite Hdc. cbn. repeat split; reflexivity.
Qed.

Lemma send_clicked_runs (key : CryptoKey) (dc : RTCDataChannel) (f : File)
    (w : World) :
  symmetricKey (refs w) = Some key ->
  dataChannel (refs w) = Some dc ->
  readyState dc = "open" ->
  exists ws : World,
    step SendClicked (step (FileChosen (Some f)) w) = exec (readerOnload f) ws /\
    refs ws = refs w /\ env ws = env w /\
    connectionStatus (ui ws) = connectionStatus (ui w).
Proof.
  intros Hkey Hdc Hopen.
  eexists. split.
  - cbn. unfold exec at 2. cbn.
    unfold exec at 1. unfold bind at 1. unfold sendFile, bind, readUi, readRef.
    cbn. rewrite Hdc, Hkey, Hopen. cbn. reflexivity.
  - cbn. repeat split; reflexivity.
Qed.

Lemma transfer_after_handshake_runs (a b id1 id2 : string) (wA wB : World)
    (f g : File) :
  userId (ui wA) = Some a ->
  a <> "" ->
  trim (peerIdInput (ui wA)) = b ->
  b <> "" ->
  a <> b ->
  0 < file_size f ->
  0 < file_size g ->
  let wA1 := exec connectToPeer wA in
  exists (offerMsg answerMsg : SignalData) (framesA framesB : list Frame),
    outbox (env wA1) = outbox (env wA) ++ [(b, offerMsg)] /\
    let wB1 := exec (onSnapshot b [asAdded id1 offerMsg]) wB in
    outbox (env wB1) = outbox (env wB) ++ [(a, answerMsg)] /\
    let wA2 := exec (onSnapshot a [asAdded id2 answerMsg]) wA1 in
    let wA3 := step ChannelOpened wA2 in
    let wB2 := step ChannelOpened wB1 in
    let wA4 := run [FileChosen (Some f); SendClicked] wA3 in
    let wB3 := run [FileChosen (Some g); SendClicked] wB2 in
    wire (env wA4) = wire (env wA) ++ framesA /\
    wire (env wB3) = wire (env wB) ++ framesB /\
    message (ui wA4) = MsgFileSent /\
    message (ui wB3) = MsgFileSent /\
    receivedFile (ui (receive framesA wB2)) =
      Some {| name := file_name f;
              blob := {| blob_parts := file_data f;
                         blob_type := file_type f |} |} /\
    message (ui (receive framesA wB2)) = MsgVerified /\
    receivedFile (ui (receive framesB wA3)) =
      Some {| name := file_name g;
              blob := {| blob_parts := file_data g;
                         blob_type := file_type g |} |} /\
    message (ui (receive framesB wA3)) = MsgVerified.
Proof.
  intros Ha Hane Hb Hbne Hab Hf Hg wA1.
  destruct (handshake_runs a b id1 id2 wA wB Ha Hane Hb Hbne Hab)
    as (offerMsg & answerMsg & HoutA & HoutB & HkA & HkB & _ & _ & HdcA & HdcB
        & _ & _ & _ & _ & _ & _ & _ & HwireA & HwireB).
  fold wA1 in HoutA, HkA, HdcA, HwireA.
  set (wB1 := exec (onSnapshot b [asAdded id1 offerMsg]) wB) in *.
  set (wA2 := exec (onSnapshot a [asAdded id2 answerMsg]) wA1) in *.
  set (P := smul (scalars (env wA) (keygenCount (env wA)) *
                  scalars (env wB) (keygenCount (env wB))) basePoint) in *.
  destruct (channelOpened_runs _ wA2 HdcA)
    as (HdcA3 & HkA3 & _ & _ & _ & _ & HenvA3).
  destruct (channelOpened_runs _ wB1 HdcB)
    as (HdcB2 & HkB2 & _ & _ & _ & _ & HenvB2).
  set (wA3 := step ChannelOpened wA2) in *.
  set (wB2 := step ChannelOpened wB1) in *.
  rewrite HkA in HkA3. rewrite HkB in HkB2.
  destruct (send_clicked_runs _ _ f wA3 HkA3 HdcA3 eq_refl)
    as (wsA & HrunA & HrefsA & HenvA & _).
  destruct (send_clicked_runs _ _ g wB2 HkB2 HdcB2 eq_refl)
    as (wsB & HrunB & HrefsB & HenvB & _).
  assert (HkeyP : importKeyRaw (xcoord P) false [encrypt; decrypt]
                  = Ok (sharedKey P)) by exact (importKeyRaw_shared P).
  set (dc := {| label := label (createDataChannel "fileTransfer");
                readyState := "open" |}) in *.
  destruct (nonempty_file_transfer (xcoord P) (sharedKey P) dc f wsA HkeyP)
    as (wsA' & framesA & kA & HrA & HwA & HmA & _ & _ & HrecvA);
    [ now rewrite HrefsA | now rewrite HrefsA; exact HdcA3 | reflexivity
    | exact Hf | ].
  destruct (nonempty_file_transfer (xcoord P) (sharedKey P) dc g wsB HkeyP)
    as (wsB' & framesB & kB & HrB & HwB & HmB & _ & _ & HrecvB);
    [ now rewrite HrefsB | now rewrite HrefsB; exact HdcB2 | reflexivity
    | exact Hg | ].
  exists offerMsg, answerMsg, framesA, framesB.
  split; [exact HoutA |]. split; [exact HoutB |].
  cbv zeta.
  change (exec (onSnapshot b [asAdded id1 offerMsg]) wB) with wB1.
  change (exec (onSnapshot a [asAdded id2 answerMsg]) wA1) with wA2.
  change (step ChannelOpened wA2) with wA3.
  change (step ChannelOpened wB1) with wB2.
  change (run [FileChosen (Some f); SendClicked] wA3)
    with (step SendClicked (step (FileChosen (Some f)) wA3)).
  change (run [FileChosen (Some g); SendClicked] wB2)
    with (step SendClicked (step (FileChosen (Some g)) wB2)).
  rewrite HrunA, HrunB. unfold exec at 1 2 3 4. rewrite HrA, HrB. cbn [snd].
  destruct (HrecvA wB2 HkB2) as (_ & _ & HfileB & HmsgB & _).
  destruct (HrecvB wA3 HkA3) as (_ & _ & HfileA & HmsgA & _).
  rewrite HwA, HwB, HenvA, HenvB, HenvA3, HenvB2, HwireA, HwireB.
  repeat split; assumption.
Qed.

(** X15.  End to end: after the handshake above and the open event of
    the data channel on both sides, either peer can choose a non-empty
    file and press send; the frames it puts on the channel, delivered in
    order to the other peer, make that peer expose exactly the sent
    name, type and bytes, verified against the announced digest.  The
    key used on both sides is the one the handshake derived; nothing
    but the two mailbox messages was exchanged to agree on it. *)
Theorem file_sent_after_handshake_arrives_verified (a b id1 id2 : string) (wA wB : World)
    (f g : File) :
  userId (ui wA) = Some a ->
  a <> "" ->
  trim (peerIdInput (ui wA)) = b ->
  b <> "" ->
  a <> b ->
  0 < file_size f ->
  0 < file_size g ->
  let wA1 := exec connectToPeer wA in
  exists (offerMsg answerMsg : SignalData) (framesA framesB : list Frame),
    outbox (env wA1) = outbox (env wA) ++ [(b, offerMsg)] /\
    let wB1 := exec (onSnapshot b [asAdded id1 offerMsg]) wB in
    outbox (env wB1) = outbox (env wB) ++ [(a, answerMsg)] /\
    let wA2 := exec (onSnapshot a [asAdded id2 answerMsg]) wA1 in
    let wA3 := step ChannelOpened wA2 in
    let wB2 := step ChannelOpened wB1 in
    let wA4 := run [FileChosen (Some f); SendClicked] wA3 in
    let wB3 := run [FileChosen (Some g); SendClicked] wB2 in
    wire (env wA4) = wire (env wA) ++ framesA /\
    wire (env wB3) = wire (env wB) ++ framesB /\
    message (ui wA4) = MsgFileSent /\
    message (ui wB3) = MsgFileSent /\
    receivedFile (ui (receive framesA wB2)) =
      Some {| name := file_name f;
              blob := {| blob_parts := file_data f;
                         blob_type := file_type f |} |} /\
    message (ui (receive framesA wB2)) = MsgVerified /\
    receivedFile (ui (receive framesB wA3)) =
      Some {| name := file_name g;
              blob := {| blob_parts := file_data g;
                         blob_type := file_type g |} |} /\
    message (ui (receive framesB wA3)) = MsgVerified.
Proof. exact (transfer_after_handshake_runs a b id1 id2 wA wB f g). Qed.

(** ** Rules for [hoare] *)

Lemma hoare_bind {A B} (P : World -> Prop) (c : M A) (k : A -> M B)
    (Q : A -> World -> Prop) (R : B -> World -> Prop) (E : World -> Prop) :
  hoare P c Q E -> (forall a, hoare (Q a) (k a) R E) ->
  hoare P (bind c k) R E.
Proof.
  intros Hc Hk w HP. unfold bind. specialize (Hc w HP).
  destruct (c w) as [[a | e] w1]; [exact (Hk a w1 Hc) | exact Hc].
Qed.

Lemma hoare_tryCatch (P : World -> Prop) (body : M unit)
    (handler : Exn -> M unit) (Q : unit -> World -> Prop)
    (E' E : World -> Prop) :
  hoare P body Q E' -> (forall e, hoare E' (handler e) Q E) ->
  hoare P (tryCatch body handler) Q E.
Proof.
  intros Hb Hh w HP. unfold tryCatch. specialize (Hb w HP).
  destruct (body w) as [[[] | e] w1]; [exact Hb | exact (Hh e w1 Hb)].
Qed.

Lemma hoare_tryCatchFinally (I : World -> Prop) (body : M unit)
    (handler : Exn -> M unit) (fin : M unit) :
  hoare I body (fun _ => I) I ->
  (forall e, hoare I (handler e) (fun _ => I) I) ->
  hoare I fin (fun _ => I) I ->
  hoare I (tryCatchFinally body handler fin) (fun _ => I) I.
Proof.
  intros Hb Hh Hf w HI. unfold tryCatchFinally.
  pose proof (hoare_tryCatch I body handler (fun _ => I) I I Hb Hh w HI) as H.
  destruct (tryCatch body handler w) as [[[] | e] w1].
  - exact (Hf w1 H).
  - specialize (Hf w1 H). destruct (fin w1) as [[[] | e'] w2]; exact Hf.
Qed.

Lemma hoare_keeps {A B} (proj : World -> B) (I : World -> Prop) (c : M A) :
  (forall w w', proj w' = proj w -> I w -> I w') ->
  keeps proj c -> hoare I c (fun _ => I) I.
Proof.
  intros Hproj Hk w HI. specialize (Hk w).
  destruct (c w) as [[a | e] w1]; cbn in Hk; exact (Hproj w w1 Hk HI).
Qed.

Lemma hoare_pure {A} (I : World -> Prop) (F : Prop) (c : M A)
    (Q : A -> World -> Prop) (E : World -> Prop) :
  (F -> hoare I c Q E) -> hoare (fun w => I w /\ F) c Q E.
Proof. intros H w [HI HF]. exact (H HF w HI). Qed.

Lemma signalingInv_view (uid : string) (base : list (string * SignalData))
    (w w' : World) :
  signalingView w' = signalingView w ->
  signalingInv uid base w -> signalingInv uid base w'.
Proof.
  unfold signalingView, signalingInv. intros [= Hu Hk Ho] (Hid & Hpair & Hout).
  rewrite Hu, Hk, Ho. auto.
Qed.

Lemma signalingInv_keeps {A} (uid : string)
    (base : list (string * SignalData)) (c : M A) :
  keeps signalingView c ->
  hoare (signalingInv uid base) c
    (fun _ => signalingInv uid base) (signalingInv uid base).
Proof. apply hoare_keeps, signalingInv_view. Qed.

(** ** What is written to mailboxes *)

Lemma generateKey_public (crv : string) (ext : bool) (us : list KeyUsage)
    (d : N) (pair : CryptoKeyPair) :
  generateKey crv ext us d = Ok pair -> isPublicKey (publicKey pair).
Proof.
  unfold generateKey. destruct (negb _); [discriminate |].
  destruct (negb _); [discriminate |]. intros [= <-]. now eexists.
Qed.

Lemma exportKey_public (k : CryptoKey) (j : Jwk) :
  isPublicKey k -> exportKey k = Ok j -> jwk_d j = None /\ jwk_k j = None.
Proof.
  intros [Q HQ]. unfold exportKey. rewrite HQ.
  destruct (negb _); [discriminate |].
  destruct (key_algorithm k); [| discriminate]. now intros [= <-].
Qed.

Lemma setupPeerConnection_inv (uid : string)
    (base : list (string * SignalData)) (peerId : string) :
  maintains (signalingInv uid base) (setupPeerConnection peerId).
Proof.
  unfold maintains, setupPeerConnection.
  eapply hoare_bind; [apply signalingInv_keeps; keeps_auto | intros d].
  apply hoare_bind
    with (Q := fun pair w => signalingInv uid base w /\
                             isPublicKey (publicKey pair)).
  - intros w HI. unfold lift.
    destruct (generateKey _ _ _ _) as [pair | e] eqn:Hg; [| exact HI].
    split; [exact HI | exact (generateKey_public _ _ _ _ _ Hg)].
  - intros pair. apply hoare_pure. intros Hpub.
    eapply hoare_bind with (Q := fun _ => signalingInv uid base).
    + intros w (Hid & _ & Hout). cbn. split; [exact Hid |].
      split; [| exact Hout]. now intros pair' [= <-].
    + intros _. apply signalingInv_keeps.
      unfold setupDataChannelEvents. keeps_auto.
Qed.

Lemma read_pair_inv (uid : string) (base : list (string * SignalData)) :
  hoare (signalingInv uid base) (bind (readRef cryptoKeyPair) deref)
    (fun pair w => signalingInv uid base w /\ isPublicKey (publicKey pair))
    (signalingInv uid base).
Proof.
  intros w HI. unfold bind, readRef, deref.
  destruct (cryptoKeyPair (refs w)) as [pair |] eqn:Hp; cbn; [| exact HI].
  split; [exact HI |]. destruct HI as (_ & Hpair & _). exact (Hpair pair Hp).
Qed.

Lemma export_inv (I : World -> Prop) (k : CryptoKey) :
  isPublicKey k ->
  hoare I (lift (exportKey k))
    (fun j w => I w /\ (jwk_d j = None /\ jwk_k j = None)) I.
Proof.
  intros Hpub w HI. unfold lift.
  destruct (exportKey k) as [j | e] eqn:He; [| exact HI].
  split; [exact HI | exact (exportKey_public k j Hpub He)].
Qed.

Lemma addDoc_inv (uid : string) (base : list (string * SignalData))
    (peer : string) (data : SignalData) :
  sentBy uid (peer, data) ->
  maintains (signalingInv uid base) (addDoc peer data).
Proof.
  intros Hok w (Hid & Hpair & l & Hout & Hall).
  unfold addDoc, modify, withEnv. cbn.
  split; [exact Hid |]. split; [exact Hpair |].
  exists (l ++ [(peer, data)]). rewrite Hout, app_assoc.
  split; [reflexivity |]. apply Forall_app. split; [exact Hall |].
  now constructor.
Qed.

Ltac inv_step :=
  match goal with
  | |- hoare _ (bind (bind (readRef cryptoKeyPair) deref) _) _ _ =>
      eapply hoare_bind;
      [apply read_pair_inv | intros ?; apply hoare_pure; intros ?]
  | |- hoare _ (bind (lift (exportKey _)) _) _ _ =>
      eapply hoare_bind;
      [apply export_inv; assumption | intros ?; apply hoare_pure; intros [? ?]]
  | |- hoare _ (bind (addDoc _ _) _) _ _ =>
      eapply hoare_bind;
      [apply addDoc_inv;
       (split; [reflexivity | split; [reflexivity | cbn; intros ? [= <-]; now split]])
      | intros ?]
  | |- hoare _ (bind (setupPeerConnection _) _) _ _ =>
      eapply hoare_bind; [apply setupPeerConnection_inv | intros ?]
  | |- hoare _ (bind _ _) _ _ =>
      eapply hoare_bind;
      [solve [apply signalingInv_keeps; unfold onPeerConnection; keeps_auto]
      | intros ?]
  | |- hoare _ _ _ _ =>
      solve [apply signalingInv_keeps; unfold onPeerConnection; keeps_auto]
  end.

Lemma handleOffer_inv (uid : string) (base : list (string * SignalData))
    (data : SignalData) :
  maintains (signalingInv uid base) (handleOffer uid data).
Proof. unfold maintains, handleOffer. repeat inv_step. Qed.

Lemma dispatch_inv (uid : string) (base : list (string * SignalData))
    (data : SignalData) :
  maintains (signalingInv uid base) (dispatch uid data).
Proof.
  unfold dispatch. destruct (String.eqb _ _); [apply handleOffer_inv |].
  destruct (_ && _).
  { apply signalingInv_keeps. unfold handleAnswer, onPeerConnection. keeps_auto. }
  destruct (_ && _).
  { apply signalingInv_keeps. unfold handleCandidate, onPeerConnection. keeps_auto. }
  apply signalingInv_keeps. keeps_auto.
Qed.

Lemma onSnapshot_inv (uid : string) (base : list (string * SignalData))
    (changes : list DocChange) :
  maintains (signalingInv uid base) (onSnapshot uid changes).
Proof.
  induction changes as [| c rest IH]; cbn [onSnapshot].
  - apply signalingInv_keeps. keeps_auto.
  - apply hoare_bind with (Q := fun _ => signalingInv uid base);
      [| intros _; exact IH].
    unfold onChange.
    destruct (negb _); [apply signalingInv_keeps; keeps_auto |].
    destruct (String.eqb _ _); [apply signalingInv_keeps; keeps_auto |].
    apply hoare_tryCatchFinally.
    + apply dispatch_inv.
    + intros e. apply signalingInv_keeps; keeps_auto.
    + apply signalingInv_keeps; keeps_auto.
Qed.

Lemma read_userId_inv (uid : string) (base : list (string * SignalData)) :
  hoare (signalingInv uid base) (readUi userId)
    (fun user w => signalingInv uid base w /\ user = Some uid)
    (signalingInv uid base).
Proof. intros w HI. cbn. split; [exact HI | exact (proj1 HI)]. Qed.

Lemma connectToPeer_inv (uid : string) (base : list (string * SignalData)) :
  maintains (signalingInv uid base) connectToPeer.
Proof.
  unfold maintains, connectToPeer.
  eapply hoare_bind; [apply signalingInv_keeps; keeps_auto | intros input].
  eapply hoare_bind; [apply read_userId_inv | intros user].
  apply hoare_pure. intros ->. cbv zeta.
  destruct (_ || _); [apply signalingInv_keeps; keeps_auto |].
  apply hoare_tryCatch with (E' := signalingInv uid base).
  - repeat inv_step.
  - intros e. apply signalingInv_keeps. keeps_auto.
Qed.

Lemma onicecandidate_inv (uid : string) (base : list (string * SignalData))
    (peerId : string) (cand : option string) :
  maintains (signalingInv uid base) (onicecandidate uid peerId cand).
Proof.
  unfold maintains, onicecandidate.
  destruct cand as [c |]; [| apply signalingInv_keeps; keeps_auto].
  apply hoare_tryCatch with (E' := signalingInv uid base).
  - apply addDoc_inv. split; [reflexivity |]. split; [reflexivity |].
    cbn. discriminate.
  - intros e. apply signalingInv_keeps. keeps_auto.
Qed.

(** ** Invariants of the running component *)

Lemma maintains_exec {A} (I : World -> Prop) (c : M A) (w : World) :
  maintains I c -> I w -> I (exec c w).
Proof.
  intros H HI. specialize (H w HI). unfold exec.
  destruct (c w) as [[a | e] w1]; exact H.
Qed.

Lemma byteLength_app (a b : bytes) :
  byteLength (a ++ b) = byteLength a + byteLength b.
Proof. unfold byteLength. rewrite length_app. lia. Qed.

Lemma onmessage_bufferCounted (msg : Frame) :
  maintains bufferCounted (onmessage msg).
Proof.
  intros w HI. unfold bufferCounted in *.
  destruct msg as [t | buffer]; unfold onmessage, tryCatch, bind, lift, readRef.
  - destruct (JSON_parse t) as [parsed | e]; cbn; [| exact HI].
    destruct (String.eqb _ _); cbn; [reflexivity | exact HI].
  - destruct (symmetricKey (refs w)) as [key |]; cbn; [| exact HI].
    destruct (decryptOp _ _ _) as [chunk | e]; cbn; [| exact HI].
    assert (Hnew : receivedSize (refs w) + byteLength chunk
                   = byteLength (concat (receiveBuffer (refs w) ++ [chunk]))).
    { rewrite concat_app, byteLength_app, HI. cbn [concat].
      now rewrite app_nil_r. }
    destruct (receivedFileMetadata (refs w)) as [m |]; cbn; [| exact Hnew].
    destruct (fileSize m =? 0); cbn;
      destruct (fileSize m <=? _); cbn; try exact Hnew;
      destruct (String.eqb _ _); cbn; exact Hnew.
Qed.

Lemma readerOnload_keeps {C} (proj : World -> C) (f : File) :
  (forall v, keeps proj (setTransferProgress v)) ->
  (forall m, keeps proj (setMessage m)) ->
  (forall r, keeps proj (addHistory r)) ->
  (forall data, keeps proj (send data)) ->
  (forall n, keeps proj (getRandomValues n)) ->
  keeps proj (readerOnload f).
Proof.
  intros Hprog Hmsg Hhist Hsend Hrand. unfold readerOnload, hashFile.
  apply keeps_tryCatch; [| intros e; apply Hmsg].
  cbv zeta.
  apply keeps_bind; [keeps_auto | intros h].
  apply keeps_bind; [keeps_auto | intros user].
  apply keeps_bind; [keeps_auto | intros peer].
  apply keeps_bind; [keeps_auto | intros now].
  apply keeps_bind; [apply Hhist | intros _].
  apply keeps_bind; [apply Hsend | intros _].
  apply keeps_bind; [| intros _; apply Hmsg].
  apply sendChunks_keeps; [exact Hprog |].
  intros data offset. unfold sendChunk. cbv zeta.
  apply keeps_bind; [apply Hrand | intros iv].
  apply keeps_bind; [keeps_auto | intros key].
  apply keeps_bind; [keeps_auto | intros enc]. apply Hsend.
Qed.

Lemma send_clicked_keeps {C} (proj : World -> C) :
  (forall v, keeps proj (setTransferProgress v)) ->
  (forall m, keeps proj (setMessage m)) ->
  (forall r, keeps proj (addHistory r)) ->
  (forall data, keeps proj (send data)) ->
  (forall n, keeps proj (getRandomValues n)) ->
  keeps proj (let* f := sendFile in
              match f with
              | Some f' => readerOnload f'
              | None => ret tt
              end).
Proof.
  intros Hprog Hmsg Hhist Hsend Hrand.
  apply keeps_bind.
  - unfold sendFile.
    apply keeps_bind; [keeps_auto | intros f].
    apply keeps_bind; [keeps_auto | intros dc].
    apply keeps_bind; [keeps_auto | intros key].
    destruct f, dc; try (apply keeps_bind; [apply Hmsg | intros _; keeps_auto]).
    destruct (negb _); [apply keeps_bind; [apply Hmsg | intros _; keeps_auto] |].
    destruct key; [| apply keeps_bind; [apply Hmsg | intros _; keeps_auto]].
    apply keeps_bind; [apply Hmsg | intros _].
    apply keeps_bind; [apply Hprog | intros _]. keeps_auto.
  - intros [f |]; [| keeps_auto]. now apply readerOnload_keeps.
Qed.

Lemma step_signalingInv (uid : string) (base : list (string * SignalData))
    (ev : Event) (w : World) :
  signalingInv uid base w -> signalingInv uid base (step ev w).
Proof.
  intros HI. pose proof (proj1 HI) as Hid.
  destruct ev; cbn [step]; try rewrite Hid;
    try (destruct (String.eqb uid ""); [exact HI |]);
    (apply maintains_exec; [| exact HI]).
  - apply onSnapshot_inv.
  - apply signalingInv_keeps. keeps_auto.
  - apply connectToPeer_inv.
  - apply onicecandidate_inv.
  - apply signalingInv_keeps. unfold ondatachannel, setupDataChannelEvents.
    keeps_auto.
  - apply signalingInv_keeps. unfold onconnectionstatechange. keeps_auto.
  - apply signalingInv_keeps. unfold markOpen, onopen. keeps_auto.
  - apply signalingInv_keeps. unfold onclose. keeps_auto.
  - apply signalingInv_keeps. unfold onmessage, hashFile.
    destruct msg as [t | buffer]; [keeps_auto |].
    apply keeps_tryCatch; [| intros ?; keeps_auto].
    apply keeps_bind; [keeps_auto |]. intros [key |]; [| keeps_auto].
    cbv zeta. keeps_auto.
  - apply signalingInv_keeps. unfold handleFileChange. keeps_auto.
  - apply signalingInv_keeps.
    apply send_clicked_keeps; intros; unfold send; keeps_auto.
  - apply signalingInv_keeps. unfold downloadFile. keeps_auto.
Qed.

Lemma bufferCounted_view (w w' : World) :
  (receiveBuffer (refs w'), receivedSize (refs w'))
    = (receiveBuffer (refs w), receivedSize (refs w)) ->
  bufferCounted w -> bufferCounted w'.
Proof. unfold bufferCounted. intros [= -> ->]. auto. Qed.

Lemma bufferCounted_keeps {A} (c : M A) :
  keeps (fun w => (receiveBuffer (refs w), receivedSize (refs w))) c ->
  maintains bufferCounted c.
Proof. apply hoare_keeps, bufferCounted_view. Qed.

Lemma step_bufferCounted (ev : Event) (w : World) :
  bufferCounted w -> bufferCounted (step ev w).
Proof.
  intros HI.
  destruct ev; cbn [step];
    try (destruct (userId (ui w)) as [uid |]; [| exact HI]);
    try (destruct (String.eqb uid ""); [exact HI |]);
    (apply maintains_exec; [| exact HI]).
  - apply bufferCounted_keeps, onSnapshot_keeps.
    + intros id. keeps_auto.
    + intros data.
      unfold dispatch, handleOffer, handleAnswer, handleCandidate,
        onPeerConnection, setupPeerConnection, setupDataChannelEvents.
      keeps_auto.
    + keeps_auto.
  - apply bufferCounted_keeps. keeps_auto.
  - apply bufferCounted_keeps.
    unfold connectToPeer, onPeerConnection, setupPeerConnection,
      setupDataChannelEvents. keeps_auto.
  - apply bufferCounted_keeps. unfold onicecandidate. keeps_auto.
  - apply bufferCounted_keeps.
    unfold ondatachannel, setupDataChannelEvents. keeps_auto.
  - apply bufferCounted_keeps. unfold onconnectionstatechange. keeps_auto.
  - apply bufferCounted_keeps. unfold markOpen, onopen. keeps_auto.
  - apply bufferCounted_keeps. unfold onclose. keeps_auto.
  - apply onmessage_bufferCounted.
  - apply bufferCounted_keeps. unfold handleFileChange. keeps_auto.
  - apply bufferCounted_keeps.
    apply send_clicked_keeps; intros; unfold send; keeps_auto.
  - apply bufferCounted_keeps. unfold downloadFile. keeps_auto.
Qed.

Lemma run_invariant (I : World -> Prop) (evs : list Event) (w : World) :
  (forall ev w, I w -> I (step ev w)) -> I w -> I (run evs w).
Proof.
  intros Hstep. revert w. induction evs as [| ev evs IH]; intros w HI.
  - exact HI.
  - cbn. apply IH, Hstep, HI.
Qed.

(** X16.  Whatever happens to the component after sign-in as [uid], in
    any order (snapshots with arbitrary messages, clicks, channel and
    connection events), every signaling message it has written names
    [uid] as its sender and the owner of the mailbox it was written to
    as its target, and carries no private scalar and no symmetric key
    bytes: although the session key pair is generated extractable, only
    its public half is ever exported. *)
Theorem mailbox_writes_name_sender_and_target_and_carry_no_secret
    (uid : string) (e : Env) (evs : list Event) :
  exists l,
    outbox (env (run evs (initialWorld uid e))) = outbox e ++ l /\
    Forall (sentBy uid) l.
Proof.
  assert (H : signalingInv uid (outbox e) (run evs (initialWorld uid e))).
  { apply run_invariant; [apply step_signalingInv |].
    split; [reflexivity |]. split; [discriminate |].
    exists []. split; [now rewrite app_nil_r | constructor]. }
  exact (proj2 (proj2 H)).
Qed.

(** X17.  In every state the component can reach, [receivedSize]
    is the number of bytes held in [receiveBuffer]: the two are reset
    together by a metadata message, grow together by each decrypted
    chunk, and nothing else in the component assigns either. *)
Theorem received_size_always_counts_the_buffered_bytes
    (uid : string) (e : Env) (evs : list Event) :
  let w := run evs (initialWorld uid e) in
  receivedSize (refs w) = byteLength (concat (receiveBuffer (refs w))).
Proof.
  apply (run_invariant bufferCounted); [apply step_bufferCounted |].
  reflexivity.
Qed.

(** ** The digest string *)

Lemma fromHex_byte (b : byte) (s : string) :
  fromHex (padStart2 (toString16 b) ++ s) = b :: fromHex s.
Proof. destruct b; reflexivity. Qed.

Lemma length_hex_byte (b : byte) :
  String.length (padStart2 (toString16 b)) = 2%nat.
Proof. destruct b; reflexivity. Qed.

Lemma string_app_nil (s : string) : (s ++ "")%string = s.
Proof.
  induction s as [| c s IH]; [reflexivity |].
  change (String c (s ++ "")%string = String c s). now rewrite IH.
Qed.

Lemma joinMap_cons (f : byte -> string) (b : byte) (l : bytes) :
  joinMap f (b :: l) = (f b ++ joinMap f l)%string.
Proof.
  unfold joinMap. cbn [map String.concat].
  destruct (map f l) as [| x xs] eqn:E; cbn.
  - now rewrite string_app_nil.
  - reflexivity.
Qed.

Lemma fromHex_joinMap (h : bytes) :
  fromHex (joinMap (fun b => padStart2 (toString16 b)) h) = h.
Proof.
  induction h as [| b h IH]; [reflexivity |].
  rewrite joinMap_cons, fromHex_byte. now rewrite IH.
Qed.

(** X18.  The string [hashFile] returns is the digest written with
    exactly two lower-case hexadecimal digits per byte (this is what
    [padStart(2, '0')] is for), so it can be read back: the strings of
    two contents are equal exactly when their SHA-256 digests are, and
    the receiver's comparison of strings is a comparison of digests. *)
Theorem hex_digest_reads_back_to_the_digest (data data' : bytes) :
  fromHex (hexDigest data) = digest data /\
  String.length (hexDigest data) = (2 * length (digest data))%nat /\
  (hexDigest data = hexDigest data' <-> digest data = digest data').
Proof.
  unfold hexDigest. split; [apply fromHex_joinMap |]. split.
  - induction (digest data) as [| b h IH]; [reflexivity |].
    rewrite joinMap_cons, length_append, length_hex_byte, IH. cbn. lia.
  - split; intros H.
    + rewrite <- (fromHex_joinMap (digest data)), H. apply fromHex_joinMap.
    + now rewrite H.
Qed.

(** ** Connecting to oneself *)

(** X19.  Entering one's own identity as the peer: [connectToPeer]
    writes the offer to the user's own mailbox, and when the listener
    reads it back it only deletes it, since the sender is the user.  No
    answer is written and no symmetric key is installed by it. *)
Theorem connecting_to_oneself_never_completes (uid id : string) (w : World) :
  userId (ui w) = Some uid ->
  uid <> "" ->
  trim (peerIdInput (ui w)) = uid ->
  let w1 := exec connectToPeer w in
  exists offerMsg,
    outbox (env w1) = outbox (env w) ++ [(uid, offerMsg)] /\
    sd_type offerMsg = "offer" /\
    exec (onSnapshot uid [asAdded id offerMsg]) w1 = exec (deleteDoc id) w1 /\
    symmetricKey (refs (exec (onSnapshot uid [asAdded id offerMsg]) w1))
      = symmetricKey (refs w) /\
    outbox (env (exec (onSnapshot uid [asAdded id offerMsg]) w1))
      = outbox (env w1).
Proof.
  intros Hid Hne Hpeer w1.
  destruct (connectToPeer_runs uid w Hid Hne) as
    (w' & pair & jwk & Hrun & _ & _ & _ & Hout & _); [now rewrite Hpeer |].
  cbv zeta in Hout. rewrite Hpeer in Hout.
  assert (Hw1 : w1 = w') by (unfold w1, exec; now rewrite Hrun).
  assert (Hkey : symmetricKey (refs w1) = symmetricKey (refs w)).
  { unfold w1, exec.
    assert (K : keeps (fun w => symmetricKey (refs w)) connectToPeer).
    { unfold connectToPeer, onPeerConnection, setupPeerConnection,
        setupDataChannelEvents. keeps_auto. }
    apply K. }
  eexists. split; [rewrite Hw1; exact Hout |]. split; [reflexivity |].
  assert (Hsnap : forall data, senderId data = uid ->
            exec (onSnapshot uid [asAdded id data]) w1 = exec (deleteDoc id) w1).
  { intros data Hs. unfold exec. cbn [onSnapshot]. unfold bind, onChange.
    cbn. rewrite Hs, String.eqb_refl. reflexivity. }
  rewrite Hsnap by reflexivity.
  split; [reflexivity |]. split; [exact Hkey | reflexivity].
Qed.

(** ** After the channel has closed *)

(** X20.  Once [onclose] has run, pressing send puts nothing on the
    channel and logs no transfer, and an incoming binary frame is not
    decrypted: it only sets the status line.  This holds whatever the
    state was before the close and whatever file is selected. *)
Theorem after_close_nothing_is_sent_or_decrypted
    (w : World) (buffer : bytes) :
  let w' := step ChannelClosed w in
  step SendClicked w' = exec (setMessage MsgSelectFileAndConnect) w' /\
  step (ChannelMessage (BinaryFrame buffer)) w'
    = exec (setMessage MsgDecryptFailed) w' /\
  wire (env (step SendClicked w')) = wire (env w) /\
  fileHistory (env (step SendClicked w')) = fileHistory (env w) /\
  receiveBuffer (refs (step (ChannelMessage (BinaryFrame buffer)) w'))
    = receiveBuffer (refs w).
Proof.
  cbv zeta. cbn [step]. unfold exec at 2 4 6 7 8. rewrite onclose_runs. cbn [snd].
  assert (Hsend : forall w0, dataChannel (refs w0) = None ->
    exec (let* f := sendFile in
          match f with Some f' => readerOnload f' | None => ret tt end) w0
    = exec (setMessage MsgSelectFileAndConnect) w0).
  { intros w0 Hdc. unfold exec, sendFile, bind, readUi, readRef.
    rewrite Hdc. now destruct (file (ui w0)). }
  rewrite !Hsend by reflexivity.
  repeat split; reflexivity.
Qed.

(** ** Downloading *)

(** X21.  A received file is handed over once: after the download
    button has been pressed, whatever the state was, no received file
    is held, and pressing it again only reports that there is none.
    Nothing but the status line and the received file changes. *)
Theorem received_file_is_downloaded_at_most_once (w : World) :
  let w1 := step DownloadClicked w in
  receivedFile (ui w1) = None /\
  (message (ui w1) = MsgNoFile <-> receivedFile (ui w) = None) /\
  step DownloadClicked w1 = exec (setMessage MsgNoFile) w1 /\
  refs w1 = refs w /\ env w1 = env w /\
  file (ui w1) = file (ui w) /\
  connectionStatus (ui w1) = connectionStatus (ui w).
Proof.
  cbv zeta. cbn [step]. unfold exec, downloadFile, bind, readUi.
  destruct (receivedFile (ui w)) as [rf |] eqn:Hrf; cbn; try rewrite Hrf;
    repeat split; try reflexivity; try discriminate; auto.
Qed.

(** ** Who an answer or a candidate comes from *)

(** X22.  The listener never compares the sender of an answer or of a
    candidate with the peer it is connecting to: a message that is not
    an offer is handled the same under any other sender identity
    different from the user's own. *)
Theorem answers_and_candidates_are_accepted_from_any_remote_sender
    (uid s id : string) (data : SignalData) (w : World) :
  sd_type data <> "offer" ->
  senderId data <> uid ->
  s <> uid ->
  dispatch uid (withSenderId s data) w = dispatch uid data w /\
  onChange uid (asAdded id (withSenderId s data)) w
    = onChange uid (asAdded id data) w.
Proof.
  intros Htype Hsender Hs.
  assert (Hd : dispatch uid (withSenderId s data) = dispatch uid data).
  { unfold dispatch. cbn [sd_type withSenderId targetId].
    apply String.eqb_neq in Htype. rewrite Htype. reflexivity. }
  split; [now rewrite Hd |].
  unfold onChange. cbn [change_type asAdded doc_data doc_id negb].
  cbn [senderId withSenderId].
  apply String.eqb_neq in Hsender, Hs. rewrite Hsender, Hs, Hd. reflexivity.
Qed.

End MoreProperties.

(* ===================================================================== *)
(** * The shared key after the transport has closed *)
(* ===================================================================== *)

Section Closing.
Context {curve : Curve} {aead : Aead} {hash : Hash}.

Lemma handleAnswer_without_connection (d : N) (pair : CryptoKeyPair)
    (Q : point) (data : SignalData) (w : World) :
  generateKey "P-256" true [deriveBits] d = Ok pair ->
  cryptoKeyPair (refs w) = Some pair ->
  importKeyJwk (sd_publicKey data) "P-256" false [] = Ok (importedPublicKey Q) ->
  peerConnection (refs w) = None ->
  handleAnswer data w =
    (Throw TypeError, exec (set_symmetricKey (Some (sharedKey (smul d Q)))) w).
Proof.
  intros Hgen Hpair Himp Hpc.
  apply generateKey_pair in Hgen as [Hpriv _].
  unfold handleAnswer.
  erewrite bind_ok by (unfold lift; rewrite Himp; reflexivity).
  erewrite bind_ok by (unfold bind, readRef; rewrite Hpair; reflexivity).
  erewrite bind_ok
    by (unfold lift, importedPublicKey; rewrite Hpriv, deriveBits_shared;
        reflexivity).
  erewrite bind_ok by (unfold lift; rewrite importKeyRaw_shared; reflexivity).
  erewrite bind_ok by reflexivity.
  unfold onPeerConnection, bind, readRef. cbn. rewrite Hpc. reflexivity.
Qed.

Lemma run_userId (uid : string) (e : Env) (evs : list Event) :
  userId (ui (run evs (initialWorld uid e))) = Some uid.
Proof.
  assert (H : signalingInv uid (outbox e) (run evs (initialWorld uid e))).
  { apply run_invariant; [apply step_signalingInv |].
    split; [reflexivity |]. split; [discriminate |].
    exists []. split; [now rewrite app_nil_r | constructor]. }
  exact (proj1 H).
Qed.

Lemma onChange_failed (uid id : string) (data : SignalData) (e : Exn)
    (w w1 : World) :
  senderId data <> uid ->
  dispatch uid data w = (Throw e, w1) ->
  exec (onChange uid (asAdded id data)) w =
    exec (deleteDoc id) (exec (setMessage MsgSignalingFailed) w1).
Proof.
  intros Hremote Hrun. apply String.eqb_neq in Hremote.
  unfold exec at 1, onChange. cbn [asAdded change_type doc_data doc_id].
  rewrite Hremote. cbn [String.eqb Ascii.eqb Bool.eqb negb].
  unfold tryCatchFinally, tryCatch. rewrite Hrun. reflexivity.
Qed.

Lemma late_answer_after_close (uid id : string) (d : N)
    (pair : CryptoKeyPair) (Q : point) (data : SignalData) (w : World) :
  userId (ui w) = Some uid ->
  uid <> "" ->
  generateKey "P-256" true [deriveBits] d = Ok pair ->
  cryptoKeyPair (refs w) = Some pair ->
  sd_type data = "answer" ->
  targetId data = Some uid ->
  senderId data <> uid ->
  importKeyJwk (sd_publicKey data) "P-256" false [] = Ok (importedPublicKey Q) ->
  let w1 := step ChannelClosed w in
  let w2 := step (Snapshot [asAdded id data]) w1 in
  (connectionStatus (ui w1) = "disconnected" /\
   symmetricKey (refs w1) = None /\
   dataChannel (refs w1) = None /\
   peerConnection (refs w1) = None) /\
  connectionStatus (ui w2) = "disconnected" /\
  symmetricKey (refs w2) = Some (sharedKey (smul d Q)) /\
  dataChannel (refs w2) = None /\
  peerConnection (refs w2) = None /\
  message (ui w2) = MsgSignalingFailed /\
  deleteCalls (env w2) = deleteCalls (env w) ++ [id].
Proof.
  intros Hu Hne Hgen Hpair Htype Htarget Hsender Himp. cbv zeta.
  split; [cbn [step]; unfold exec; rewrite onclose_runs; cbn; repeat split |].
  set (w1 := step ChannelClosed w).
  assert (Hw1 : w1 = snd (onclose w)) by reflexivity.
  rewrite onclose_runs in Hw1. cbn [snd] in Hw1. clearbody w1.
  assert (Hu1 : userId (ui w1) = Some uid) by (rewrite Hw1; exact Hu).
  assert (Hpair1 : cryptoKeyPair (refs w1) = Some pair)
    by (rewrite Hw1; exact Hpair).
  assert (Hpc1 : peerConnection (refs w1) = None) by now rewrite Hw1.
  assert (Hdisp : dispatch uid data w1 =
            (Throw TypeError,
             exec (set_symmetricKey (Some (sharedKey (smul d Q)))) w1)).
  { unfold dispatch. rewrite Htype, Htarget.
    cbn [String.eqb Ascii.eqb Bool.eqb isId andb]. rewrite String.eqb_refl.
    exact (handleAnswer_without_connection d pair Q data w1
             Hgen Hpair1 Himp Hpc1). }
  cbn [step]. rewrite Hu1.
  apply String.eqb_neq in Hne. rewrite Hne.
  rewrite onSnapshot_single, (onChange_failed uid id data _ w1 _ Hsender Hdisp).
  rewrite Hw1. cbn. repeat split.
Qed.

(** C9.  The close event clears everything in its own step: from every
    state the component can reach, the state right after it has the
    status "disconnected" with the shared key, the data channel and the
    peer connection all cleared.  But [onclose] leaves the key pair
    in place, and the answer branch of the listener installs the derived
    key before it touches the peer connection: an answer addressed to
    the user that is read after the close derives and installs a shared
    key, then fails on the cleared connection.  The state reached has
    the status "disconnected" set by the close, no transport, and a
    shared key. *)
Theorem answer_after_close_installs_key_in_disconnected_state
    (uid id : string) (e : Env) (evs : list Event) (d : N)
    (pair : CryptoKeyPair) (Q : point) (data : SignalData) :
  let w := run evs (initialWorld uid e) in
  let w1 := run (evs ++ [ChannelClosed]) (initialWorld uid e) in
  let w2 := run (evs ++ [ChannelClosed; Snapshot [asAdded id data]])
              (initialWorld uid e) in
  uid <> "" ->
  generateKey "P-256" true [deriveBits] d = Ok pair ->
  cryptoKeyPair (refs w) = Some pair ->
  sd_type data = "answer" ->
  targetId data = Some uid ->
  senderId data <> uid ->
  importKeyJwk (sd_publicKey data) "P-256" false [] = Ok (importedPublicKey Q) ->
  (connectionStatus (ui w1) = "disconnected" /\
   symmetricKey (refs w1) = None /\
   dataChannel (refs w1) = None /\
   peerConnection (refs w1) = None) /\
  connectionStatus (ui w2) = "disconnected" /\
  symmetricKey (refs w2) = Some (sharedKey (smul d Q)) /\
  dataChannel (refs w2) = None /\
  peerConnection (refs w2) = None /\
  message (ui w2) = MsgSignalingFailed /\
  deleteCalls (env w2) = deleteCalls (env w) ++ [id].
Proof.
  intros w w1 w2 Hne Hgen Hpair Htype Htarget Hsender Himp.
  subst w1 w2.
  change [ChannelClosed; Snapshot [asAdded id data]]
    with ([ChannelClosed] ++ [Snapshot [asAdded id data]]).
  rewrite app_assoc, !run_snoc. fold w.
  exact (late_answer_after_close uid id d pair Q data w
           (run_userId uid e evs) Hne Hgen Hpair Htype Htarget Hsender Himp).
Qed.

End Closing.

(* ===================================================================== *)
(** * The properties at the concrete session *)
(* ===================================================================== *)

Section SessionProperties.
#[local] Existing Instance toyCurve.
#[local] Existing Instance toyAead.
#[local] Existing Instance toyHash.

Example session_established :
  connectionStatus (ui alice2) = "connected" /\
  connectionStatus (ui bob1) = "connected" /\
  symmetricKey (refs alice2) = symmetricKey (refs bob1) /\
  is_Some (symmetricKey (refs alice2)) /\
  deleteCalls (env bob1) = ["d1"] /\ deleteCalls (env alice2) = ["d2"].
Proof. repeat split. eexists. reflexivity. Qed.

(** Bob, given everything Alice has sent for the three-byte file, ends
    with the file verified. *)
Example three_byte_file_delivered :
  receivedFile (ui (receive (wire (env alice3)) bob1)) =
    Some {| name := "a.txt";
            blob := {| blob_parts := file_data abc; blob_type := "text/plain" |} |} /\
  message (ui (receive (wire (env alice3)) bob1)) = MsgVerified.
Proof. split; reflexivity. Qed.

Lemma both_handlers_derive_the_same_symmetric_key_witness :
  generateKey "P-256" true [deriveBits] 5 = Ok (pairOf alice1) /\
  generateKey "P-256" true [deriveBits] 11 = Ok (pairOf bob1) /\
  exportKey (publicKey (pairOf alice1)) = Ok (jwkOf offerOfAlice) /\
  exportKey (publicKey (pairOf bob1)) = Ok (jwkOf answerOfBob) /\
  cryptoKeyPair (refs alice1) = Some (pairOf alice1) /\
  scalars (env bob0) (keygenCount (env bob0)) = 11%N /\
  sd_publicKey offerOfAlice = Some (jwkOf offerOfAlice) /\
  sd_publicKey answerOfBob = Some (jwkOf answerOfBob) /\
  symmetricKey (refs (exec (handleOffer "bob" offerOfAlice) bob0)) =
    symmetricKey (refs (exec (handleAnswer answerOfBob) alice1)) /\
  is_Some (symmetricKey (refs (exec (handleOffer "bob" offerOfAlice) bob0))).
Proof.
  assert (h1 : generateKey "P-256" true [deriveBits] 5 = Ok (pairOf alice1))
    by reflexivity.
  assert (h2 : generateKey "P-256" true [deriveBits] 11 = Ok (pairOf bob1))
    by reflexivity.
  assert (h3 : exportKey (publicKey (pairOf alice1)) = Ok (jwkOf offerOfAlice))
    by reflexivity.
  assert (h4 : exportKey (publicKey (pairOf bob1)) = Ok (jwkOf answerOfBob))
    by reflexivity.
  assert (h5 : cryptoKeyPair (refs alice1) = Some (pairOf alice1))
    by reflexivity.
  assert (h6 : scalars (env bob0) (keygenCount (env bob0)) = 11%N)
    by reflexivity.
  assert (h7 : sd_publicKey offerOfAlice = Some (jwkOf offerOfAlice))
    by reflexivity.
  assert (h8 : sd_publicKey answerOfBob = Some (jwkOf answerOfBob))
    by reflexivity.
  destruct (both_handlers_derive_the_same_symmetric_key 5 11 (pairOf alice1) (pairOf bob1)
              (jwkOf offerOfAlice) (jwkOf answerOfBob) "bob" offerOfAlice
              answerOfBob alice1 bob0
              h1 h2 h3 h4 h5 h6 h7 h8) as (key & _ & HkB & HkA & _).
  refine (conj h1 (conj h2 (conj h3 (conj h4 (conj h5 (conj h6
            (conj h7 (conj h8 (conj _ _))))))))).
  - exact (eq_trans HkB (eq_sym HkA)).
  - exists key. exact HkB.
Defined.

Lemma encrypted_chunk_frame_round_trip_witness :
  importKeyRaw (rawOf (keyOf alice2)) false [encrypt; decrypt] = Ok (keyOf alice2) /\
  symmetricKey (refs alice2) = Some (keyOf alice2) /\
  symmetricKey (refs bob1) = Some (keyOf alice2) /\
  dataChannel (refs alice2) = Some openChannel /\
  readyState openChannel = "open" /\
  length (nextIv alice2) = 12%nat /\
  wire (env (exec (sendChunk (file_data abc) 0) alice2)) = [BinaryFrame frameOfAbc] /\
  receiveBuffer (refs (exec (onmessage (BinaryFrame frameOfAbc)) bob1))
    = [file_data abc].
Proof.
  assert (h1 : importKeyRaw (rawOf (keyOf alice2)) false [encrypt; decrypt]
               = Ok (keyOf alice2)) by reflexivity.
  assert (h2 : symmetricKey (refs alice2) = Some (keyOf alice2)) by reflexivity.
  assert (h3 : symmetricKey (refs bob1) = Some (keyOf alice2)) by reflexivity.
  assert (h4 : dataChannel (refs alice2) = Some openChannel) by reflexivity.
  assert (h5 : readyState openChannel = "open") by reflexivity.
  destruct (encrypted_chunk_frame_round_trip
              (rawOf (keyOf alice2)) (keyOf alice2) openChannel
              (file_data abc) 0 alice2 bob1 h1 h2 h3 h4 h5)
    as (Hiv & _ & Hwire & _ & _ & Hrecv).
  destruct (Hrecv (file_data abc) (nextIv alice2) Hiv) as (_ & Hbuf & _).
  exact (conj h1 (conj h2 (conj h3 (conj h4 (conj h5
           (conj Hiv (conj Hwire Hbuf))))))).
Defined.

Lemma empty_file_transfer_never_completes_witness :
  dataChannel (refs alice2) = Some openChannel /\
  readyState openChannel = "open" /\
  file_data emptyFile = [] /\
  message (ui (exec (readerOnload emptyFile) alice2)) = MsgFileSent /\
  wire (env (exec (readerOnload emptyFile) alice2))
    = [TextFrame (Json (metadataOf emptyFile))] /\
  receivedFile (ui (receive [TextFrame (Json (metadataOf emptyFile))] bob1)) = None.
Proof.
  assert (h1 : dataChannel (refs alice2) = Some openChannel) by reflexivity.
  assert (h2 : readyState openChannel = "open") by reflexivity.
  assert (h3 : file_data emptyFile = []) by reflexivity.
  destruct (empty_file_transfer_never_completes
              openChannel emptyFile alice2 bob1 h1 h2 h3)
    as (_ & Hmsg & Hwire & _ & _ & _ & _ & Hfile & _).
  exact (conj h1 (conj h2 (conj h3 (conj Hmsg (conj Hwire Hfile))))).
Defined.


Lemma mailbox_message_deleted_once_even_if_handling_throws_witness :
  fst (dispatch "alice" badOffer alice0) = Throw DataError /\
  deleteCalls (env (exec (onSnapshot "alice" batch) alice0)) = ["m1"; "m2"; "m4"] /\
  mailbox (env (exec (onSnapshot "alice" batch) alice0)) !! "m1" = None /\
  message (ui (exec (onChange "alice" (change "added" "m1" badOffer)) alice0))
    = MsgSignalingFailed.
Proof.
  assert (h : fst (dispatch "alice" badOffer alice0) = Throw DataError)
    by reflexivity.
  destruct (mailbox_message_deleted_once_even_if_handling_throws
              "alice" batch alice0) as (_ & Hcalls & Hgone & Hthrow).
  destruct (Hthrow (change "added" "m1" badOffer) [] alice0 DataError
              eq_refl eq_refl h) as (_ & Hmsg & _).
  split; [exact h |]. split; [exact Hcalls |]. split; [| exact Hmsg].
  apply Hgone. left. reflexivity.
Defined.

Lemma self_echo_is_deleted_without_processing_witness :
  senderId (doc_data (change "added" "m2" echo)) = "alice" /\
  isAdded (change "added" "m2" echo) = true /\
  refs (exec (onSnapshot "alice" batch) alice0) =
    refs (exec (onSnapshot "alice"
                  [change "added" "m1" badOffer;
                   change "modified" "m3" carolCandidate;
                   change "added" "m4" carolCandidate]) alice0) /\
  outbox (env (exec (onChange "alice" (change "added" "m2" echo)) alice0)) = [].
Proof.
  assert (h1 : senderId (doc_data (change "added" "m2" echo)) = "alice")
    by reflexivity.
  assert (h2 : isAdded (change "added" "m2" echo) = true) by reflexivity.
  destruct (self_echo_is_deleted_without_processing "alice" []
              [change "added" "m1" badOffer] (change "added" "m2" echo)
              alice0 h1 h2) as (_ & _ & _ & Hout & _).
  split; [exact h1 |]. split; [exact h2 |]. split; [reflexivity | exact Hout].
Defined.

Lemma answer_and_candidate_need_targetId_offer_does_not_witness :
  isAdded (delivery "d1" ("bob", offerOfAlice)) = true /\
  senderId (doc_data (delivery "d1" ("bob", offerOfAlice))) <> "bob" /\
  keygenCount (env (exec (onChange "bob" (delivery "d1" ("bob", offerOfAlice))) bob0))
    = 1%nat /\
  onChange "bob" (retarget None (delivery "d1" ("bob", offerOfAlice))) bob0 =
    onChange "bob" (delivery "d1" ("bob", offerOfAlice)) bob0.
Proof.
  assert (h1 : isAdded (delivery "d1" ("bob", offerOfAlice)) = true)
    by reflexivity.
  assert (h2 : senderId (doc_data (delivery "d1" ("bob", offerOfAlice))) <> "bob")
    by (intros H; vm_compute in H; discriminate H).
  destruct (answer_and_candidate_need_targetId_offer_does_not
              "bob" (delivery "d1" ("bob", offerOfAlice)) bob0 h1 h2)
    as (Hoffer & _).
  destruct (Hoffer eq_refl) as (_ & Hany & Hgen).
  split; [exact h1 |]. split; [exact h2 |]. split; [exact Hgen | exact (Hany None)].
Defined.

Lemma sender_final_progress_counts_whole_chunks_witness :
  importKeyRaw (rawOf (keyOf alice2)) false [encrypt; decrypt] = Ok (keyOf alice2) /\
  symmetricKey (refs alice2) = Some (keyOf alice2) /\
  dataChannel (refs alice2) = Some openChannel /\
  readyState openChannel = "open" /\
  0 < file_size oneByte /\
  file_size oneByte mod chunkSize <> 0 /\
  transferProgress (ui (exec (readerOnload oneByte) alice2)) = percent 16384 1 /\
  (100 < transferProgress (ui (exec (readerOnload oneByte) alice2)))%Q.
Proof.
  assert (h1 : importKeyRaw (rawOf (keyOf alice2)) false [encrypt; decrypt]
               = Ok (keyOf alice2)) by reflexivity.
  assert (h2 : symmetricKey (refs alice2) = Some (keyOf alice2)) by reflexivity.
  assert (h3 : dataChannel (refs alice2) = Some openChannel) by reflexivity.
  assert (h4 : readyState openChannel = "open") by reflexivity.
  assert (h5 : 0 < file_size oneByte) by reflexivity.
  assert (h6 : file_size oneByte mod chunkSize <> 0)
    by (intros H; vm_compute in H; discriminate H).
  destruct (sender_final_progress_counts_whole_chunks
              (rawOf (keyOf alice2)) (keyOf alice2) openChannel oneByte alice2
              h1 h2 h3 h4 h5) as (_ & Hprog & Habove & _).
  exact (conj h1 (conj h2 (conj h3 (conj h4 (conj h5
           (conj h6 (conj Hprog (Habove h6)))))))).
Defined.

(** C7 as the specification words it fails: the private key of the pair
    generated for a session is not non-extractable. *)
Lemma session_private_key_non_extractable_counterexample :
  ~ (forall pair : CryptoKeyPair,
       cryptoKeyPair (refs (exec (setupPeerConnection "bob") alice0)) = Some pair ->
       key_extractable (privateKey pair) = false).
Proof.
  intros H. specialize (H _ eq_refl). discriminate H.
Qed.

(** The percentage reported after the only chunk of a one-byte file. *)
Example one_byte_file_progress :
  (transferProgress (ui (exec (readerOnload oneByte) alice2)) == 1638400)%Q.
Proof. reflexivity. Qed.

End SessionProperties.

(* ===================================================================== *)
(** * The further properties at the concrete session *)
(* ===================================================================== *)

Section MoreSessionProperties.
#[local] Existing Instance toyCurve.
#[local] Existing Instance toyAead.
#[local] Existing Instance toyHash.

Lemma undecryptable_frame_only_changes_status_line_witness :
  symmetricKey (refs bob0) = None /\
  onmessage (BinaryFrame frameOfAbc) bob0 = setMessage MsgDecryptFailed bob0.
Proof.
  assert (h : symmetricKey (refs bob0) = None) by reflexivity.
  exact (conj h (undecryptable_frame_only_changes_status_line
                   frameOfAbc bob0 (or_introl h))).
Defined.

Lemma text_other_than_metadata_is_ignored_witness :
  cm_type ping <> "fileMetadata" /\
  onmessage (TextFrame (Json ping)) bob1 = (Ok tt, bob1).
Proof.
  assert (h : cm_type ping <> "fileMetadata")
    by (intros H; vm_compute in H; discriminate H).
  assert (h' : forall o, Json ping = Json o -> cm_type o <> "fileMetadata")
    by (intros o [= <-]; exact h).
  exact (conj h (text_other_than_metadata_is_ignored (Json ping) bob1 h')).
Defined.

Lemma white_space_only_peer_id_refuses_to_connect_witness :
  blank [" "; noBreakSpace; utf8 [9]%nat] = true /\
  peerIdInput (ui (aliceTyped spaces)) = String.concat "" [" "; noBreakSpace; utf8 [9]%nat] /\
  connectToPeer (aliceTyped spaces) = setMessage MsgEnterPeerId (aliceTyped spaces).
Proof.
  assert (h1 : blank [" "; noBreakSpace; utf8 [9]%nat] = true) by reflexivity.
  assert (h2 : peerIdInput (ui (aliceTyped spaces))
               = String.concat "" [" "; noBreakSpace; utf8 [9]%nat]) by reflexivity.
  exact (conj h1 (conj h2 (white_space_only_peer_id_refuses_to_connect
                             [" "; noBreakSpace; utf8 [9]%nat]
                             (aliceTyped spaces) h1 h2))).
Defined.



Lemma offer_with_bad_key_replaces_connection_and_sends_nothing_witness :
  isAdded (change "added" "m1" badOffer) = true /\
  senderId (doc_data (change "added" "m1" badOffer)) <> "alice" /\
  importKeyJwk (sd_publicKey (doc_data (change "added" "m1" badOffer)))
    "P-256" false [] = Throw DataError /\
  outbox (env (exec (onChange "alice" (change "added" "m1" badOffer)) alice0))
    = outbox (env alice0) /\
  message (ui (exec (onChange "alice" (change "added" "m1" badOffer)) alice0))
    = MsgSignalingFailed.
Proof.
  assert (h1 : isAdded (change "added" "m1" badOffer) = true) by reflexivity.
  assert (h2 : senderId (doc_data (change "added" "m1" badOffer)) <> "alice")
    by (intros H; vm_compute in H; discriminate H).
  assert (h3 : importKeyJwk (sd_publicKey (doc_data (change "added" "m1" badOffer)))
                 "P-256" false [] = Throw DataError) by reflexivity.
  destruct (offer_with_bad_key_replaces_connection_and_sends_nothing
              "alice" (change "added" "m1" badOffer) DataError alice0
              h1 h2 eq_refl h3)
    as (_ & Hout & _ & _ & _ & _ & _ & _ & Hmsg).
  exact (conj h1 (conj h2 (conj h3 (conj Hout Hmsg)))).
Defined.

Lemma offer_with_bad_description_installs_key_but_sends_nothing_witness :
  importKeyJwk (sd_publicKey offerWithoutDescription) "P-256" false []
    = Ok (importedPublicKey (smul 5 basePoint)) /\
  offer offerWithoutDescription = None /\
  outbox (env (exec (handleOffer "bob" offerWithoutDescription) bob0))
    = outbox (env bob0) /\
  is_Some (symmetricKey (refs (exec (handleOffer "bob" offerWithoutDescription) bob0))).
Proof.
  assert (h1 : importKeyJwk (sd_publicKey offerWithoutDescription) "P-256" false []
               = Ok (importedPublicKey (smul 5 basePoint))) by reflexivity.
  assert (h2 : offer offerWithoutDescription = None) by reflexivity.
  destruct (offer_with_bad_description_installs_key_but_sends_nothing
              "bob" offerWithoutDescription
              (importedPublicKey (smul 5 basePoint)) bob0 h1 (or_introl h2))
    as (Q & e & _ & _ & Hkey & Hout & _).
  refine (conj h1 (conj h2 (conj Hout _))).
  eexists. exact Hkey.
Defined.

Lemma answer_without_key_pair_or_with_bad_key_changes_nothing_witness :
  isAdded (change "added" "a1" answerOfBob) = true /\
  senderId (doc_data (change "added" "a1" answerOfBob)) <> "alice" /\
  sd_type (doc_data (change "added" "a1" answerOfBob)) = "answer" /\
  targetId (doc_data (change "added" "a1" answerOfBob)) = Some "alice" /\
  cryptoKeyPair (refs alice0) = None /\
  exec (onChange "alice" (change "added" "a1" answerOfBob)) alice0 =
    exec (deleteDoc "a1") (exec (setMessage MsgSignalingFailed) alice0).
Proof.
  assert (h1 : isAdded (change "added" "a1" answerOfBob) = true) by reflexivity.
  assert (h2 : senderId (doc_data (change "added" "a1" answerOfBob)) <> "alice")
    by (intros H; vm_compute in H; discriminate H).
  assert (h3 : sd_type (doc_data (change "added" "a1" answerOfBob)) = "answer")
    by reflexivity.
  assert (h4 : targetId (doc_data (change "added" "a1" answerOfBob)) = Some "alice")
    by reflexivity.
  assert (h5 : cryptoKeyPair (refs alice0) = None) by reflexivity.
  exact (conj h1 (conj h2 (conj h3 (conj h4 (conj h5
           (answer_without_key_pair_or_with_bad_key_changes_nothing
              "alice" (change "added" "a1" answerOfBob) alice0
              h1 h2 h3 h4 (or_introl h5))))))).
Defined.

Lemma unhandled_messages_are_only_deleted_witness :
  isAdded (change "added" "m4" carolCandidate) = true /\
  senderId (doc_data (change "added" "m4" carolCandidate)) <> "alice" /\
  peerConnection (refs alice0) = None /\
  onChange "alice" (change "added" "m4" carolCandidate) alice0
    = deleteDoc "m4" alice0.
Proof.
  assert (h1 : isAdded (change "added" "m4" carolCandidate) = true)
    by reflexivity.
  assert (h2 : senderId (doc_data (change "added" "m4" carolCandidate)) <> "alice")
    by (intros H; vm_compute in H; discriminate H).
  assert (h3 : peerConnection (refs alice0) = None) by reflexivity.
  exact (conj h1 (conj h2 (conj h3
           (unhandled_messages_are_only_deleted
              "alice" (change "added" "m4" carolCandidate) alice0 h1 h2
              (or_intror (conj eq_refl h3)))))).
Defined.

Lemma handshake_gives_both_peers_the_same_key_witness :
  userId (ui (aliceTyped " bob ")) = Some "alice" /\
  trim (peerIdInput (ui (aliceTyped " bob "))) = "bob" /\
  exists offerMsg answerMsg : SignalData,
    outbox (env (exec connectToPeer (aliceTyped " bob "))) = [("bob", offerMsg)] /\
    outbox (env (exec (onSnapshot "bob" [asAdded "d1" offerMsg]) bob0))
      = [("alice", answerMsg)] /\
    symmetricKey (refs (exec (onSnapshot "alice" [asAdded "d2" answerMsg])
                          (exec connectToPeer (aliceTyped " bob "))))
      = Some (sharedKey (smul (5 * 11) basePoint)) /\
    symmetricKey (refs (exec (onSnapshot "bob" [asAdded "d1" offerMsg]) bob0))
      = Some (sharedKey (smul (5 * 11) basePoint)).
Proof.
  assert (h1 : userId (ui (aliceTyped " bob ")) = Some "alice") by reflexivity.
  assert (h2 : "alice" <> "") by discriminate.
  assert (h3 : trim (peerIdInput (ui (aliceTyped " bob "))) = "bob")
    by reflexivity.
  assert (h4 : "bob" <> "") by discriminate.
  assert (h5 : "alice" <> "bob") by discriminate.
  destruct (handshake_gives_both_peers_the_same_key
              "alice" "bob" "d1" "d2" (aliceTyped " bob ") bob0
              h1 h2 h3 h4 h5)
    as (offerMsg & answerMsg & HoutA & HoutB & HkA & HkB & _).
  refine (conj h1 (conj h3 _)).
  exists offerMsg, answerMsg.
  exact (conj HoutA (conj HoutB (conj HkA HkB))).
Defined.

Lemma file_sent_after_handshake_arrives_verified_witness :
  userId (ui (aliceTyped " bob ")) = Some "alice" /\
  trim (peerIdInput (ui (aliceTyped " bob "))) = "bob" /\
  0 < file_size abc /\ 0 < file_size oneByte /\
  exists (offerMsg answerMsg : SignalData) (framesA framesB : list Frame),
    outbox (env (exec connectToPeer (aliceTyped " bob "))) = [("bob", offerMsg)] /\
    outbox (env (exec (onSnapshot "bob" [asAdded "d1" offerMsg]) bob0))
      = [("alice", answerMsg)] /\
    receivedFile
      (ui (receive framesA
             (step ChannelOpened
                (exec (onSnapshot "bob" [asAdded "d1" offerMsg]) bob0)))) =
      Some {| name := "a.txt";
              blob := {| blob_parts := file_data abc;
                         blob_type := "text/plain" |} |} /\
    receivedFile
      (ui (receive framesB
             (step ChannelOpened
                (exec (onSnapshot "alice" [asAdded "d2" answerMsg])
                   (exec connectToPeer (aliceTyped " bob ")))))) =
      Some {| name := "x.bin";
              blob := {| blob_parts := file_data oneByte; blob_type := "" |} |}.
Proof.
  assert (h1 : userId (ui (aliceTyped " bob ")) = Some "alice") by reflexivity.
  assert (h2 : "alice" <> "") by discriminate.
  assert (h3 : trim (peerIdInput (ui (aliceTyped " bob "))) = "bob")
    by reflexivity.
  assert (h4 : "bob" <> "") by discriminate.
  assert (h5 : "alice" <> "bob") by discriminate.
  assert (h6 : 0 < file_size abc) by reflexivity.
  assert (h7 : 0 < file_size oneByte) by reflexivity.
  destruct (file_sent_after_handshake_arrives_verified
              "alice" "bob" "d1" "d2" (aliceTyped " bob ") bob0 abc oneByte
              h1 h2 h3 h4 h5 h6 h7)
    as (offerMsg & answerMsg & framesA & framesB & HoutA & HoutB & _ & _ & _ & _
        & HfileB & _ & HfileA & _).
  refine (conj h1 (conj h3 (conj h6 (conj h7 _)))).
  exists offerMsg, answerMsg, framesA, framesB.
  exact (conj HoutA (conj HoutB (conj HfileB HfileA))).
Defined.

Lemma connecting_to_oneself_never_completes_witness :
  userId (ui (aliceTyped "alice")) = Some "alice" /\
  trim (peerIdInput (ui (aliceTyped "alice"))) = "alice" /\
  exists offerMsg : SignalData,
    outbox (env (exec connectToPeer (aliceTyped "alice")))
      = [("alice", offerMsg)] /\
    symmetricKey (refs (exec (onSnapshot "alice" [asAdded "e1" offerMsg])
                          (exec connectToPeer (aliceTyped "alice")))) = None.
Proof.
  assert (h1 : userId (ui (aliceTyped "alice")) = Some "alice") by reflexivity.
  assert (h2 : "alice" <> "") by discriminate.
  assert (h3 : trim (peerIdInput (ui (aliceTyped "alice"))) = "alice")
    by reflexivity.
  destruct (connecting_to_oneself_never_completes
              "alice" "e1" (aliceTyped "alice") h1 h2 h3)
    as (offerMsg & Hout & _ & _ & Hkey & _).
  refine (conj h1 (conj h3 _)).
  exists offerMsg. exact (conj Hout Hkey).
Defined.

Lemma answers_and_candidates_are_accepted_from_any_remote_sender_witness :
  sd_type answerOfBob <> "offer" /\
  senderId answerOfBob <> "alice" /\
  "mallory" <> "alice" /\
  dispatch "alice" (withSenderId "mallory" answerOfBob) alice1
    = dispatch "alice" answerOfBob alice1.
Proof.
  assert (h1 : sd_type answerOfBob <> "offer")
    by (intros H; vm_compute in H; discriminate H).
  assert (h2 : senderId answerOfBob <> "alice")
    by (intros H; vm_compute in H; discriminate H).
  assert (h3 : "mallory" <> "alice") by discriminate.
  destruct (answers_and_candidates_are_accepted_from_any_remote_sender
              "alice" "mallory" "a1" answerOfBob alice1 h1 h2 h3)
    as (Hd & _).
  exact (conj h1 (conj h2 (conj h3 Hd))).
Defined.

Lemma answer_after_close_installs_key_in_disconnected_state_witness :
  connectionStatus
    (ui (run aliceConnected (initialWorld "alice" (toyEnv 5)))) = "connected" /\
  cryptoKeyPair (refs (run aliceConnected (initialWorld "alice" (toyEnv 5))))
    = Some (pairOf alice1) /\
  sd_type answerOfBob = "answer" /\
  targetId answerOfBob = Some "alice" /\
  senderId answerOfBob <> "alice" /\
  connectionStatus
    (ui (run (aliceConnected ++
                [ChannelClosed; Snapshot [asAdded "d3" answerOfBob]])
           (initialWorld "alice" (toyEnv 5)))) = "disconnected" /\
  symmetricKey
    (refs (run (aliceConnected ++
                  [ChannelClosed; Snapshot [asAdded "d3" answerOfBob]])
             (initialWorld "alice" (toyEnv 5))))
    = Some (sharedKey (smul 5 (smul 11 basePoint))) /\
  peerConnection
    (refs (run (aliceConnected ++
                  [ChannelClosed; Snapshot [asAdded "d3" answerOfBob]])
             (initialWorld "alice" (toyEnv 5)))) = None.
Proof.
  assert (h0 : connectionStatus
                 (ui (run aliceConnected (initialWorld "alice" (toyEnv 5))))
               = "connected") by reflexivity.
  assert (h1 : "alice" <> "") by discriminate.
  assert (h2 : generateKey "P-256" true [deriveBits] 5 = Ok (pairOf alice1))
    by reflexivity.
  assert (h3 : cryptoKeyPair
                 (refs (run aliceConnected (initialWorld "alice" (toyEnv 5))))
               = Some (pairOf alice1)) by reflexivity.
  assert (h4 : sd_type answerOfBob = "answer") by reflexivity.
  assert (h5 : targetId answerOfBob = Some "alice") by reflexivity.
  assert (h6 : senderId answerOfBob <> "alice")
    by (intros H; vm_compute in H; discriminate H).
  assert (h7 : importKeyJwk (sd_publicKey answerOfBob) "P-256" false []
               = Ok (importedPublicKey (smul 11 basePoint))) by reflexivity.
  destruct (answer_after_close_installs_key_in_disconnected_state
              "alice" "d3" (toyEnv 5) aliceConnected 5 (pairOf alice1)
              (smul 11 basePoint) answerOfBob h1 h2 h3 h4 h5 h6 h7)
    as (_ & Hstatus & Hkey & _ & Hpc & _).
  exact (conj h0 (conj h3 (conj h4 (conj h5 (conj h6
           (conj Hstatus (conj Hkey Hpc))))))).
Defined.

(** An offer whose [sdp] does not parse is not answered. *)
Example garbled_offer_is_not_answered :
  fst (handleOffer "bob" garbledOffer bob0) = Throw OperationError /\
  outbox (env (exec (handleOffer "bob" garbledOffer) bob0)) = [].
Proof. split; reflexivity. Qed.

(** [trim] strips the Unicode white space that [String.prototype.trim]
    strips, and only at the ends. *)
Example trim_strips_unicode_white_space :
  trim " bob " = "bob" /\
  trim (utf8 [98; 111; 98; 194; 160]%nat) = "bob" /\
  trim (utf8 [239; 187; 191; 32; 120; 226; 128; 168; 10]%nat) = "x" /\
  trim noBreakSpace = "" /\
  trim "a b" = "a b" /\
  trim (utf8 [195; 160]%nat) = utf8 [195; 160]%nat.
Proof. repeat split. Qed.

End MoreSessionProperties.
